(** * Session / request resiliency core of the Elate chatbot backend

    A shallow embedding of
    - [elate_chatbot/edge_case_middleware.py]: [CircuitBreaker],
      [EdgeCaseHandlingMiddleware], [RetryMiddleware], [retry_on_failure];
    - [users/models.py]: [UserSession.end_session];
    - [users/middleware.py]: [SessionManagementMiddleware];
    followed by the properties of the specification that concern them.

    Conventions.  Python integers are [Z]; durations and timestamps in seconds
    are exact rationals [Qc] (the rounding of Python floats is not modelled);
    Python [str] is [string] (bytes, so only the ASCII part of [lower] and
    [strip] is modelled); a [dict] used as a map is a [gmap]; a function that
    may raise returns an [Outcome]; mutable objects are passed and returned
    explicitly. *)

From Stdlib Require Import Ascii String ZArith QArith Qcanon Lia.
From stdpp Require Import gmap strings list numbers pretty.

Set Default Proof Using "Type".
Local Open Scope Z_scope.

(** ** Python values shared by all modules *)

Module Py.

(** The exception classes the repository names in an [except] clause, an
    [isinstance] test or a [raise], with the base classes that relate them
    in their libraries (django.db, django.core.exceptions, django.http,
    requests.exceptions, redis.exceptions, builtins).  [Exception] is the
    root: what lies outside it (KeyboardInterrupt, SystemExit) is not
    modelled, so [except Exception] catches everything here. *)
Inductive ExcClass :=
| Exception
| TypeError | ValueError | AttributeError
| DatabaseError | OperationalError | IntegrityError
| ValidationError | PermissionDenied | Http404
| RequestException | Timeout | ConnectionError
| RedisError | RedisConnectionError.

#[global] Instance ExcClass_eq_dec : EqDecision ExcClass.
Proof. solve_decision. Defined.

(** Direct base class ([None] for the root). *)
Definition bases (c : ExcClass) : option ExcClass :=
  match c with
  | Exception => None
  | OperationalError | IntegrityError => Some DatabaseError
  | Timeout | ConnectionError => Some RequestException
  | RedisConnectionError => Some RedisError
  | _ => Some Exception
  end.

(** Method resolution order, bounded by the depth of the hierarchy. *)
Fixpoint mro_upto (fuel : nat) (c : ExcClass) : list ExcClass :=
  match fuel with
  | O => [c]
  | S fuel' =>
      c :: match bases c with
           | Some b => mro_upto fuel' b
           | None => []
           end
  end.

Definition mro (c : ExcClass) : list ExcClass := mro_upto 3 c.

Definition issubclass (c d : ExcClass) : bool := bool_decide (d ∈ mro c).

(** An exception instance: its class, [str(e)], and the optional
    [status_code] attribute probed by [RetryMiddleware._should_retry]. *)
Record Exn := mkExn {
  exc_class : ExcClass;
  exc_str : string;
  exc_status_code : option Z;
}.

Definition raise_ (c : ExcClass) (msg : string) : Exn := mkExn c msg None.

Definition isinstance (e : Exn) (c : ExcClass) : bool :=
  issubclass (exc_class e) c.

(** [isinstance(e, (c1, ..., cn))] and [except (c1, ..., cn)]. *)
Definition isinstance_any (e : Exn) (cs : list ExcClass) : bool :=
  existsb (isinstance e) cs.

(** The result of running a Python callable. *)
Inductive Outcome (A : Type) :=
| Returned (v : A)
| Raised (e : Exn).
Arguments Returned {A} v.
Arguments Raised {A} e.

(** [time.time()] reads the wall clock of the world the program runs in. *)
Class Clock (W : Type) := time_time : W -> Qc.

(** The effect of a successful [time.sleep(d)] on the world. *)
Class Sleep (W : Type) := time_sleep : Qc -> W -> W.

(** [str(uuid.uuid4())]: a draw from the world's source of random ids. *)
Class Uuid (W : Type) := uuid4 : W -> string * W.

(** A Python callable closed over its arguments: it has a [__name__], and
    running it transforms the world and returns or raises. *)
Record Callable (W R : Type) := mkCallable {
  __name__ : string;
  run : W -> W * Outcome R;
}.
Arguments mkCallable {W R} _ _.
Arguments __name__ {W R} _.
Arguments run {W R} _ _.

End Py.
Export Py.

(** ** String operations of Python used by the middleware *)

Module Str.

Definition ascii_lower (a : ascii) : ascii :=
  let n := nat_of_ascii a in
  if ((65 <=? n) && (n <=? 90))%nat then ascii_of_nat (n + 32) else a.

(** [s.lower()] *)
Fixpoint lower (s : string) : string :=
  match s with
  | EmptyString => EmptyString
  | String a s' => String (ascii_lower a) (lower s')
  end.

(** [s.startswith(p)] *)
Fixpoint startswith (s p : string) : bool :=
  match p, s with
  | EmptyString, _ => true
  | String b p', String a s' => bool_decide (a = b) && startswith s' p'
  | String _ _, EmptyString => false
  end.

(** [p in s] *)
Fixpoint contains (s p : string) : bool :=
  startswith s p ||
  match s with
  | EmptyString => false
  | String _ s' => contains s' p
  end.

(** [s.split(',')[0]] *)
Fixpoint before_comma (s : string) : string :=
  match s with
  | EmptyString => EmptyString
  | String a s' => if bool_decide (a = ","%char) then EmptyString
                   else String a (before_comma s')
  end.

Definition isspace (a : ascii) : bool :=
  let n := nat_of_ascii a in
  (((9 <=? n) && (n <=? 13)) || ((28 <=? n) && (n <=? 32)))%nat.

Fixpoint lstrip (s : string) : string :=
  match s with
  | String a s' => if isspace a then lstrip s' else s
  | EmptyString => EmptyString
  end.

Fixpoint rstrip (s : string) : string :=
  match s with
  | EmptyString => EmptyString
  | String a s' =>
      match rstrip s' with
      | EmptyString => if isspace a then EmptyString else String a EmptyString
      | r => String a r
      end
  end.

(** [s.strip()] *)
Definition strip (s : string) : string := rstrip (lstrip s).

End Str.

(** ** [class CircuitBreaker] *)

Module CircuitBreaker.

Inductive State := CLOSED | OPEN | HALF_OPEN.

#[global] Instance State_eq_dec : EqDecision State.
Proof. solve_decision. Defined.

Record t := mk {
  failure_threshold : Z;
  recovery_timeout : Qc;
  expected_exception : ExcClass;
  failure_count : Z;
  last_failure_time : option Qc;
  state : State;
}.

(** [CircuitBreaker(failure_threshold=5, recovery_timeout=60,
    expected_exception=Exception)] *)
Definition __init__ (failure_threshold : Z) (recovery_timeout : Qc)
    (expected_exception : ExcClass) : t :=
  mk failure_threshold recovery_timeout expected_exception 0 None CLOSED.

Definition set_state (s : State) (self : t) : t :=
  mk (failure_threshold self) (recovery_timeout self)
     (expected_exception self) (failure_count self)
     (last_failure_time self) s.

(** The one [logger] call of the class. *)
Inductive Log :=
| warning_opened (failures : Z).

(** The error raised on line 58, a plain [Exception] whose text names the
    wrapped function; the specification calls it CircuitOpenError. *)
Definition CircuitOpenError (func_name : string) : Exn :=
  raise_ Exception ("Circuit breaker is OPEN for " +:+ func_name).

Definition _on_success (self : t) : t :=
  mk (failure_threshold self) (recovery_timeout self)
     (expected_exception self) 0 (last_failure_time self) CLOSED.

Definition _on_failure (now : Qc) (self : t) : t * list Log :=
  let count := failure_count self + 1 in
  let self1 :=
    mk (failure_threshold self) (recovery_timeout self)
       (expected_exception self) count (Some now) (state self) in
  if bool_decide (failure_threshold self <= count)
  then (set_state OPEN self1, [warning_opened count])
  else (self1, []).

(** Lines 54-58 of [call]: the admission test made before the wrapped
    function is touched.  [inl] is the breaker the call proceeds with,
    [inr] the exception raised instead.  Subtracting [None] from a float
    is a [TypeError] in Python. *)
Definition admission (self : t) (func_name : string) (now : Qc) : t + Exn :=
  match state self with
  | OPEN =>
      match last_failure_time self with
      | None =>
          inr (raise_ TypeError
                 "unsupported operand type(s) for -: 'float' and 'NoneType'")
      | Some last =>
          if bool_decide (recovery_timeout self < now - last)%Qc
          then inl (set_state HALF_OPEN self)
          else inr (CircuitOpenError func_name)
      end
  | _ => inl self
  end.

Section call.
Context {W R : Type} `{!Clock W}.

(** [self.call(func)]: the breaker after the call, the world after it,
    what was logged, and what the caller sees. *)
Definition call (self : t) (func : Callable W R) (w : W)
  : t * W * list Log * Outcome R :=
  match admission self (__name__ func) (time_time w) with
  | inr e => (self, w, [], Raised e)
  | inl self1 =>
      let '(w1, result) := run func w in
      match result with
      | Returned v => (_on_success self1, w1, [], Returned v)
      | Raised e =>
          if isinstance e (expected_exception self1)
          then let '(self2, logs) := _on_failure (time_time w1) self1 in
               (self2, w1, logs, Raised e)
          else (self1, w1, [], Raised e)
      end
  end.

(** A series of calls on one breaker; each call names the function it
    wraps and the world it is made in (anything may happen to the world
    between two calls). *)
Fixpoint calls (self : t) (steps : list (Callable W R * W)) : t :=
  match steps with
  | [] => self
  | (func, w) :: rest => calls (call self func w).1.1.1 rest
  end.

End call.

End CircuitBreaker.

(** ** [retry_on_failure]: the retry decorator *)

Module retry_on_failure.

(** The [logger] calls of [wrapper]. *)
Inductive Log :=
| warning_attempt_failed (attempt : Z) (func_name : string) (e : Exn)
    (current_delay : Qc)
| error_all_attempts_failed (attempts : Z) (func_name : string) (e : Exn).

(** What [wrapper] does to its environment, in order: it invokes the
    wrapped function (with the result it got), sleeps, logs. *)
Inductive Event (R : Type) :=
| called (result : Outcome R)
| slept (seconds : Qc)
| logged (l : Log).
Arguments called {R} result.
Arguments slept {R} seconds.
Arguments logged {R} l.

Section wrapper.
Context {W R : Type} `{!Sleep W}.
(** The decorator's arguments (defaults 3, 1, 2, [(Exception,)]). *)
Variables (max_retries : Z) (delay backoff_factor : Qc)
          (exceptions : list ExcClass).
Variable func : Callable W R.

(** The body of [for attempt in range(max_retries + 1)], from iteration
    [attempt] on, with [remaining] iterations left, followed by the
    final [raise last_exception].  [time.sleep] rejects a negative
    duration with [ValueError]; [raise None] is a [TypeError]. *)
Fixpoint loop (remaining : nat) (attempt : nat) (last_exception : option Exn)
    (w : W) : W * list (Event R) * Outcome R :=
  match remaining with
  | O =>
      (w, [],
       Raised (default
                 (raise_ TypeError "exceptions must derive from BaseException")
                 last_exception))
  | S remaining' =>
      let '(w1, result) := run func w in
      match result with
      | Returned v => (w1, [called result], Returned v)
      | Raised e =>
          if isinstance_any e exceptions then
            if bool_decide (Z.of_nat attempt < max_retries) then
              let current_delay := (delay * backoff_factor ^ attempt)%Qc in
              let warned :=
                logged (warning_attempt_failed (Z.of_nat attempt + 1)
                          (__name__ func) e current_delay) in
              if bool_decide (current_delay < 0)%Qc then
                (w1, [called result; warned],
                 Raised (raise_ ValueError "sleep length must be non-negative"))
              else
                let '(w2, events, out) :=
                  loop remaining' (S attempt) (Some e)
                       (time_sleep current_delay w1) in
                (w2, called result :: warned :: slept current_delay :: events,
                 out)
            else
              let '(w2, events, out) :=
                loop remaining' (S attempt) (Some e) w1 in
              (w2,
               called result
                 :: logged (error_all_attempts_failed (max_retries + 1)
                              (__name__ func) e)
                 :: events,
               out)
          else (w1, [called result], Raised e)
      end
  end.

Definition wrapper (w : W) : W * list (Event R) * Outcome R :=
  loop (Z.to_nat (max_retries + 1)) 0 None w.

End wrapper.

(** Observations on a run: the results of the invocations, in order. *)
Fixpoint results {R} (events : list (Event R)) : list (Outcome R) :=
  match events with
  | [] => []
  | called r :: rest => r :: results rest
  | _ :: rest => results rest
  end.

Definition invocations {R} (events : list (Event R)) : nat :=
  length (results events).

(** The durations slept, in order. *)
Fixpoint sleeps {R} (events : list (Event R)) : list Qc :=
  match events with
  | [] => []
  | slept d :: rest => d :: sleeps rest
  | _ :: rest => sleeps rest
  end.

(** The run with its log entries removed. *)
Fixpoint unlogged {R} (events : list (Event R)) : list (Event R) :=
  match events with
  | [] => []
  | logged _ :: rest => unlogged rest
  | ev :: rest => ev :: unlogged rest
  end.

End retry_on_failure.

(** ** The parts of Django the middleware talks to *)

Module Django.

(** A value of a [JsonResponse] body.  [JErrors e] stands for the errors
    extracted from a validation error [e] ([message_dict], [messages] or
    [[str(e)]]), [JTraceback] for the lines of [traceback.format_exc()]. *)
Inductive Json :=
| JStr (s : string)
| JErrors (e : Exn)
| JTraceback.

(** [JsonResponse(content, status=status_code)]; the body keeps the order
    of the dict literal it was built from. *)
Record JsonResponse := mkJsonResponse {
  content : list (string * Json);
  status_code : Z;
}.

(** [response.json()[key]], when the key is present. *)
Fixpoint lookup_key (key : string) (body : list (string * Json)) : option Json :=
  match body with
  | [] => None
  | (k, v) :: rest => if bool_decide (k = key) then Some v else lookup_key key rest
  end.

Definition json_get (key : string) (response : JsonResponse) : option Json :=
  lookup_key key (content response).

(** [settings.DEBUG], and the calls on [django.db.connection] and
    [django.core.cache.cache] made by [EdgeCaseHandlingMiddleware]; each
    call transforms the world and may raise. *)
Class Services (W : Type) := {
  settings_DEBUG : W -> bool;
  (** [with connection.cursor() as cursor: cursor.execute("SELECT 1")] *)
  connection_select_1 : W -> W * Outcome unit;
  (** [cache.get('health_check')], its value unused *)
  cache_get_health_check : W -> W * Outcome unit;
  (** [connection.close(); connection.ensure_connection()] *)
  connection_reconnect : W -> W * Outcome unit;
  (** [cache.client.connection_pool.disconnect(); ....reset()] *)
  cache_reset_pool : W -> W * Outcome unit;
}.

(** [type(e).__name__] *)
Definition class_name (c : ExcClass) : string :=
  match c with
  | Exception => "Exception"
  | TypeError => "TypeError"
  | ValueError => "ValueError"
  | AttributeError => "AttributeError"
  | DatabaseError => "DatabaseError"
  | OperationalError => "OperationalError"
  | IntegrityError => "IntegrityError"
  | ValidationError => "ValidationError"
  | PermissionDenied => "PermissionDenied"
  | Http404 => "Http404"
  | RequestException => "RequestException"
  | Timeout => "Timeout"
  | ConnectionError => "ConnectionError"
  | RedisError => "RedisError"
  | RedisConnectionError => "ConnectionError"
  end.

(** [int(s)] for an optionally signed run of ASCII digits; [None] is the
    [ValueError] of any other text. *)
Definition digit (a : ascii) : option Z :=
  let n := nat_of_ascii a in
  if ((48 <=? n) && (n <=? 57))%nat then Some (Z.of_nat (n - 48)) else None.

Fixpoint digits (acc : Z) (s : string) : option Z :=
  match s with
  | EmptyString => Some acc
  | String a s' =>
      match digit a with
      | Some d => digits (10 * acc + d) s'
      | None => None
      end
  end.

Definition int (s : string) : option Z :=
  match Str.strip s with
  | EmptyString => None
  | String "-"%char (String a s') => Z.opp <$> digits 0 (String a s')
  | String "+"%char (String a s') => digits 0 (String a s')
  | String "-"%char EmptyString | String "+"%char EmptyString => None
  | s' => digits 0 s'
  end.

(** The value of a response header: a text, or the rendering of an elapsed
    time as milliseconds rounded to two decimals followed by "ms"
    ([str(round(seconds * 1000, 2)) + 'ms']), kept as the elapsed
    seconds. *)
Inductive HeaderValue :=
| HText (s : string)
| HMilliseconds (seconds : Qc).

(** A response as the [process_response] hooks see it: its status code
    and its headers ([response[name] = value] sets one). *)
Record HttpResponse := mkHttpResponse {
  response_status : Z;
  response_headers : gmap string HeaderValue;
}.

Definition set_header (name : string) (value : HeaderValue) (response : HttpResponse)
  : HttpResponse :=
  mkHttpResponse (response_status response)
    (<[name := value]> (response_headers response)).

End Django.
Export Django.

(** ** [class EdgeCaseHandlingMiddleware] *)

Module EdgeCaseHandlingMiddleware.

(** The middleware object: its registry of breakers, one per service
    name, and [retry_config['max_retries']]. *)
Record t := mk {
  circuit_breakers : gmap string CircuitBreaker.t;
  retry_config_max_retries : Z;
}.

Definition __init__ : t := mk ∅ 3.

(** What the middleware reads of the request and the attributes it sets
    on it ([None]: the attribute is not set).  The request is one that
    went through Django's authentication middleware: it has the [user]
    that [_log_exception] puts in its log line. *)
Record Request := mkRequest {
  method : string;
  path : string;
  CONTENT_LENGTH : option string;
  CONTENT_TYPE : option string;
  request_id : option string;
  start_time : option Qc;
  retry_count : option Z;
  max_retries : option Z;
}.

(** The [logger] calls that carry an id or an exception.  Of the line
    [_log_exception] writes, the two ids and the exception are kept. *)
Inductive Log :=
| error_health_check_failed (e : Exn)
| error_validating_request (e : Exn)
| error_exception_occurred (error_id request_id : string) (e : Exn)
| error_database (e : Exn)
| info_database_restored
| error_database_not_restored (e : Exn)
| warning_validation (e : Exn)
| warning_permission_denied (e : Exn)
| info_not_found (path : string)
| error_external_api (e : Exn)
| error_cache (e : Exn)
| info_redis_reset
| error_redis_not_reset (e : Exn)
| error_unexpected (e : Exn).

(** [getattr(request, 'request_id', 'unknown')] *)
Definition request_id_or_unknown (request : Request) : string :=
  default "unknown" (request_id request).

Definition _create_health_check_response (request : Request) : JsonResponse :=
  mkJsonResponse
    [("error", JStr "Service temporarily unavailable");
     ("message", JStr "The service is currently experiencing issues. Please try again later.");
     ("error_id", JStr (request_id_or_unknown request));
     ("code", JStr "SERVICE_UNAVAILABLE")]
    503.

Definition body_methods : list string := ["POST"; "PUT"; "PATCH"].

Definition validation_failed : JsonResponse :=
  mkJsonResponse
    [("error", JStr "Request validation failed");
     ("message", JStr "Unable to validate request data.");
     ("code", JStr "VALIDATION_ERROR")]
    400.

Definition _validate_request_data (request : Request)
  : list Log * option JsonResponse :=
  let in_body_methods := bool_decide (method request ∈ body_methods) in
  (* [content_length and int(content_length) > 10 * 1024 * 1024] *)
  let too_large : Outcome bool :=
    if in_body_methods then
      match CONTENT_LENGTH request with
      | None | Some EmptyString => Returned false
      | Some text =>
          match int text with
          | Some n => Returned (bool_decide (10 * 1024 * 1024 < n))
          | None =>
              Raised (raise_ ValueError
                        ("invalid literal for int() with base 10: " +:+ text))
          end
      end
    else Returned false in
  match too_large with
  | Raised e => ([error_validating_request e], Some validation_failed)
  | Returned true =>
      ([], Some (mkJsonResponse
                   [("error", JStr "Request too large");
                    ("message", JStr "Request body exceeds maximum allowed size.");
                    ("code", JStr "REQUEST_TOO_LARGE")]
                   413))
  | Returned false =>
      if Str.startswith (path request) "/api/" && in_body_methods
         && negb (Str.startswith (default "" (CONTENT_TYPE request))
                    "application/json")
      then
        ([], Some (mkJsonResponse
                     [("error", JStr "Invalid content type");
                      ("message", JStr "Content-Type must be application/json for API requests.");
                      ("code", JStr "INVALID_CONTENT_TYPE")]
                     400))
      else ([], None)
  end.

Definition _get_service_name_from_request (request : Request) : option string :=
  let p := Str.lower (path request) in
  if Str.contains p "openai" then Some "openai"
  else if Str.contains p "email" then Some "email"
  else if Str.contains p "sms" then Some "sms"
  else None.

(** Get or create the breaker of a service: the registry after the call
    and the breaker found in it. *)
Definition _get_circuit_breaker (self : t) (service_name : string)
  : t * CircuitBreaker.t :=
  match circuit_breakers self !! service_name with
  | Some breaker => (self, breaker)
  | None =>
      let breaker := CircuitBreaker.__init__ 5 (Q2Qc 60) Exception in
      (mk (<[service_name := breaker]> (circuit_breakers self))
          (retry_config_max_retries self),
       breaker)
  end.

Definition _handle_validation_error (e : Exn) (error_id : string)
  : list Log * option JsonResponse :=
  ([warning_validation e],
   Some (mkJsonResponse
           [("error", JStr "Validation error");
            ("error_id", JStr error_id);
            ("message", JStr "The provided data is invalid.");
            ("errors", JErrors e);
            ("code", JStr "VALIDATION_ERROR")]
           400)).

Definition _handle_permission_error (e : Exn) (error_id : string)
  : list Log * option JsonResponse :=
  ([warning_permission_denied e],
   Some (mkJsonResponse
           [("error", JStr "Permission denied");
            ("error_id", JStr error_id);
            ("message", JStr "You do not have permission to perform this action.");
            ("code", JStr "PERMISSION_DENIED")]
           403)).

Definition _handle_not_found_error (request : Request) (error_id : string)
  : list Log * option JsonResponse :=
  ([info_not_found (path request)],
   Some (mkJsonResponse
           [("error", JStr "Resource not found");
            ("error_id", JStr error_id);
            ("message", JStr "The requested resource was not found.");
            ("code", JStr "NOT_FOUND")]
           404)).

Definition _handle_external_api_error (self : t) (request : Request)
    (e : Exn) (error_id : string) : t * list Log * option JsonResponse :=
  let unavailable :=
    mkJsonResponse
      [("error", JStr "External service unavailable");
       ("error_id", JStr error_id);
       ("message", JStr "External service is temporarily unavailable.");
       ("code", JStr "EXTERNAL_SERVICE_UNAVAILABLE")]
      503 in
  let '(error_message, error_code) :=
    if isinstance e Timeout
    then ("External service request timed out.", "EXTERNAL_SERVICE_TIMEOUT")
    else if isinstance e ConnectionError
    then ("Unable to connect to external service.",
          "EXTERNAL_SERVICE_CONNECTION_ERROR")
    else ("External service error occurred.", "EXTERNAL_SERVICE_ERROR") in
  let failed :=
    mkJsonResponse
      [("error", JStr "External service error");
       ("error_id", JStr error_id);
       ("message", JStr error_message);
       ("code", JStr error_code)]
      502 in
  match _get_service_name_from_request request with
  | Some service_name =>
      let '(self1, circuit_breaker) := _get_circuit_breaker self service_name in
      if bool_decide (CircuitBreaker.state circuit_breaker = CircuitBreaker.OPEN)
      then (self1, [error_external_api e], Some unavailable)
      else (self1, [error_external_api e], Some failed)
  | None => (self, [error_external_api e], Some failed)
  end.

Section services.
Context {W : Type} `{!Clock W, !Uuid W, !Services W}.

Definition _check_system_health (w : W) : W * list Log * bool :=
  let '(w1, db) := connection_select_1 w in
  match db with
  | Raised e => (w1, [error_health_check_failed e], false)
  | Returned _ =>
      let '(w2, redis) := cache_get_health_check w1 in
      match redis with
      | Raised e => (w2, [error_health_check_failed e], false)
      | Returned _ => (w2, [], true)
      end
  end.

Definition process_request (self : t) (request : Request) (w : W)
  : Request * W * list Log * option JsonResponse :=
  let '(id, w1) := uuid4 w in
  let request1 :=
    mkRequest (method request) (path request) (CONTENT_LENGTH request)
      (CONTENT_TYPE request) (Some id) (Some (time_time w1))
      (retry_count request) (max_retries request) in
  let '(w2, logs, healthy) := _check_system_health w1 in
  if negb healthy
  then (request1, w2, logs, Some (_create_health_check_response request1))
  else
    match _validate_request_data request1 with
    | (logs', Some validation_error) =>
        (request1, w2, logs ++ logs', Some validation_error)
    | (logs', None) =>
        (mkRequest (method request) (path request) (CONTENT_LENGTH request)
           (CONTENT_TYPE request) (Some id) (Some (time_time w1))
           (Some 0) (Some (retry_config_max_retries self)),
         w2, logs ++ logs', None)
    end.

Definition _handle_database_error (e : Exn) (error_id : string) (w : W)
  : W * list Log * option JsonResponse :=
  let '(w1, logs) :=
    if isinstance e OperationalError then
      let '(w1, restored) := connection_reconnect w in
      match restored with
      | Returned _ => (w1, [info_database_restored])
      | Raised e' => (w1, [error_database_not_restored e'])
      end
    else (w, []) in
  (w1, error_database e :: logs,
   Some (if settings_DEBUG w1
         then mkJsonResponse
                [("error", JStr "Database error");
                 ("error_id", JStr error_id);
                 ("message", JStr (exc_str e));
                 ("type", JStr (class_name (exc_class e)))]
                500
         else mkJsonResponse
                [("error", JStr "Database error");
                 ("error_id", JStr error_id);
                 ("message", JStr "A database error occurred. Please try again later.");
                 ("code", JStr "DATABASE_ERROR")]
                500)).

Definition _handle_cache_error (e : Exn) (w : W)
  : W * list Log * option JsonResponse :=
  let '(w1, reset) := cache_reset_pool w in
  (w1,
   error_cache e :: match reset with
                    | Returned _ => [info_redis_reset]
                    | Raised e' => [error_redis_not_reset e']
                    end,
   None).

Definition _handle_generic_error (e : Exn) (error_id : string) (w : W)
  : list Log * option JsonResponse :=
  ([error_unexpected e],
   Some (if settings_DEBUG w
         then mkJsonResponse
                [("error", JStr "Internal server error");
                 ("error_id", JStr error_id);
                 ("message", JStr (exc_str e));
                 ("type", JStr (class_name (exc_class e)));
                 ("traceback", JTraceback)]
                500
         else mkJsonResponse
                [("error", JStr "Internal server error");
                 ("error_id", JStr error_id);
                 ("message", JStr "An unexpected error occurred. Please try again later.");
                 ("code", JStr "INTERNAL_ERROR")]
                500)).

(** [process_exception(request, exception)]: the middleware and the
    world after the call, the log, and the response ([None]: the
    exception is left to the next handler). *)
Definition process_exception (self : t) (request : Request) (e : Exn) (w : W)
  : t * W * list Log * option JsonResponse :=
  let '(error_id, w1) := uuid4 w in
  let logged := error_exception_occurred error_id (request_id_or_unknown request) e in
  if isinstance e DatabaseError then
    let '(w2, logs, response) := _handle_database_error e error_id w1 in
    (self, w2, logged :: logs, response)
  else if isinstance e ValidationError then
    let '(logs, response) := _handle_validation_error e error_id in
    (self, w1, logged :: logs, response)
  else if isinstance e PermissionDenied then
    let '(logs, response) := _handle_permission_error e error_id in
    (self, w1, logged :: logs, response)
  else if isinstance e Http404 then
    let '(logs, response) := _handle_not_found_error request error_id in
    (self, w1, logged :: logs, response)
  else if isinstance e RequestException then
    let '(self1, logs, response) :=
      _handle_external_api_error self request e error_id in
    (self1, w1, logged :: logs, response)
  else if isinstance e RedisError then
    let '(w2, logs, response) := _handle_cache_error e w1 in
    (self, w2, logged :: logs, response)
  else
    let '(logs, response) := _handle_generic_error e error_id w1 in
    (self, w1, logged :: logs, response).

(** The same request raising one exception after another. *)
Fixpoint process_exceptions (self : t) (request : Request)
    (es : list Exn) (w : W) : t * W * list (option JsonResponse) :=
  match es with
  | [] => (self, w, [])
  | e :: rest =>
      let '(self1, w1, _, response) := process_exception self request e w in
      let '(self2, w2, responses) := process_exceptions self1 request rest w1 in
      (self2, w2, response :: responses)
  end.

End services.

(** The [logger] calls of the response hooks. *)
Inductive ResponseLog :=
| error_server_error (status : Z) (path : string)
| info_resource_not_found (path : string)
| warning_permission_denied_for (path : string).

Definition _handle_server_error (request : Request) (response : HttpResponse)
  : list ResponseLog * HttpResponse :=
  ([error_server_error (response_status response) (path request)],
   set_header "X-Error-Tracked" (HText "true") response).

Definition _handle_not_found (request : Request) (response : HttpResponse)
  : list ResponseLog * HttpResponse :=
  ([info_resource_not_found (path request)],
   if Str.startswith (path request) "/api/"
   then set_header "X-API-Version" (HText "v1") response
   else response).

Definition _handle_permission_denied (request : Request) (response : HttpResponse)
  : list ResponseLog * HttpResponse :=
  ([warning_permission_denied_for (path request)],
   set_header "X-Auth-Required" (HText "true") response).

Section response.
Context {W : Type} `{!Clock W}.

(** [process_response(request, response)]: reading [request.start_time]
    raises when [process_request] never set it. *)
Definition process_response (request : Request) (response : HttpResponse) (w : W)
  : list ResponseLog * Outcome HttpResponse :=
  let response1 :=
    set_header "X-Request-ID" (HText (request_id_or_unknown request)) response in
  match start_time request with
  | None =>
      ([], Raised (raise_ AttributeError
                     "'WSGIRequest' object has no attribute 'start_time'"))
  | Some started =>
      let response2 :=
        set_header "X-Processing-Time" (HMilliseconds (time_time w - started)%Qc)
          response1 in
      let '(logs, response3) :=
        if bool_decide (500 <= response_status response2)
        then _handle_server_error request response2
        else if bool_decide (response_status response2 = 404)
        then _handle_not_found request response2
        else if bool_decide (response_status response2 = 403)
        then _handle_permission_denied request response2
        else ([], response2) in
      (logs, Returned response3)
  end.

End response.

End EdgeCaseHandlingMiddleware.

(** ** [class RetryMiddleware] *)

Module RetryMiddleware.

(** [settings.MAX_RETRIES], [RETRY_DELAY], [BACKOFF_FACTOR], when set. *)
Record Settings := mkSettings {
  MAX_RETRIES : option Z;
  RETRY_DELAY : option Qc;
  BACKOFF_FACTOR : option Qc;
}.

(** What the middleware reads of the request, and the retry context it
    keeps on it.  [retry_count] is a counter: set to 0 by
    [process_request] and only ever incremented. *)
Record Request := mkRequest {
  method : string;
  path : string;
  retry_count : nat;
  max_retries : Z;
  retry_delay : Qc;
  backoff_factor : Qc;
}.

Inductive Log :=
| info_retrying (path : string) (attempt : nat) (max_retries : Z) (delay : Qc)
| warning_max_retries_exceeded (path : string).

Inductive Event :=
| slept (seconds : Qc)
| logged (l : Log).

Definition process_request (settings : Settings) (request : Request) : Request :=
  mkRequest (method request) (path request) 0
    (default 3 (MAX_RETRIES settings))
    (default 1%Qc (RETRY_DELAY settings))
    (default (Q2Qc 2) (BACKOFF_FACTOR settings)).

Definition non_retryable_exceptions : list ExcClass :=
  [ValidationError; PermissionDenied; Http404].

Definition non_retryable_status_codes : list Z := [400; 401; 403; 404; 422].

Definition _should_retry (request : Request) (e : Exn) : bool :=
  if negb (bool_decide (method request ∈ ["GET"; "POST"; "PUT"; "PATCH"]))
  then false
  else if isinstance_any e non_retryable_exceptions then false
  else
    match exc_status_code e with
    | Some code =>
        if bool_decide (code ∈ non_retryable_status_codes) then false else true
    | None => true
    end.

Section process_exception.
Context {W : Type} `{!Sleep W}.

(** [process_exception(request, exception)]: the request and the world
    after the call, what the call did, and what it returned ([None] or
    a response) or raised. *)
Definition process_exception (request : Request) (e : Exn) (w : W)
  : Request * W * list Event * Outcome (option JsonResponse) :=
  if negb (_should_retry request e) then (request, w, [], Returned None)
  else
    let count := S (retry_count request) in
    let request1 :=
      mkRequest (method request) (path request) count
        (max_retries request) (retry_delay request)
        (backoff_factor request) in
    if bool_decide (Z.of_nat count <= max_retries request) then
      let delay :=
        (retry_delay request * backoff_factor request ^ (count - 1)%nat)%Qc in
      let told :=
        logged (info_retrying (path request) count (max_retries request) delay) in
      if bool_decide (delay < 0)%Qc then
        (request1, w, [told],
         Raised (raise_ ValueError "sleep length must be non-negative"))
      else (request1, time_sleep delay w, [told; slept delay], Returned None)
    else
      (request1, w, [logged (warning_max_retries_exceeded (path request))],
       Returned None).

(** The same request raising one exception after another: the request
    and the world after the last call, and all that the calls did, in
    order. *)
Fixpoint process_exceptions (request : Request) (es : list Exn) (w : W)
  : Request * W * list Event :=
  match es with
  | [] => (request, w, [])
  | e :: rest =>
      let '(request1, w1, events, _) := process_exception request e w in
      let '(request2, w2, events') := process_exceptions request1 rest w1 in
      (request2, w2, events ++ events')
  end.

End process_exception.

(** The durations slept, in order. *)
Fixpoint sleeps (events : list Event) : list Qc :=
  match events with
  | [] => []
  | slept d :: rest => d :: sleeps rest
  | logged _ :: rest => sleeps rest
  end.

End RetryMiddleware.

(** ** [class GracefulDegradationMiddleware] *)

Module GracefulDegradationMiddleware.

(** What the middleware reads of the request, and the attribute it sets
    on it ([None]: not set; [Some None]: set to Python's [None]). *)
Record Request := mkRequest {
  path : string;
  degradation_mode : option (option string);
}.

Inductive Log :=
| warning_running_in_degradation_mode (path mode : string).

(** [try: return True / except Exception: return False]: the two checks
    of external services contain no call. *)
Definition _check_openai_availability : bool := true.

Definition _check_email_service_availability : bool := true.

(** [reasons.get(degradation_mode, 'Service degradation detected')] *)
Definition _get_degradation_reason (mode : string) : string :=
  if bool_decide (mode = "database_unavailable")
  then "Database service is temporarily unavailable"
  else if bool_decide (mode = "cache_unavailable")
  then "Cache service is temporarily unavailable"
  else if bool_decide (mode = "ai_service_unavailable")
  then "AI service is temporarily unavailable"
  else if bool_decide (mode = "email_service_unavailable")
  then "Email service is temporarily unavailable"
  else "Service degradation detected".

(** A Python string is true when it is not empty. *)
Definition truthy (mode : option string) : bool :=
  match mode with
  | Some (String _ _) => true
  | _ => false
  end.

Definition process_response (request : Request) (response : HttpResponse)
  : HttpResponse :=
  match degradation_mode request with
  | Some (Some mode) =>
      if truthy (Some mode)
      then set_header "X-Degradation-Reason" (HText (_get_degradation_reason mode))
             (set_header "X-Degradation-Mode" (HText mode) response)
      else response
  | _ => response
  end.

Section services.
Context {W : Type} `{!Services W}.

Definition _check_database_availability (w : W) : W * bool :=
  let '(w1, result) := connection_select_1 w in
  (w1, match result with Returned _ => true | Raised _ => false end).

Definition _check_cache_availability (w : W) : W * bool :=
  let '(w1, result) := cache_get_health_check w in
  (w1, match result with Returned _ => true | Raised _ => false end).

Definition _check_degradation_mode (request : Request) (w : W)
  : W * option string :=
  let '(w1, database) := _check_database_availability w in
  if negb database then (w1, Some "database_unavailable")
  else
    let '(w2, redis) := _check_cache_availability w1 in
    if negb redis then (w2, Some "cache_unavailable")
    else if Str.contains (path request) "/api/v1/chatbot/"
            && negb _check_openai_availability
    then (w2, Some "ai_service_unavailable")
    else if Str.contains (path request) "/api/v1/email/"
            && negb _check_email_service_availability
    then (w2, Some "email_service_unavailable")
    else (w2, None).

Definition process_request (request : Request) (w : W)
  : Request * W * list Log :=
  let '(w1, mode) := _check_degradation_mode request w in
  (mkRequest (path request) (Some mode), w1,
   match mode with
   | Some text =>
       if truthy mode then [warning_running_in_degradation_mode (path request) text]
       else []
   | None => []
   end).

End services.

End GracefulDegradationMiddleware.

(** ** A state-and-exception monad for the code that talks to the database *)

Module Effect.

(** A computation over a mutable state [S] that returns or raises.  As
    in Python, what was mutated before an exception stays mutated. *)
Definition M (S A : Type) : Type := S -> S * Outcome A.

Definition ret {S A} (a : A) : M S A := fun st => (st, Returned a).

Definition raise {S A} (e : Exn) : M S A := fun st => (st, Raised e).

Definition bind {S A B} (m : M S A) (k : A -> M S B) : M S B :=
  fun st =>
    match m st with
    | (st1, Returned a) => k a st1
    | (st1, Raised e) => (st1, Raised e)
    end.

(** [try: body except Exception as e: handler(e)] *)
Definition try_except {S A} (body : M S A) (handler : Exn -> M S A) : M S A :=
  fun st =>
    match body st with
    | (st1, Raised e) => handler e st1
    | done => done
    end.

Definition gets {S A} (f : S -> A) : M S A := fun st => (st, Returned (f st)).

Definition modify {S} (f : S -> S) : M S unit := fun st => (f st, Returned tt).

(** Run a computation on a part of the state, given how to read the part
    and how to write it back. *)
Definition zoom {S T A} (get : S -> T) (put : T -> S -> S) (m : M T A) : M S A :=
  fun st => let '(t1, out) := m (get st) in (put t1 st, out).

Definition when_ {S} (b : bool) (m : M S unit) : M S unit :=
  if b then m else ret tt.

End Effect.
Import Effect.

(** With these instances [x ← m; k] and [m;; k] sequence two computations,
    the second being skipped when the first raises. *)
#[global] Instance M_ret {S} : MRet (M S) := fun A => ret.
#[global] Instance M_bind {S} : MBind (M S) := fun A B k m => bind m k.

(** ** [class UserSession] of [users/models.py] and its table *)

Module UserSession.

Record t := mk {
  pk : Z;
  user_id : Z;
  session_key : string;
  ip_address : string;
  user_agent : string;
  device_type : string;
  browser : string;
  operating_system : string;
  started_at : Qc;
  last_activity : Qc;
  ended_at : option Qc;
  is_active : bool;
  page_views : Z;
  chat_interactions : Z;
}.

Definition set_last_activity (v : Qc) (s : t) : t :=
  mk (pk s) (user_id s) (session_key s) (ip_address s) (user_agent s)
     (device_type s) (browser s) (operating_system s) (started_at s)
     v (ended_at s) (is_active s) (page_views s) (chat_interactions s).

Definition set_ended (active : bool) (ended : option Qc) (s : t) : t :=
  mk (pk s) (user_id s) (session_key s) (ip_address s) (user_agent s)
     (device_type s) (browser s) (operating_system s) (started_at s)
     (last_activity s) ended active (page_views s) (chat_interactions s).

Definition set_counters (views chats : Z) (s : t) : t :=
  mk (pk s) (user_id s) (session_key s) (ip_address s) (user_agent s)
     (device_type s) (browser s) (operating_system s) (started_at s)
     (last_activity s) (ended_at s) (is_active s) views chats.

(** The calls of this repository that reach the database, the cache or
    the request metadata.  Any of them may raise: the environment says
    which do. *)
Inductive Call :=
| filter_first          (* [.filter(user, is_active, session_key).first()] *)
| save_last_activity    (* [.save(update_fields=['last_activity'])] *)
| objects_create        (* [UserSession.objects.create(...)] *)
| save_user             (* [user.save(update_fields=['last_activity'])] *)
| save_end              (* [.save(update_fields=['is_active', 'ended_at'])] *)
| save_counters         (* [.save(update_fields=['page_views', ...])] *)
| filter_count          (* [.filter(user, is_active).count()] *)
| order_by_first        (* [.filter(...).order_by('last_activity').first()] *)
| cache_get
| cache_set
| client_ip.            (* [self._get_client_ip(request)] *)

#[global] Instance Call_eq_dec : EqDecision Call.
Proof. solve_decision. Defined.

(** A cache entry: a request counter, or the record of an anonymous
    visit. *)
Inductive Cached :=
| CInt (n : Z)
| CAnonymous (ip : option string) (user_agent : string) (timestamp : Qc)
    (path : string).

(** The world the session code runs in: the clock ([timezone.now()],
    [time.time()]), the [user_sessions] table in primary-key order, the
    cache with the expiry time of each entry,
    [settings.MAX_CONCURRENT_SESSIONS] when set, and the calls that
    raise. *)
Record World := mkWorld {
  now : Qc;
  user_sessions : list t;
  cache : gmap string (Cached * Qc);
  MAX_CONCURRENT_SESSIONS : option Z;
  faults : Call -> option Exn;
}.

Definition set_user_sessions (table : list t) (w : World) : World :=
  mkWorld (now w) table (cache w) (MAX_CONCURRENT_SESSIONS w) (faults w).

Definition set_cache (c : gmap string (Cached * Qc)) (w : World) : World :=
  mkWorld (now w) (user_sessions w) c (MAX_CONCURRENT_SESSIONS w) (faults w).

(** Reaching a call: it raises when the environment says so. *)
Definition reach {S} (world : S -> World) (c : Call) : M S unit :=
  fun st =>
    match faults (world st) c with
    | Some e => (st, Raised e)
    | None => (st, Returned tt)
    end.

(** [UPDATE user_sessions SET ... WHERE id = pk]: [write] copies the
    saved fields into the row.  [None] when no row has that key. *)
Definition update_row (key : Z) (write : t -> t) (table : list t)
  : option (list t) :=
  if existsb (fun row => bool_decide (pk row = key)) table
  then Some (map (fun row => if bool_decide (pk row = key) then write row
                             else row) table)
  else None.

(** [self.save(update_fields=...)], reached through the call [c]. *)
Definition save (c : Call) (key : Z) (write : t -> t) : M World unit :=
  reach id c;;
  table ← gets user_sessions;
  match update_row key write table with
  | Some table' => modify (set_user_sessions table')
  | None =>
      raise (raise_ DatabaseError
               "Save with update_fields did not affect any rows.")
  end.

(** [end_session(self)], a method: the state is the instance and the
    world. *)
Definition end_session : M (t * World) unit :=
  timestamp ← gets (fun st => now st.2);
  modify (fun st => (set_ended false (Some timestamp) st.1, st.2));;
  self ← gets fst;
  zoom snd (fun w st => (st.1, w))
    (save save_end (pk self)
       (set_ended (is_active self) (ended_at self))).

(** [get_duration(self)]: the seconds from the start of the session to
    its end, or to now while it has none. *)
Definition get_duration (self : t) (w : World) : Qc :=
  (default (now w) (ended_at self) - started_at self)%Qc.

(** [update_activity(self)], a method like [end_session]. *)
Definition update_activity : M (t * World) unit :=
  timestamp ← gets (fun st => now st.2);
  modify (fun st => (set_last_activity timestamp st.1, st.2));;
  self ← gets fst;
  zoom snd (fun w st => (st.1, w))
    (save save_last_activity (pk self)
       (set_last_activity (last_activity self))).

End UserSession.

(** ** [class SessionManagementMiddleware] of [users/middleware.py] *)

Module SessionManagementMiddleware.
Import UserSession.

(** [request.user]: [AnonymousUser] has no [email] and no usable id. *)
Inductive User :=
| AnonymousUser
| CustomUser (id : Z) (email : string).

Definition is_authenticated (u : User) : bool :=
  match u with CustomUser _ _ => true | AnonymousUser => false end.

(** What [user_agents.parse] tells about a user-agent string. *)
Record UserAgent := mkUserAgent {
  is_mobile : bool;
  is_tablet : bool;
  is_pc : bool;
  browser_family : string;
  os_family : string;
}.

(** The two library functions the middleware computes with:
    [user_agents.parse] and the MD5 digest that keys the record of an
    anonymous visit. *)
Class Libraries := {
  user_agents_parse : string -> UserAgent;
  md5_hexdigest : Cached -> string;
}.

(** What the middleware reads of the request and the attributes it sets
    on it.  For an attribute, [None] is "not set"; [user_session] can be
    set to Python's [None]. *)
Record Request := mkRequest {
  path : string;
  user : User;
  session_key : option string;          (* [request.session.session_key] *)
  HTTP_USER_AGENT : option string;
  HTTP_X_FORWARDED_FOR : option string;
  REMOTE_ADDR : option string;
  session_start_time : option Qc;
  user_session : option (option UserSession.t);
}.

Definition set_session_start_time (v : Qc) (r : Request) : Request :=
  mkRequest (path r) (user r) (session_key r) (HTTP_USER_AGENT r)
    (HTTP_X_FORWARDED_FOR r) (REMOTE_ADDR r) (Some v) (user_session r).

Definition set_user_session (v : option UserSession.t) (r : Request) : Request :=
  mkRequest (path r) (user r) (session_key r) (HTTP_USER_AGENT r)
    (HTTP_X_FORWARDED_FOR r) (REMOTE_ADDR r) (session_start_time r) (Some v).

(** The [logger] calls of the class, one constructor per call. *)
Inductive Log :=
| info_authenticated_session (email key : string) (ip : option string)
| error_handling_authenticated_session (e : Exn)
| error_handling_anonymous_session (e : Exn)
| error_getting_creating_user_session (e : Exn)
| info_new_user_session (email key device : string)
| error_creating_new_user_session (e : Exn)
| error_updating_user_activity (e : Exn)
| error_updating_session_activity (e : Exn)
| warning_consistency_check_failed (email : string)
| warning_suspicious_activity (email : string)
| error_validating_session_security (e : Exn)
| info_ip_address_changed (email from : string) (to : option string)
| warning_user_agent_changed (email : string)
| error_checking_session_consistency (e : Exn)
| warning_high_request_rate (email : string)
| error_detecting_suspicious_activity (e : Exn)
| info_ended_oldest_session (email : string)
| error_checking_concurrent_sessions (e : Exn)
| warning_security_violation (email : string).

(** The state a request is processed in: the request object, the world,
    and the log written so far (oldest entry first). *)
Record State := mkState {
  request : Request;
  world : World;
  log : list Log;
}.

Definition set_request (r : Request) (st : State) : State :=
  mkState r (world st) (log st).

Definition set_world (w : World) (st : State) : State :=
  mkState (request st) w (log st).

Definition logger (l : Log) : M State unit :=
  modify (fun st => mkState (request st) (world st) (log st ++ [l])).

(** A call on the world made from the middleware. *)
Definition on_world {A} (m : M World A) : M State A := zoom world set_world m.

Definition skip_paths : list string :=
  ["/static/"; "/media/"; "/health/"; "/admin/jsi18n/"; "/favicon.ico"].

Definition _should_skip_session_management (r : Request) : bool :=
  existsb (Str.startswith (path r)) skip_paths.

(** What [_get_client_ip] returns: the first hop of [X-Forwarded-For] when
    the header is there and not empty, else [REMOTE_ADDR]. *)
Definition client_address (r : Request) : option string :=
  match HTTP_X_FORWARDED_FOR r with
  | Some (String a rest) => Some (Str.strip (Str.before_comma (String a rest)))
  | _ => REMOTE_ADDR r
  end.

Definition _get_client_ip : M State (option string) :=
  reach world client_ip;;
  r ← gets request;
  ret (client_address r).

(** [request.user.email] *)
Definition user_email : M State string :=
  r ← gets request;
  match user r with
  | CustomUser _ email => ret email
  | AnonymousUser =>
      raise (raise_ AttributeError
               "'AnonymousUser' object has no attribute 'email'")
  end.

(** The id a query on [user=request.user] filters by; an anonymous user
    cannot be used in a query. *)
Definition user_pk : M State Z :=
  r ← gets request;
  match user r with
  | CustomUser id _ => ret id
  | AnonymousUser =>
      raise (raise_ TypeError "'AnonymousUser' object is not iterable")
  end.

Definition _get_device_type (user_agent : UserAgent) : string :=
  if is_mobile user_agent then "mobile"
  else if is_tablet user_agent then "tablet"
  else if is_pc user_agent then "desktop"
  else "unknown".

(** The rows of [filter(user=uid, is_active=True)]. *)
Definition active_of (uid : Z) (table : list UserSession.t) : list UserSession.t :=
  List.filter (fun row => bool_decide (user_id row = uid) && is_active row) table.

(** [filter(user=uid, is_active=True, session_key=key).first()]; a key of
    [None] matches no row. *)
Definition find_active (uid : Z) (key : option string)
    (table : list UserSession.t) : option UserSession.t :=
  List.find (fun row => bool_decide (Some (UserSession.session_key row) = key))
    (active_of uid table).

(** [order_by('last_activity').first()]: the least [last_activity], the
    earliest row among equals. *)
Fixpoint oldest (rows : list UserSession.t) : option UserSession.t :=
  match rows with
  | [] => None
  | row :: rest =>
      match oldest rest with
      | None => Some row
      | Some other =>
          if bool_decide (last_activity row <= last_activity other)%Qc
          then Some row else Some other
      end
  end.

Definition fresh_pk (table : list UserSession.t) : Z :=
  1 + foldr (fun row acc => Z.max (pk row) acc) 0 table.

(** [UserSession.objects.create(...)]: the row must have a user, a
    session key no other row has, and an address. *)
Definition objects_create_row (ip : option string)
    (user_agent device browser os : string) : M State UserSession.t :=
  reach world objects_create;;
  r ← gets request;
  uid ← user_pk;
  match session_key r, ip with
  | None, _ =>
      raise (raise_ IntegrityError
               "NOT NULL constraint failed: user_sessions.session_key")
  | _, None =>
      raise (raise_ IntegrityError
               "NOT NULL constraint failed: user_sessions.ip_address")
  | Some key, Some address =>
      table ← gets (fun st => user_sessions (world st));
      if existsb (fun row => bool_decide (UserSession.session_key row = key)) table
      then raise (raise_ IntegrityError
                    "UNIQUE constraint failed: user_sessions.session_key")
      else
        timestamp ← gets (fun st => now (world st));
        let row :=
          UserSession.mk (fresh_pk table) uid key address user_agent device
            browser os timestamp timestamp None true 0 0 in
        modify (fun st => set_world (set_user_sessions (table ++ [row]) (world st)) st);;
        ret row
  end.

Section libraries.
Context `{!Libraries}.

Definition _create_new_user_session : M State (option UserSession.t) :=
  try_except
    (r ← gets request;
     let user_agent_string := default "" (HTTP_USER_AGENT r) in
     let user_agent := user_agents_parse user_agent_string in
     ip ← _get_client_ip;
     user_session ←
       objects_create_row ip user_agent_string (_get_device_type user_agent)
         (browser_family user_agent) (os_family user_agent);
     email ← user_email;
     logger (info_new_user_session email (UserSession.session_key user_session)
               (device_type user_session));;
     ret (Some user_session))
    (fun e => logger (error_creating_new_user_session e);; ret None).

Definition _get_or_create_user_session : M State (option UserSession.t) :=
  try_except
    (r ← gets request;
     uid ← user_pk;
     reach world filter_first;;
     table ← gets (fun st => user_sessions (world st));
     match find_active uid (session_key r) table with
     | Some found =>
         timestamp ← gets (fun st => now (world st));
         let user_session := set_last_activity timestamp found in
         on_world (save save_last_activity (pk user_session)
                     (set_last_activity (last_activity user_session)));;
         ret (Some user_session)
     | None => _create_new_user_session
     end)
    (fun e => logger (error_getting_creating_user_session e);; ret None).

Definition _update_user_activity : M State unit :=
  try_except (reach world save_user)
    (fun e => logger (error_updating_user_activity e)).

Definition _handle_authenticated_session : M State unit :=
  try_except
    (user_session ← _get_or_create_user_session;
     modify (fun st => set_request (set_user_session user_session (request st)) st);;
     _update_user_activity;;
     email ← user_email;
     key ← match user_session with
           | Some s => ret (UserSession.session_key s)
           | None =>
               raise (raise_ AttributeError
                        "'NoneType' object has no attribute 'session_key'")
           end;
     ip ← _get_client_ip;
     logger (info_authenticated_session email key ip))
    (fun e => logger (error_handling_authenticated_session e)).

Definition _handle_anonymous_session : M State unit :=
  try_except
    (ip ← _get_client_ip;
     r ← gets request;
     timestamp ← gets (fun st => now (world st));
     let session_data :=
       CAnonymous ip (default "" (HTTP_USER_AGENT r)) timestamp (path r) in
     let cache_key := "anonymous_session:" +:+ md5_hexdigest session_data in
     reach world cache_set;;
     modify (fun st =>
               set_world
                 (set_cache (<[cache_key := (session_data, (timestamp + Q2Qc 3600)%Qc)]>
                               (cache (world st)))
                    (world st)) st))
    (fun e => logger (error_handling_anonymous_session e)).

End libraries.

Definition _check_session_consistency : M State bool :=
  try_except
    (r ← gets request;
     match user_session r with
     | Some (Some user_session) =>
         ip ← _get_client_ip;
         when_ (bool_decide (Some (ip_address user_session) ≠ ip))
           (email ← user_email;
            ip' ← _get_client_ip;
            logger (info_ip_address_changed email (ip_address user_session) ip'));;
         if bool_decide (user_agent user_session ≠ default "" (HTTP_USER_AGENT r))
         then
           email ← user_email;
           logger (warning_user_agent_changed email);;
           ret false
         else ret true
     | _ => ret true
     end)
    (fun e => logger (error_checking_session_consistency e);; ret false).

(** [f"request_rate:{client_ip}:{request.user.id}"] *)
Definition request_rate_key (ip : option string) (u : User) : string :=
  "request_rate:" +:+ default "None" ip +:+ ":" +:+
  match u with CustomUser id _ => pretty id | AnonymousUser => "None" end.

(** [cache.get(key, 0)]: the entry when it has not expired. *)
Definition cache_get_or (key : string) (w : World) : Cached :=
  match cache w !! key with
  | Some (value, expires) =>
      if bool_decide (now w < expires)%Qc then value else CInt 0
  | None => CInt 0
  end.

Definition _detect_suspicious_activity : M State bool :=
  try_except
    (client_ip ← _get_client_ip;
     r ← gets request;
     let cache_key := request_rate_key client_ip (user r) in
     reach world cache_get;;
     cached ← gets (fun st => cache_get_or cache_key (world st));
     match cached with
     | CAnonymous _ _ _ _ =>
         raise (raise_ TypeError
                  "'>' not supported between instances of 'dict' and 'int'")
     | CInt request_count =>
         if bool_decide (100 < request_count) then
           email ← user_email;
           logger (warning_high_request_rate email);;
           ret true
         else
           reach world cache_set;;
           modify (fun st =>
                     set_world
                       (set_cache
                          (<[cache_key := (CInt (request_count + 1),
                                           (now (world st) + Q2Qc 60)%Qc)]>
                             (cache (world st)))
                          (world st)) st);;
           ret false
     end)
    (fun e => logger (error_detecting_suspicious_activity e);; ret false).

Definition _validate_session_security : M State bool :=
  r ← gets request;
  if negb (is_authenticated (user r)) then ret true
  else
    try_except
      (consistent ← _check_session_consistency;
       if negb consistent then
         email ← user_email;
         logger (warning_consistency_check_failed email);;
         ret false
       else
         suspicious ← _detect_suspicious_activity;
         if (suspicious : bool) then
           email ← user_email;
           logger (warning_suspicious_activity email);;
           ret false
         else ret true)
      (fun e => logger (error_validating_session_security e);; ret false).

Definition _check_concurrent_sessions : M State bool :=
  try_except
    (uid ← user_pk;
     reach world filter_count;;
     table ← gets (fun st => user_sessions (world st));
     let active_sessions := Z.of_nat (length (active_of uid table)) in
     max_concurrent_sessions ←
       gets (fun st => default 5 (MAX_CONCURRENT_SESSIONS (world st)));
     when_ (bool_decide (max_concurrent_sessions <= active_sessions))
       (reach world order_by_first;;
        table' ← gets (fun st => user_sessions (world st));
        match oldest (active_of uid table') with
        | Some oldest_session =>
            zoom (fun st => (oldest_session, world st))
                 (fun p st => set_world p.2 st) end_session;;
            email ← user_email;
            logger (info_ended_oldest_session email)
        | None => ret tt
        end);;
     ret true)
    (fun e => logger (error_checking_concurrent_sessions e);; ret true).

Definition _create_security_violation_response : M State JsonResponse :=
  email ← user_email;
  logger (warning_security_violation email);;
  r ← gets request;
  match user_session r with
  | Some (Some instance) =>
      zoom (fun st => (instance, world st))
           (fun p st => set_world p.2 (set_request (set_user_session (Some p.1) (request st)) st))
           end_session
  | Some None =>
      raise (raise_ AttributeError
               "'NoneType' object has no attribute 'end_session'")
  | None => ret tt
  end;;
  ret (mkJsonResponse
         [("error", JStr "Security violation detected");
          ("message", JStr "Your session has been terminated due to security concerns. Please log in again.");
          ("code", JStr "SECURITY_VIOLATION")]
         403).

Definition _create_concurrent_session_response : JsonResponse :=
  mkJsonResponse
    [("error", JStr "Too many active sessions");
     ("message", JStr "You have too many active sessions. Please try again.");
     ("code", JStr "CONCURRENT_SESSION_LIMIT")]
    429.

(** Lines 63-69 of [process_request]: the security gate, then the
    concurrency gate. *)
Definition gates : M State (option JsonResponse) :=
  secure ← _validate_session_security;
  if negb secure then
    response ← _create_security_violation_response;
    ret (Some response)
  else
    allowed ← _check_concurrent_sessions;
    if negb allowed then ret (Some _create_concurrent_session_response)
    else ret None.

Section libraries.
Context `{!Libraries}.

(** Lines 54-61 of [process_request]: the start time is noted and the
    session of the request is resolved. *)
Definition resolve_session : M State unit :=
  r ← gets request;
  timestamp ← gets (fun st => now (world st));
  modify (fun st => set_request (set_session_start_time timestamp (request st)) st);;
  if is_authenticated (user r) then _handle_authenticated_session
  else _handle_anonymous_session.

(** [process_request(request)]: [None] lets the request proceed, a
    response answers it at once. *)
Definition process_request : M State (option JsonResponse) :=
  r ← gets request;
  if _should_skip_session_management r then ret None
  else resolve_session;; gates.

End libraries.

Definition _update_session_activity : M State unit :=
  try_except
    (r ← gets request;
     match user_session r with
     | Some (Some instance) =>
         let views := page_views instance + 1 in
         let chats :=
           if Str.contains (path r) "/api/v1/chatbot/"
           then chat_interactions instance + 1
           else chat_interactions instance in
         modify (fun st =>
                   set_request
                     (set_user_session (Some (set_counters views chats instance))
                        (request st)) st);;
         on_world (save save_counters (pk instance) (set_counters views chats))
     | _ =>
         raise (raise_ AttributeError
                  "'NoneType' object has no attribute 'page_views'")
     end)
    (fun e => logger (error_updating_session_activity e)).

(** The headers [process_response] adds. *)
Inductive Header :=
| X_Session_Duration (seconds : Qc)
| X_Session_ID (key : string).

Definition process_response : M State (list Header) :=
  r ← gets request;
  match session_start_time r with
  | None => ret []
  | Some started =>
      timestamp ← gets (fun st => now (world st));
      let duration := (timestamp - started)%Qc in
      when_ (is_authenticated (user r)
             && bool_decide (is_Some (user_session r)))
        _update_session_activity;;
      match user_session r with
      | None => ret [X_Session_Duration duration]
      | Some (Some instance) =>
          ret [X_Session_Duration duration;
               X_Session_ID (UserSession.session_key instance)]
      | Some None =>
          raise (raise_ AttributeError
                   "'NoneType' object has no attribute 'session_key'")
      end
  end.

End SessionManagementMiddleware.


(** ** [class SessionCleanupMiddleware] of [users/middleware.py] *)

Module SessionCleanupMiddleware.
Import UserSession.

(** A row of [django.contrib.sessions.models.Session]. *)
Record Session := mkSession {
  session_key : string;
  expire_date : Qc;
}.

(** The queries of the cleanup; any of them may raise. *)
Inductive Query :=
| count_expired         (* [expired_sessions.count()] *)
| delete_expired        (* [expired_sessions.delete()] *)
| iterate_inactive      (* [for session in inactive_sessions] *)
| values_list_keys      (* [Session.objects.values_list('session_key', flat=True)] *)
| iterate_orphaned.     (* [for session in orphaned_sessions] *)

#[global] Instance Query_eq_dec : EqDecision Query.
Proof. solve_decision. Defined.

Inductive Log :=
| info_cleanup_completed
| error_during_cleanup (e : Exn)
| info_cleaned_up_expired (count : Z)
| error_cleaning_up_expired (e : Exn)
| info_ended_inactive (count : Z)
| error_cleaning_up_inactive (e : Exn)
| info_ended_orphaned (count : Z)
| error_cleaning_up_orphaned (e : Exn).

(** The state the cleanup runs in: the world of the session code, the
    table of Django sessions, the three settings when set, the queries
    that raise, and the log (oldest entry first). *)
Record State := mkState {
  world : World;
  sessions : list Session;
  SESSION_CLEANUP_INTERVAL : option Z;
  SESSION_COOKIE_AGE : option Z;
  SESSION_INACTIVITY_TIMEOUT : option Z;
  query_faults : Query -> option Exn;
  log : list Log;
}.

Definition set_world (w : World) (st : State) : State :=
  mkState w (sessions st) (SESSION_CLEANUP_INTERVAL st) (SESSION_COOKIE_AGE st)
    (SESSION_INACTIVITY_TIMEOUT st) (query_faults st) (log st).

Definition set_sessions (rows : list Session) (st : State) : State :=
  mkState (world st) rows (SESSION_CLEANUP_INTERVAL st) (SESSION_COOKIE_AGE st)
    (SESSION_INACTIVITY_TIMEOUT st) (query_faults st) (log st).

Definition logger (l : Log) : M State unit :=
  modify (fun st =>
            mkState (world st) (sessions st) (SESSION_CLEANUP_INTERVAL st)
              (SESSION_COOKIE_AGE st) (SESSION_INACTIVITY_TIMEOUT st)
              (query_faults st) (log st ++ [l])).

(** Reaching a query: it raises when the environment says so. *)
Definition ask (q : Query) : M State unit :=
  fun st =>
    match query_faults st q with
    | Some e => (st, Raised e)
    | None => (st, Returned tt)
    end.

(** [timezone.now() - timedelta(seconds=seconds)] *)
Definition seconds_ago (seconds : Z) (st : State) : Qc :=
  (now (world st) - Q2Qc (inject_Z seconds))%Qc.

(** [expire_date__lt=cutoff] *)
Definition expired_before (cutoff : Qc) (row : Session) : bool :=
  bool_decide (expire_date row < cutoff)%Qc.

Definition _cleanup_expired_sessions : M State unit :=
  try_except
    (session_timeout ← gets (fun st => default 1209600 (SESSION_COOKIE_AGE st));
     cutoff_time ← gets (seconds_ago session_timeout);
     ask count_expired;;
     count ← gets (fun st =>
                     Z.of_nat (length (List.filter (expired_before cutoff_time)
                                         (sessions st))));
     ask delete_expired;;
     modify (fun st =>
               set_sessions
                 (List.filter (fun row => negb (expired_before cutoff_time row))
                    (sessions st)) st);;
     when_ (bool_decide (0 < count)) (logger (info_cleaned_up_expired count)))
    (fun e => logger (error_cleaning_up_expired e)).

(** The body of [for session in rows: session.end_session(); count += 1],
    the rows having been fetched when the loop started. *)
Fixpoint end_each (rows : list UserSession.t) (count : Z) : M State Z :=
  match rows with
  | [] => ret count
  | session :: rest =>
      zoom (fun st => (session, world st)) (fun p st => set_world p.2 st)
        end_session;;
      end_each rest (count + 1)
  end.

(** [is_active=True, last_activity__lt=cutoff] *)
Definition inactive_since (cutoff : Qc) (row : UserSession.t) : bool :=
  is_active row && bool_decide (last_activity row < cutoff)%Qc.

Definition _cleanup_inactive_sessions : M State unit :=
  try_except
    (inactivity_timeout ←
       gets (fun st => default 3600 (SESSION_INACTIVITY_TIMEOUT st));
     cutoff_time ← gets (seconds_ago inactivity_timeout);
     ask iterate_inactive;;
     inactive_sessions ←
       gets (fun st => List.filter (inactive_since cutoff_time)
                         (user_sessions (world st)));
     count ← end_each inactive_sessions 0;
     when_ (bool_decide (0 < count)) (logger (info_ended_inactive count)))
    (fun e => logger (error_cleaning_up_inactive e)).

(** [is_active=True] and not [session_key__in=keys] *)
Definition orphaned_among (keys : gset string) (row : UserSession.t) : bool :=
  is_active row && negb (bool_decide (UserSession.session_key row ∈ keys)).

Definition _cleanup_orphaned_sessions : M State unit :=
  try_except
    (ask values_list_keys;;
     django_session_keys ←
       gets (fun st => list_to_set (session_key <$> sessions st) : gset string);
     ask iterate_orphaned;;
     orphaned_sessions ←
       gets (fun st => List.filter (orphaned_among django_session_keys)
                         (user_sessions (world st)));
     count ← end_each orphaned_sessions 0;
     when_ (bool_decide (0 < count)) (logger (info_ended_orphaned count)))
    (fun e => logger (error_cleaning_up_orphaned e)).

Definition _run_session_cleanup : M State unit :=
  try_except
    (_cleanup_expired_sessions;;
     _cleanup_inactive_sessions;;
     _cleanup_orphaned_sessions;;
     logger info_cleanup_completed)
    (fun e => logger (error_during_cleanup e)).

(** [cache.set('session_cleanup_counter', value, 3600)] *)
Definition set_counter (value : Z) : M State unit :=
  reach world cache_set;;
  modify (fun st =>
            set_world
              (set_cache
                 (<["session_cleanup_counter" :=
                      (CInt value, (now (world st) + Q2Qc 3600)%Qc)]>
                    (cache (world st)))
                 (world st)) st).

(** [process_request(request)]: nothing of the request is read; the two
    cache calls are outside any [try]. *)
Definition process_request : M State unit :=
  cleanup_interval ← gets (fun st => default 100 (SESSION_CLEANUP_INTERVAL st));
  reach world cache_get;;
  cached ←
    gets (fun st =>
            SessionManagementMiddleware.cache_get_or "session_cleanup_counter"
              (world st));
  match cached with
  | CAnonymous _ _ _ _ =>
      raise (raise_ TypeError
               "'>=' not supported between instances of 'dict' and 'int'")
  | CInt counter =>
      if bool_decide (cleanup_interval <= counter)
      then _run_session_cleanup;; set_counter 0
      else set_counter (counter + 1)
  end.

End SessionCleanupMiddleware.
(** * Vocabulary of the statements and sample values *)

(** ** Vocabulary *)

(** The wrapped function, run in world [w], raises an exception that the
    breaker monitors. *)
Definition fails_as_expected {W R} (self : CircuitBreaker.t)
    (step : Callable W R * W) : Prop :=
  exists e, (run step.1 step.2).2 = Raised e
            /\ isinstance e (CircuitBreaker.expected_exception self) = true.

(** Where a breaker stands after [k] monitored failures in a row: open
    with its threshold reached, or closed having counted them all and,
    once one was counted, still below the threshold. *)
Definition counted (k : nat) (self : CircuitBreaker.t) : Prop :=
  (CircuitBreaker.state self = CircuitBreaker.OPEN
   /\ CircuitBreaker.failure_threshold self <= CircuitBreaker.failure_count self)
  \/ (CircuitBreaker.state self = CircuitBreaker.CLOSED
      /\ Z.of_nat k <= CircuitBreaker.failure_count self
      /\ ((1 <= k)%nat ->
          CircuitBreaker.failure_count self < CircuitBreaker.failure_threshold self)).

(** ** Sample values *)

(** A world made of a clock and of the number of times the sample
    functions below have run. *)
Definition SampleWorld : Type := Qc * nat.

#[global] Instance sample_clock : Clock SampleWorld := fst.

#[global] Instance sample_sleep : Sleep SampleWorld :=
  fun seconds w => ((w.1 + seconds)%Qc, w.2).

(** A function that raises an exception of class [c] each time it runs. *)
Definition always_fails (c : ExcClass) : Callable SampleWorld string :=
  mkCallable "failing_func"
    (fun w => ((w.1, S w.2), Raised (raise_ c "Test failure"))).

Definition successful_func : Callable SampleWorld string :=
  mkCallable "successful_func" (fun w => ((w.1, S w.2), Returned "success")).

(** The world at [seconds] on the clock, after [runs] runs. *)
Definition at_time (seconds : Z) (runs : nat) : SampleWorld :=
  (Q2Qc (inject_Z seconds), runs).

(** A server: its clock, the number of ids drawn so far, [settings.DEBUG],
    and whether the database and the cache answer. *)
Record SampleServer := mkSampleServer {
  server_time : Qc;
  ids_drawn : nat;
  debug : bool;
  database_up : bool;
  cache_up : bool;
}.

(** The [n]-th id the sample server draws. *)
Definition sample_uuid (n : nat) : string :=
  "00000000-0000-4000-8000-" +:+ pretty n.

#[global] Instance sample_server_clock : Clock SampleServer := server_time.

#[global] Instance sample_server_uuid : Uuid SampleServer :=
  fun w =>
    (sample_uuid (ids_drawn w),
     mkSampleServer (server_time w) (S (ids_drawn w)) (debug w) (database_up w)
       (cache_up w)).

Definition sample_database_call (w : SampleServer) : SampleServer * Outcome unit :=
  (w, if database_up w then Returned tt
      else Raised (raise_ OperationalError "could not connect to server")).

Definition sample_cache_call (w : SampleServer) : SampleServer * Outcome unit :=
  (w, if cache_up w then Returned tt
      else Raised (raise_ RedisConnectionError "Error connecting to redis")).

#[global] Instance sample_server_services : Services SampleServer := {|
  settings_DEBUG := debug;
  connection_select_1 := sample_database_call;
  cache_get_health_check := sample_cache_call;
  connection_reconnect := sample_database_call;
  cache_reset_pool := sample_cache_call;
|}.

(** A healthy production server at time 0. *)
Definition healthy_server : SampleServer := mkSampleServer 0%Qc 0 false true true.

(** The same server with its database down. *)
Definition server_without_database : SampleServer :=
  mkSampleServer 0%Qc 0 false false true.

(** [RequestFactory().get(path)] as [EdgeCaseHandlingMiddleware] sees it. *)
Definition get_request (path : string) : EdgeCaseHandlingMiddleware.Request :=
  EdgeCaseHandlingMiddleware.mkRequest "GET" path None None None None None None.

(** No breaker of the registry is open. *)
Definition none_open (self : EdgeCaseHandlingMiddleware.t) : Prop :=
  forall name breaker,
    EdgeCaseHandlingMiddleware.circuit_breakers self !! name = Some breaker ->
    CircuitBreaker.state breaker = CircuitBreaker.CLOSED.

(** The schedule the specification gives for a run of the retry
    decorator, from the results of its invocations: each invocation but
    the last is followed by one sleep, and the sleep that follows
    invocation number [i] (counting from 0), that is, the sleep before
    retry number [i + 1], lasts [delay * backoff_factor ^ i]. *)
Fixpoint backoff_schedule {R} (delay backoff_factor : Qc) (i : nat)
    (rs : list (Outcome R)) : list (retry_on_failure.Event R) :=
  match rs with
  | [] => []
  | r :: rest =>
      retry_on_failure.called r
        :: match rest with
           | [] => []
           | _ :: _ =>
               retry_on_failure.slept (delay * backoff_factor ^ i)%Qc
                 :: backoff_schedule delay backoff_factor (S i) rest
           end
  end.

(** A function that fails with a [Timeout] until it has run [n] times,
    then returns. *)
Definition fails_until (n : nat) : Callable SampleWorld string :=
  mkCallable "eventually_successful_func"
    (fun w => ((w.1, S w.2),
               if bool_decide (S w.2 < n)%nat
               then Raised (raise_ Timeout "Temporary failure")
               else Returned "success")).

(** A toy classifier standing for [user_agents.parse] in the samples, and
    a toy digest standing for MD5. *)
Definition sample_parse (s : string) : SessionManagementMiddleware.UserAgent :=
  SessionManagementMiddleware.mkUserAgent
    (Str.contains s "Mobile") (Str.contains s "iPad") (Str.contains s "Windows")
    (if Str.contains s "Chrome" then "Chrome" else "Other")
    (if Str.contains s "Windows" then "Windows" else "Other").

Definition sample_digest (c : UserSession.Cached) : string :=
  match c with
  | UserSession.CInt n => pretty n
  | UserSession.CAnonymous ip user_agent _ path =>
      default "None" ip +:+ "|" +:+ user_agent +:+ "|" +:+ path
  end.

#[global] Instance sample_libraries : SessionManagementMiddleware.Libraries := {|
  SessionManagementMiddleware.user_agents_parse := sample_parse;
  SessionManagementMiddleware.md5_hexdigest := sample_digest;
|}.

(** A desktop session of user [uid], active, last seen at [seen]. *)
Definition session_row (pk uid : Z) (key ip user_agent : string) (seen : Z)
  : UserSession.t :=
  UserSession.mk pk uid key ip user_agent "desktop" "Chrome" "Windows"
    0%Qc (Q2Qc (inject_Z seen)) None true 0 0.

(** The environment in which no call raises. *)
Definition no_faults : UserSession.Call -> option Exn := fun _ => None.

(** The environment in which call [c] raises [e] and no other call does. *)
Definition fault_at (c : UserSession.Call) (e : Exn) : UserSession.Call -> option Exn :=
  fun c' => if bool_decide (c' = c) then Some e else None.

(** A world at [seconds] on the clock with the given table, an empty cache
    and the default limit on concurrent sessions. *)
Definition world_at (seconds : Z) (table : list UserSession.t)
    (faults : UserSession.Call -> option Exn) : UserSession.World :=
  UserSession.mkWorld (Q2Qc (inject_Z seconds)) table ∅ None faults.

(** The rows of a table after the session of key [key] was ended at
    [timestamp]. *)
Definition ended_in (key : Z) (timestamp : Qc) (table : list UserSession.t)
  : list UserSession.t :=
  map (fun row => if bool_decide (UserSession.pk row = key)
                  then UserSession.set_ended false (Some timestamp) row
                  else row) table.

(** An authenticated request of user 7 for a chatbot page, as
    [SessionManagementMiddleware] sees it before it has set anything. *)
Definition chatbot_request (key user_agent ip : string)
  : SessionManagementMiddleware.Request :=
  SessionManagementMiddleware.mkRequest "/api/v1/chatbot/conversations/"
    (SessionManagementMiddleware.CustomUser 7 "test@example.com")
    (Some key) (Some user_agent) None (Some ip) None None.

(** The user-agent string of a tablet that also classifies as mobile. *)
Definition ipad_user_agent : string :=
  "Mozilla/5.0 (iPad; CPU OS 15_0 like Mac OS X) CriOS/96.0 Mobile/15E148".

(** Scenario E: six active sessions of user 7, the second one the least
    recently active. *)
Definition six_sessions : list UserSession.t :=
  [session_row 1 7 "session_key_0" "127.0.0.1" "Test User Agent" 10;
   session_row 2 7 "session_key_1" "127.0.0.1" "Test User Agent" 3;
   session_row 3 7 "session_key_2" "127.0.0.1" "Test User Agent" 7;
   session_row 4 7 "session_key_3" "127.0.0.1" "Test User Agent" 8;
   session_row 5 7 "session_key_4" "127.0.0.1" "Test User Agent" 9;
   session_row 6 7 "session_key_5" "127.0.0.1" "Test User Agent" 11].

(** The user-agent string a request announces: [META.get('HTTP_USER_AGENT', '')]. *)
Definition incoming_user_agent (st : SessionManagementMiddleware.State) : string :=
  default ""
    (SessionManagementMiddleware.HTTP_USER_AGENT
       (SessionManagementMiddleware.request st)).


(** The request counter of the client, as the cache holds it. *)
Definition request_rate (st : SessionManagementMiddleware.State) : UserSession.Cached :=
  let r := SessionManagementMiddleware.request st in
  SessionManagementMiddleware.cache_get_or
    (SessionManagementMiddleware.request_rate_key
       (SessionManagementMiddleware.client_address r)
       (SessionManagementMiddleware.user r))
    (SessionManagementMiddleware.world st).

(** The client has made more than 100 requests within the minute. *)
Definition request_rate_exceeded (st : SessionManagementMiddleware.State) : Prop :=
  exists n, request_rate st = UserSession.CInt n /\ 100 < n.


(** The state with entries added to its log. *)
Definition logging (entries : list SessionManagementMiddleware.Log)
    (st : SessionManagementMiddleware.State) : SessionManagementMiddleware.State :=
  SessionManagementMiddleware.mkState
    (SessionManagementMiddleware.request st)
    (SessionManagementMiddleware.world st)
    (SessionManagementMiddleware.log st ++ entries).

(** The 403 response to a security violation. *)
Definition security_violation_response : JsonResponse :=
  mkJsonResponse
    [("error", JStr "Security violation detected");
     ("message", JStr "Your session has been terminated due to security concerns. Please log in again.");
     ("code", JStr "SECURITY_VIOLATION")]
    403.

(** The request of user 7 once session [s] has been resolved for it. *)
Definition resolved_request (user_agent ip : string) (s : UserSession.t)
  : SessionManagementMiddleware.Request :=
  SessionManagementMiddleware.mkRequest "/api/v1/chatbot/conversations/"
    (SessionManagementMiddleware.CustomUser 7 "test@example.com")
    (Some (UserSession.session_key s)) (Some user_agent) None (Some ip)
    (Some 0%Qc) (Some (Some s)).

(** Scenario B: the stored session, with fingerprint "UA-A" and address
    "1.1.1.1". *)
Definition stored_session : UserSession.t :=
  session_row 1 7 "session_key_0" "1.1.1.1" "UA-A" 0.

(** The state of a request for the stored session that arrives at time 9
    with the given fingerprint and address. *)
Definition arriving (user_agent ip : string)
    (faults : UserSession.Call -> option Exn)
  : SessionManagementMiddleware.State :=
  SessionManagementMiddleware.mkState
    (resolved_request user_agent ip stored_session)
    (world_at 9 [stored_session] faults) [].

(** ** Vocabulary of the further properties *)

(** What every breaker built by [__init__] and used through [call] keeps:
    its count is not negative, and once it has left CLOSED the time of the
    last failure is known and the threshold has been reached. *)
Definition breaker_invariant (self : CircuitBreaker.t) : Prop :=
  0 <= CircuitBreaker.failure_count self
  /\ (CircuitBreaker.state self <> CircuitBreaker.CLOSED ->
      is_Some (CircuitBreaker.last_failure_time self)
      /\ CircuitBreaker.failure_threshold self <= CircuitBreaker.failure_count self).


(** The sum of durations. *)
Definition total (durations : list Qc) : Qc := foldr Qcplus 0%Qc durations.

(** [q ^ first + ... + q ^ (first + n - 1)] *)
Definition geometric_sum (q : Qc) (first n : nat) : Qc :=
  total (map (Qcpower q) (seq first n)).



(** How many of the exceptions the retry middleware counts against the
    request. *)
Definition retries (request : RetryMiddleware.Request) (es : list Exn) : nat :=
  length (List.filter (RetryMiddleware._should_retry request) es).

(** A request as [SessionManagementMiddleware] first sees it, of the given
    user and for the given path. *)
Definition first_seen (path : string) (user : SessionManagementMiddleware.User)
    (table : list UserSession.t) (faults : UserSession.Call -> option Exn)
  : SessionManagementMiddleware.State :=
  SessionManagementMiddleware.mkState
    (SessionManagementMiddleware.mkRequest path user (Some "session_key_0")
       (Some "Test User Agent") None (Some "127.0.0.1") None None)
    (world_at 9 table faults) [].

(** The request-rate check run [n] times on end for one request: the state
    after the last run and what each run answered. *)
Fixpoint detections (n : nat) (st : SessionManagementMiddleware.State)
  : SessionManagementMiddleware.State * list (Outcome bool) :=
  match n with
  | O => (st, [])
  | S n' =>
      let '(st1, answer) :=
        SessionManagementMiddleware._detect_suspicious_activity st in
      let '(st2, answers) := detections n' st1 in
      (st2, answer :: answers)
  end.

(** The three calls the request-rate check makes go through. *)
Definition rate_check_unhindered (st : SessionManagementMiddleware.State) : Prop :=
  let faults := UserSession.faults (SessionManagementMiddleware.world st) in
  faults UserSession.client_ip = None
  /\ faults UserSession.cache_get = None
  /\ faults UserSession.cache_set = None.

(** The calls made to look a session up or to create it go through. *)
Definition lookup_unhindered (st : SessionManagementMiddleware.State) : Prop :=
  let faults := UserSession.faults (SessionManagementMiddleware.world st) in
  faults UserSession.filter_first = None
  /\ faults UserSession.save_last_activity = None
  /\ faults UserSession.objects_create = None
  /\ faults UserSession.client_ip = None.

(** The request is one of user [uid] under session key [key], from a
    client whose address can be read. *)
Definition request_of (uid : Z) (key : string)
    (st : SessionManagementMiddleware.State) : Prop :=
  let r := SessionManagementMiddleware.request st in
  (exists email, SessionManagementMiddleware.user r
                 = SessionManagementMiddleware.CustomUser uid email)
  /\ SessionManagementMiddleware.session_key r = Some key
  /\ is_Some (SessionManagementMiddleware.client_address r).


(** Two rows that differ in their counters at most, or in the time of
    their last activity at most. *)
Definition same_but_counters (a b : UserSession.t) : Prop :=
  UserSession.set_counters 0 0 a = UserSession.set_counters 0 0 b.

Definition same_but_last_activity (a b : UserSession.t) : Prop :=
  UserSession.set_last_activity 0%Qc a = UserSession.set_last_activity 0%Qc b.

(** The counters of a session after one more response on the path. *)
Definition counted_response (path : string) (s : UserSession.t) : UserSession.t :=
  UserSession.set_counters (UserSession.page_views s + 1)
    (UserSession.chat_interactions s
     + (if Str.contains path "/api/v1/chatbot/" then 1 else 0)) s.

(** The table after the rows that satisfy [p] were ended at [timestamp]. *)
Definition ended_where (p : UserSession.t -> bool) (timestamp : Qc)
    (table : list UserSession.t) : list UserSession.t :=
  map (fun row => if p row then UserSession.set_ended false (Some timestamp) row
                  else row) table.

(** The queries and the saves of the cleanup of user sessions go
    through. *)
Definition cleanup_unhindered (st : SessionCleanupMiddleware.State) : Prop :=
  UserSession.faults (SessionCleanupMiddleware.world st) UserSession.save_end = None
  /\ SessionCleanupMiddleware.query_faults st
       SessionCleanupMiddleware.iterate_inactive = None
  /\ SessionCleanupMiddleware.query_faults st
       SessionCleanupMiddleware.values_list_keys = None
  /\ SessionCleanupMiddleware.query_faults st
       SessionCleanupMiddleware.iterate_orphaned = None.

(** The moment before which an active session counts as inactive. *)
Definition inactivity_cutoff (st : SessionCleanupMiddleware.State) : Qc :=
  SessionCleanupMiddleware.seconds_ago
    (default 3600 (SessionCleanupMiddleware.SESSION_INACTIVITY_TIMEOUT st)) st.

(** The moment before which an expired Django session is deleted. *)
Definition expiry_cutoff (st : SessionCleanupMiddleware.State) : Qc :=
  SessionCleanupMiddleware.seconds_ago
    (default 1209600 (SessionCleanupMiddleware.SESSION_COOKIE_AGE st)) st.

(** The keys of the Django sessions. *)
Definition django_session_keys (st : SessionCleanupMiddleware.State) : gset string :=
  list_to_set (SessionCleanupMiddleware.session_key
               <$> SessionCleanupMiddleware.sessions st).

(** The log entry of a pass that ended [count] sessions, if any. *)
Definition reported {L : Type} (entry : Z -> L) (count : nat) : list L :=
  if bool_decide (0 < Z.of_nat count) then [entry (Z.of_nat count)] else [].

(** A state of the cleanup at time [seconds] with the default settings. *)
Definition cleanup_at (seconds : Z) (table : list UserSession.t)
    (sessions : list SessionCleanupMiddleware.Session)
  : SessionCleanupMiddleware.State :=
  SessionCleanupMiddleware.mkState (world_at seconds table no_faults) sessions
    None None None (fun _ => None) [].

(** Two rows that differ in [is_active] and [ended_at] at most. *)
Definition same_but_ending (a b : UserSession.t) : Prop :=
  UserSession.set_ended true None a = UserSession.set_ended true None b.

(** Some Django session has the key of the row. *)
Definition has_django_session (st : SessionCleanupMiddleware.State)
    (row : UserSession.t) : bool :=
  existsb (fun s => bool_decide (SessionCleanupMiddleware.session_key s
                                 = UserSession.session_key row))
    (SessionCleanupMiddleware.sessions st).

(** What a pass of the cleanup leaves as it was: the settings, the
    failing queries and calls, the clock and the cache; of the rows of
    user sessions, all but [is_active] and [ended_at]; and no Django
    session is added. *)
Definition cleanup_frame (st st' : SessionCleanupMiddleware.State) : Prop :=
  let w := SessionCleanupMiddleware.world st in
  let w' := SessionCleanupMiddleware.world st' in
  (SessionCleanupMiddleware.SESSION_CLEANUP_INTERVAL st'
   = SessionCleanupMiddleware.SESSION_CLEANUP_INTERVAL st
   /\ SessionCleanupMiddleware.SESSION_COOKIE_AGE st'
      = SessionCleanupMiddleware.SESSION_COOKIE_AGE st
   /\ SessionCleanupMiddleware.SESSION_INACTIVITY_TIMEOUT st'
      = SessionCleanupMiddleware.SESSION_INACTIVITY_TIMEOUT st
   /\ SessionCleanupMiddleware.query_faults st'
      = SessionCleanupMiddleware.query_faults st)
  /\ (UserSession.now w' = UserSession.now w
      /\ UserSession.cache w' = UserSession.cache w
      /\ UserSession.faults w' = UserSession.faults w)
  /\ Forall2 same_but_ending (UserSession.user_sessions w)
       (UserSession.user_sessions w')
  /\ SessionCleanupMiddleware.sessions st' ⊆ SessionCleanupMiddleware.sessions st.

(** The counter of requests since the last cleanup, as the cache holds
    it. *)
Definition cleanup_counter (st : SessionCleanupMiddleware.State) : UserSession.Cached :=
  SessionManagementMiddleware.cache_get_or "session_cleanup_counter"
    (SessionCleanupMiddleware.world st).

(** * Properties *)

(** ** The circuit breaker *)

Section circuit_breaker.
Context {W R : Type} `{!Clock W}.
Import CircuitBreaker.

Lemma call_keeps_configuration (self : t) (func : Callable W R) (w : W) :
  let self' := (call self func w).1.1.1 in
  failure_threshold self' = failure_threshold self
  /\ recovery_timeout self' = recovery_timeout self
  /\ expected_exception self' = expected_exception self.
Proof.
  unfold call, admission, _on_failure, _on_success, set_state.
  destruct (state self); simpl;
    repeat (first
      [ progress simpl
      | match goal with
        | |- context [run func w] => destruct (run func w) as [w1 [v|e]]
        | |- context [last_failure_time self] => destruct (last_failure_time self)
        | |- context [bool_decide ?P] => destruct (bool_decide P)
        | |- context [isinstance ?e ?c] => destruct (isinstance e c)
        end ]);
    auto.
Qed.

Lemma counted_step (k : nat) (self : t) (func : Callable W R) (w : W) :
  counted k self ->
  fails_as_expected self (func, w) ->
  counted (S k) (call self func w).1.1.1.
Proof.
  intros Hk (e & Hrun & Hexp). simpl in Hrun.
  unfold counted in *. unfold call, admission.
  destruct Hk as [[Hst Hge] | (Hst & Hle & Hlt)]; rewrite Hst.
  - destruct (last_failure_time self) as [last|]; simpl; [|left; auto].
    case_bool_decide; simpl; [|left; auto].
    destruct (run func w) as [w1 result]; simpl in Hrun; subst result.
    simpl. rewrite Hexp. unfold _on_failure; simpl.
    rewrite bool_decide_true by lia. simpl. left; split; [done | lia].
  - destruct (run func w) as [w1 result]; simpl in Hrun; subst result.
    rewrite Hexp. unfold _on_failure.
    case_bool_decide; simpl.
    + left; split; [done | lia].
    + right; rewrite Hst; split; [done | split; intros; lia].
Qed.

Lemma counted_calls (steps : list (Callable W R * W)) :
  forall (k : nat) (self : t),
    counted k self ->
    Forall (fails_as_expected self) steps ->
    counted (k + length steps) (calls self steps).
Proof.
  induction steps as [|[func w] rest IH]; intros k self Hk Hall; simpl.
  - by rewrite Nat.add_0_r.
  - apply Forall_cons in Hall as [Hhead Hrest].
    replace (k + S (length rest))%nat with (S k + length rest)%nat by lia.
    apply IH; [by apply counted_step |].
    eapply Forall_impl; [exact Hrest |].
    intros step (e & Hrun & Hexp). exists e; split; [done |].
    pose proof (call_keeps_configuration self func w) as (_ & _ & Hcfg).
    simpl in Hcfg. by rewrite Hcfg.
Qed.

End circuit_breaker.

(** C1 (as amended).  For every breaker:
    - opening: from CLOSED, after [n >= 1] consecutive calls, with
      [n >= failure_threshold], each failing with an exception that is an
      instance of the breaker's [expected_exception], the state is OPEN;
    - failing fast: a call made while OPEN, when [now - last_failure_time]
      does not exceed [recovery_timeout], raises the circuit-open error and
      leaves the breaker and the world as they were (the wrapped function
      is not run);
    - trial: a call made while OPEN once [recovery_timeout] is exceeded
      moves the breaker to HALF_OPEN and then runs the wrapped function
      exactly once: the world and the result of the call are those of one
      run of the function;
    - success: a call that returns leaves the breaker CLOSED with
      [failure_count = 0]. *)
Theorem circuit_breaker_lifecycle {W R : Type} `{!Clock W}
    (self : CircuitBreaker.t) :
  (forall steps : list (Callable W R * W),
      CircuitBreaker.state self = CircuitBreaker.CLOSED ->
      0 <= CircuitBreaker.failure_count self ->
      (1 <= length steps)%nat ->
      CircuitBreaker.failure_threshold self <= Z.of_nat (length steps) ->
      Forall (fails_as_expected self) steps ->
      CircuitBreaker.state (CircuitBreaker.calls self steps) = CircuitBreaker.OPEN)
  /\ (forall (func : Callable W R) (w : W) (last : Qc),
         CircuitBreaker.state self = CircuitBreaker.OPEN ->
         CircuitBreaker.last_failure_time self = Some last ->
         ~ (CircuitBreaker.recovery_timeout self < time_time w - last)%Qc ->
         CircuitBreaker.call self func w
         = (self, w, [], Raised (CircuitBreaker.CircuitOpenError (__name__ func))))
  /\ (forall (func : Callable W R) (w : W) (last : Qc),
         CircuitBreaker.state self = CircuitBreaker.OPEN ->
         CircuitBreaker.last_failure_time self = Some last ->
         (CircuitBreaker.recovery_timeout self < time_time w - last)%Qc ->
         CircuitBreaker.admission self (__name__ func) (time_time w)
         = inl (CircuitBreaker.set_state CircuitBreaker.HALF_OPEN self)
         /\ (CircuitBreaker.call self func w).1.1.2 = (run func w).1
         /\ (CircuitBreaker.call self func w).2 = (run func w).2)
  /\ (forall (func : Callable W R) (w : W) (v : R),
         (CircuitBreaker.call self func w).2 = Returned v ->
         CircuitBreaker.state (CircuitBreaker.call self func w).1.1.1
         = CircuitBreaker.CLOSED
         /\ CircuitBreaker.failure_count (CircuitBreaker.call self func w).1.1.1 = 0).
Proof.
  split; [| split; [| split]].
  - intros steps Hst Hcount Hone Hthreshold Hall.
    assert (counted 0 self) as H0.
    { right. split; [done | split; [simpl; lia | lia]]. }
    destruct (counted_calls steps 0 self H0 Hall) as [[Hopen _] | (_ & Hle & Hlt)];
      [done |].
    assert (forall l (b : CircuitBreaker.t),
               CircuitBreaker.failure_threshold (CircuitBreaker.calls (W:=W) (R:=R) b l)
               = CircuitBreaker.failure_threshold b) as Hsame.
    { clear. induction l as [|[f w] l IH]; intros b; simpl; [done |].
      rewrite IH. apply (call_keeps_configuration b f w). }
    rewrite Hsame in Hlt. simpl in *. lia.
  - intros func w last Hst Hlast Hnot.
    unfold CircuitBreaker.call, CircuitBreaker.admission.
    rewrite Hst, Hlast. by rewrite bool_decide_false.
  - intros func w last Hst Hlast Helapsed.
    unfold CircuitBreaker.call, CircuitBreaker.admission.
    rewrite Hst, Hlast, bool_decide_true by done.
    split; [done |].
    destruct (run func w) as [w1 [v|e]]; simpl; [done |].
    destruct (isinstance e _); [|done].
    by destruct (CircuitBreaker._on_failure _ _).
  - intros func w v. unfold CircuitBreaker.call.
    destruct (CircuitBreaker.admission _ _ _) as [self1|e]; [|done].
    destruct (run func w) as [w1 [v'|e]]; simpl; [done |].
    destruct (isinstance e _); [|done].
    by destruct (CircuitBreaker._on_failure _ _).
Qed.

(** Scenario A: with a threshold of 3, three failing calls open the
    breaker; a fourth call, 10 seconds later, is refused without running
    the function; after 61 seconds the breaker admits a call in HALF_OPEN,
    runs the function once, and a success closes it with a count of 0. *)
Lemma circuit_breaker_lifecycle_witness :
  let fresh := CircuitBreaker.__init__ 3 (Q2Qc 60) Exception in
  let failing_func := always_fails Timeout in
  let opened :=
    CircuitBreaker.calls fresh
      [(failing_func, at_time 0 0); (failing_func, at_time 1 1);
       (failing_func, at_time 2 2)] in
  CircuitBreaker.state opened = CircuitBreaker.OPEN
  /\ CircuitBreaker.call opened failing_func (at_time 12 3)
     = (opened, at_time 12 3, [],
        Raised (CircuitBreaker.CircuitOpenError "failing_func"))
  /\ (CircuitBreaker.admission opened "successful_func" (time_time (at_time 63 3))
      = inl (CircuitBreaker.set_state CircuitBreaker.HALF_OPEN opened)
      /\ (CircuitBreaker.call opened successful_func (at_time 63 3)).1.1.2
         = at_time 63 4
      /\ (CircuitBreaker.call opened successful_func (at_time 63 3)).2
         = Returned "success")
  /\ (CircuitBreaker.state
        (CircuitBreaker.call opened successful_func (at_time 63 3)).1.1.1
      = CircuitBreaker.CLOSED
      /\ CircuitBreaker.failure_count
           (CircuitBreaker.call opened successful_func (at_time 63 3)).1.1.1 = 0).
Proof.
  intros fresh failing_func opened.
  pose proof (circuit_breaker_lifecycle (W:=SampleWorld) (R:=string) fresh)
    as (Hopening & _).
  pose proof (circuit_breaker_lifecycle (W:=SampleWorld) (R:=string) opened)
    as (_ & Hfast & Htrial & Hsuccess).
  split; [| split; [| split]].
  - apply Hopening; [reflexivity | simpl; lia | simpl; lia | simpl; lia |].
    repeat constructor; exists (raise_ Timeout "Test failure"); split; reflexivity.
  - apply (Hfast failing_func (at_time 12 3) (Q2Qc (inject_Z 2)));
      [reflexivity | reflexivity | vm_compute; discriminate].
  - apply (Htrial successful_func (at_time 63 3) (Q2Qc (inject_Z 2)));
      [reflexivity | reflexivity | vm_compute; reflexivity].
  - apply (Hsuccess successful_func (at_time 63 3) "success"). reflexivity.
Defined.

(** C1 as stated fails: a breaker that monitors [ValueError] only does not
    count three calls failing with a [Timeout]; it is still CLOSED after
    them, with a count of 0. *)
Lemma circuit_breaker_ignores_unexpected_failures :
  let self := CircuitBreaker.__init__ 3 (Q2Qc 60) ValueError in
  let failing_func := always_fails Timeout in
  let steps :=
    [(failing_func, at_time 0 0); (failing_func, at_time 1 1);
     (failing_func, at_time 2 2)] in
  CircuitBreaker.state self = CircuitBreaker.CLOSED
  /\ Z.of_nat (length steps) = CircuitBreaker.failure_threshold self
  /\ Forall (fun step => exists e, (run step.1 step.2).2 = Raised e) steps
  /\ CircuitBreaker.state (CircuitBreaker.calls self steps) <> CircuitBreaker.OPEN
  /\ CircuitBreaker.failure_count (CircuitBreaker.calls self steps) = 0.
Proof.
  simpl. repeat split; try done.
  repeat constructor; by eexists.
Qed.

(** ** The exception handler of the edge-case middleware *)

Section edge_case.
Context {W : Type} `{!Clock W, !Uuid W, !Services W}.
Import EdgeCaseHandlingMiddleware.

(** Looking a breaker up creates it closed and opens none. *)
Lemma get_circuit_breaker_closed (self : t) (service_name : string) :
  none_open self ->
  none_open (_get_circuit_breaker self service_name).1
  /\ CircuitBreaker.state (_get_circuit_breaker self service_name).2
     = CircuitBreaker.CLOSED.
Proof.
  intros Hclosed. unfold _get_circuit_breaker.
  destruct (circuit_breakers self !! service_name) as [breaker|] eqn:Hfound; simpl.
  - split; [done | by eapply Hclosed].
  - split; [| done].
    intros name breaker. simpl.
    destruct (decide (service_name = name)) as [->|Hne].
    + rewrite lookup_insert_eq. by intros [= <-].
    + rewrite lookup_insert_ne by done. apply Hclosed.
Qed.

(** Handling an exception never moves a breaker: the registry of a
    middleware in which no breaker is open has none open afterwards. *)
Lemma process_exception_opens_nothing (self : t) (request : Request)
    (e : Exn) (w : W) :
  none_open self -> none_open (process_exception self request e w).1.1.1.
Proof.
  intros Hclosed. unfold process_exception.
  destruct (uuid4 w) as [error_id w1].
  destruct (isinstance e DatabaseError).
  { by destruct (_handle_database_error e error_id w1) as [[? ?] ?]. }
  destruct (isinstance e ValidationError); [done |].
  destruct (isinstance e PermissionDenied); [done |].
  destruct (isinstance e Http404); [done |].
  destruct (isinstance e RequestException).
  - unfold _handle_external_api_error.
    destruct (isinstance e Timeout); [| destruct (isinstance e ConnectionError)];
      (destruct (_get_service_name_from_request request) as [name|]; [| done];
       pose proof (get_circuit_breaker_closed self name Hclosed) as [Hreg _];
       destruct (_get_circuit_breaker self name) as [self1 breaker];
       by case_bool_decide).
  - destruct (isinstance e RedisError).
    + by destruct (_handle_cache_error e w1) as [[? ?] ?].
    + by destruct (_handle_generic_error e error_id w1).
Qed.

(** With no breaker open, a timeout of an external service is answered
    502 with code EXTERNAL_SERVICE_TIMEOUT. *)
Lemma timeout_answered_502 (self : t) (request : Request) (msg : string) (w : W) :
  none_open self ->
  (process_exception self request (raise_ Timeout msg) w).2
  = Some (mkJsonResponse
            [("error", JStr "External service error");
             ("error_id", JStr (uuid4 w).1);
             ("message", JStr "External service request timed out.");
             ("code", JStr "EXTERNAL_SERVICE_TIMEOUT")]
            502).
Proof.
  intros Hclosed. unfold process_exception.
  destruct (uuid4 w) as [error_id w1]. simpl.
  unfold _handle_external_api_error. simpl.
  destruct (_get_service_name_from_request request) as [name|]; [| done].
  pose proof (get_circuit_breaker_closed self name Hclosed) as [_ Hstate].
  destruct (_get_circuit_breaker self name) as [self1 breaker].
  simpl in Hstate. rewrite Hstate. done.
Qed.

(** However many timeouts a request to an external service raises, each
    is answered 502: the handler never records a failure on the breaker it
    looks up, so the breaker never opens and the 503 branch is never
    taken. *)
Lemma timeouts_never_short_circuit (request : Request) (msgs : list string) :
  forall (self : t) (w : W),
    none_open self ->
    Forall (fun response =>
              exists r, response = Some r
                        /\ status_code r = 502
                        /\ json_get "code" r = Some (JStr "EXTERNAL_SERVICE_TIMEOUT"))
      (process_exceptions self request (map (raise_ Timeout) msgs) w).2.
Proof.
  induction msgs as [|msg rest IH]; intros self w Hclosed; simpl; [constructor |].
  pose proof (timeout_answered_502 self request msg w Hclosed) as Hresponse.
  pose proof (process_exception_opens_nothing self request (raise_ Timeout msg) w
                Hclosed) as Hafter.
  destruct (process_exception self request (raise_ Timeout msg) w)
    as [[[self1 w1] logs] response].
  simpl in Hresponse, Hafter. specialize (IH self1 w1 Hafter).
  destruct (process_exceptions self1 request (map (raise_ Timeout) rest) w1)
    as [[self2 w2] responses].
  simpl in *. constructor; [| done].
  subst response. eexists; split; [done |]. done.
Qed.

End edge_case.

(** C2, the failing input.  On a fresh middleware, a GET of
    [/api/v1/chatbot/openai/] that raises [Timeout] six times in a row is
    answered 502 with code EXTERNAL_SERVICE_TIMEOUT the sixth time as well,
    not 503 with EXTERNAL_SERVICE_UNAVAILABLE; the breaker registered for
    'openai' is still CLOSED and has counted no failure. *)
Theorem sixth_openai_timeout_answered_502 :
  let middleware := EdgeCaseHandlingMiddleware.__init__ in
  let request :=
    (EdgeCaseHandlingMiddleware.process_request middleware
       (get_request "/api/v1/chatbot/openai/") healthy_server).1.1.1 in
  let timeout := raise_ Timeout "OpenAI API timeout" in
  let after :=
    EdgeCaseHandlingMiddleware.process_exceptions middleware request
      (replicate 6 timeout) healthy_server in
  EdgeCaseHandlingMiddleware._get_service_name_from_request request = Some "openai"
  /\ after.2 !! 5%nat
     = Some (Some (mkJsonResponse
                     [("error", JStr "External service error");
                      ("error_id", JStr (sample_uuid 5));
                      ("message", JStr "External service request timed out.");
                      ("code", JStr "EXTERNAL_SERVICE_TIMEOUT")]
                     502))
  /\ EdgeCaseHandlingMiddleware.circuit_breakers after.1.1 !! "openai"
     = Some (CircuitBreaker.__init__ 5 (Q2Qc 60) Exception).
Proof. vm_compute. repeat split; reflexivity. Qed.

(** ** Error ids *)

Section error_ids.
Context {W : Type} `{!Clock W, !Uuid W, !Services W}.
Import EdgeCaseHandlingMiddleware.

(** The response to an exception, when there is one, carries the id drawn
    at the start of [process_exception]. *)
Lemma process_exception_error_id (self : t) (request : Request) (e : Exn)
    (w : W) (response : JsonResponse) :
  (process_exception self request e w).2 = Some response ->
  json_get "error_id" response = Some (JStr (uuid4 w).1).
Proof.
  unfold process_exception.
  destruct (uuid4 w) as [error_id w1]. simpl.
  destruct (isinstance e DatabaseError).
  { unfold _handle_database_error.
    destruct (isinstance e OperationalError);
      [destruct (connection_reconnect w1) as [w2 [[]|e']] |]; simpl;
      destruct (settings_DEBUG _); intros [= <-]; reflexivity. }
  destruct (isinstance e ValidationError); [by intros [= <-] |].
  destruct (isinstance e PermissionDenied); [by intros [= <-] |].
  destruct (isinstance e Http404); [by intros [= <-] |].
  destruct (isinstance e RequestException).
  { unfold _handle_external_api_error.
    destruct (isinstance e Timeout); [| destruct (isinstance e ConnectionError)];
      (destruct (_get_service_name_from_request request) as [name|];
       [destruct (_get_circuit_breaker self name) as [self1 breaker];
        case_bool_decide |];
       by intros [= <-]). }
  destruct (isinstance e RedisError).
  { unfold _handle_cache_error. by destruct (cache_reset_pool w1) as [w2 [[]|e']]. }
  unfold _handle_generic_error. simpl.
  destruct (settings_DEBUG _); by intros [= <-].
Qed.

(** C5 (as amended).  Every response [process_exception] gives to an
    exception carries as its error id the id drawn for that exception,
    whatever the request id is; it differs from the request id whenever
    the draw does.  The 503 response of the health gate carries the
    request id itself as its error id, and the responses of the validation
    gate carry no error id. *)
Theorem error_ids_of_responses (self : t) (request : Request) (w : W) :
  (forall (e : Exn) (response : JsonResponse),
      (process_exception self request e w).2 = Some response ->
      json_get "error_id" response = Some (JStr (uuid4 w).1)
      /\ ((uuid4 w).1 <> request_id_or_unknown request ->
          json_get "error_id" response
          <> Some (JStr (request_id_or_unknown request))))
  /\ (forall response : JsonResponse,
         (process_request self request w).2 = Some response ->
         request_id (process_request self request w).1.1.1 = Some (uuid4 w).1
         /\ (status_code response = 503 ->
             json_get "error_id" response = Some (JStr (uuid4 w).1))
         /\ (status_code response <> 503 ->
             json_get "error_id" response = None)).
Proof.
  split.
  - intros e response Hresponse.
    rewrite (process_exception_error_id _ _ _ _ _ Hresponse).
    split; [done | congruence].
  - intros response. unfold process_request.
    destruct (uuid4 w) as [id w1]. simpl.
    destruct (_check_system_health w1) as [[w2 logs] healthy].
    destruct healthy; simpl.
    + unfold _validate_request_data. simpl.
      repeat (first
        [ progress simpl
        | match goal with
          | |- context [bool_decide ?P] => destruct (bool_decide P)
          | |- context [CONTENT_LENGTH request] =>
              destruct (CONTENT_LENGTH request) as [[|? ?]|]
          | |- context [int ?s] => destruct (int s)
          | |- context [Str.startswith ?s ?p] => destruct (Str.startswith s p)
          end ]);
        intros [= <-]; simpl; (split; [done | split; [done | done]]).
    + intros [= <-]. simpl. done.
Qed.

End error_ids.

(** The theorem at work: on a healthy server a request gets id number 0
    and the response to its [DatabaseError] carries id number 1; with the
    database down the same request is answered 503 at the health gate. *)
Lemma error_ids_of_responses_witness :
  let middleware := EdgeCaseHandlingMiddleware.__init__ in
  let processed :=
    EdgeCaseHandlingMiddleware.process_request middleware
      (get_request "/api/v1/chatbot/conversations/") healthy_server in
  let request := processed.1.1.1 in
  let failure := raise_ DatabaseError "Database connection failed" in
  let response :=
    mkJsonResponse
      [("error", JStr "Database error");
       ("error_id", JStr (sample_uuid 1));
       ("message", JStr "A database error occurred. Please try again later.");
       ("code", JStr "DATABASE_ERROR")]
      500 in
  let refused :=
    EdgeCaseHandlingMiddleware._create_health_check_response
      (EdgeCaseHandlingMiddleware.mkRequest "GET" "/api/v1/chatbot/conversations/"
         None None (Some (sample_uuid 0)) (Some 0%Qc) None None) in
  (EdgeCaseHandlingMiddleware.request_id request = Some (sample_uuid 0)
   /\ (EdgeCaseHandlingMiddleware.process_exception middleware request failure
         processed.1.1.2).2 = Some response
   /\ json_get "error_id" response = Some (JStr (sample_uuid 1))
   /\ json_get "error_id" response <> Some (JStr (sample_uuid 0)))
  /\ ((EdgeCaseHandlingMiddleware.process_request middleware
         (get_request "/api/v1/chatbot/conversations/") server_without_database).2
      = Some refused
      /\ status_code refused = 503
      /\ json_get "error_id" refused = Some (JStr (sample_uuid 0))).
Proof.
  intros middleware processed request failure response refused.
  assert ((EdgeCaseHandlingMiddleware.process_exception middleware request failure
             processed.1.1.2).2 = Some response) as Hresponse
    by (vm_compute; reflexivity).
  assert ((EdgeCaseHandlingMiddleware.process_request middleware
             (get_request "/api/v1/chatbot/conversations/")
             server_without_database).2 = Some refused) as Hrefused
    by (vm_compute; reflexivity).
  pose proof (error_ids_of_responses middleware request processed.1.1.2)
    as (Hmapped & _).
  pose proof (error_ids_of_responses middleware
                (get_request "/api/v1/chatbot/conversations/")
                server_without_database) as (_ & Hgate).
  destruct (Hmapped failure response Hresponse) as [Hid Hdistinct].
  destruct (Hgate refused Hrefused) as (_ & H503 & _).
  split.
  - split; [reflexivity | split; [exact Hresponse | split; [exact Hid |]]].
    apply Hdistinct. vm_compute. discriminate.
  - split; [exact Hrefused | split; [reflexivity | apply H503; reflexivity]].
Defined.

(** C5 as stated fails at the health gate: with the database down, the
    503 response to a request carries the request's own id as its error
    id. *)
Lemma health_gate_error_id_is_request_id :
  let processed :=
    EdgeCaseHandlingMiddleware.process_request
      EdgeCaseHandlingMiddleware.__init__
      (get_request "/api/v1/chatbot/conversations/") server_without_database in
  exists (response : JsonResponse) (id : string),
    processed.2 = Some response
    /\ status_code response = 503
    /\ json_get "code" response = Some (JStr "SERVICE_UNAVAILABLE")
    /\ EdgeCaseHandlingMiddleware.request_id processed.1.1.1 = Some id
    /\ json_get "error_id" response = Some (JStr id).
Proof.
  eexists _, _. vm_compute. repeat split; reflexivity.
Qed.

(** ** The retry decorator *)

Section retry_decorator.
Context {W R : Type} `{!Sleep W}.
Variables (max_retries : Z) (delay backoff_factor : Qc).
Variables (exceptions : list ExcClass) (func : Callable W R).
Import retry_on_failure.

Local Abbreviation loop := (loop max_retries delay backoff_factor exceptions func).

(** A loop with an iteration left invokes the function. *)
Lemma loop_invokes (remaining attempt : nat) (last_exception : option Exn) (w : W) :
  results (loop (S remaining) attempt last_exception w).1.2 <> [].
Proof.
  simpl. destruct (run func w) as [w1 [v|e]]; simpl; [done |].
  destruct (isinstance_any e exceptions); [| done].
  case_bool_decide.
  - case_bool_decide; [done |].
    by destruct (retry_on_failure.loop _ _ _ _ _ _ _ _ _) as [[? ?] ?].
  - by destruct (retry_on_failure.loop _ _ _ _ _ _ _ _ _) as [[? ?] ?].
Qed.

(** The loop from iteration [attempt] on, when [remaining] iterations are
    left of the [max_retries + 1] of [range]. *)
Lemma loop_spec (remaining : nat) :
  forall (attempt : nat) (last_exception : option Exn) (w : W),
    Z.of_nat attempt + Z.of_nat remaining = Z.max 0 (max_retries + 1) ->
    let events := (loop remaining attempt last_exception w).1.2 in
    let out := (loop remaining attempt last_exception w).2 in
    (invocations events <= remaining)%nat
    /\ unlogged events = backoff_schedule delay backoff_factor attempt (results events)
    /\ (invocations events = remaining ->
        forall e,
          last (results events) = Some (Raised e)
          \/ (results events = [] /\ last_exception = Some e) ->
          out = Raised e).
Proof.
  induction remaining as [|remaining IH]; intros attempt last_exception w Hrange.
  { simpl. split; [done | split; [done |]].
    intros _ e [Hlast | [_ ->]]; [done | done]. }
  simpl. destruct (run func w) as [w1 [v|e]]; simpl.
  { split; [unfold invocations; simpl; lia | split; [done |]].
    intros _ e [Hlast | [Hnil _]]; done. }
  destruct (isinstance_any e exceptions); simpl.
  2: { split; [unfold invocations; simpl; lia | split; [done |]].
       intros _ e' [[= ->] | [Hnil _]]; done. }
  case_bool_decide as Hmore.
  - case_bool_decide as Hnegative; simpl.
    { split; [unfold invocations; simpl; lia | split; [done |]].
      unfold invocations; simpl. intros Hall. lia. }
    assert (remaining <> 0%nat) as Hleft by lia.
    destruct remaining as [|remaining']; [done |].
    specialize (IH (S attempt) (Some e) (time_sleep (delay * backoff_factor ^ attempt)%Qc w1)).
    pose proof (loop_invokes remaining' (S attempt) (Some e)
                  (time_sleep (delay * backoff_factor ^ attempt)%Qc w1)) as Hinvokes.
    destruct (retry_on_failure.loop _ _ _ _ _ (S remaining') _ _ _)
      as [[w2 events] out].
    simpl in IH, Hinvokes. destruct IH as (Hbound & Hshape & Hlast); [lia |].
    unfold invocations in *. simpl.
    split; [lia | split].
    + rewrite Hshape. by destruct (results events).
    + intros Hall e' Hcase. apply Hlast; [lia |].
      destruct Hcase as [Hcase | [Hnil _]]; [| done].
      left. by destruct (results events).
  - assert (remaining = 0%nat) as -> by lia.
    simpl. unfold invocations; simpl.
    split; [lia | split; [done |]].
    intros _ e' [[= ->] | [Hnil _]]; done.
Qed.

End retry_decorator.

(** C6.  For every function wrapped by [retry_on_failure] with any
    policy, in any world:
    - the function is invoked at most [max_retries + 1] times;
    - apart from its log entries, the run is the backoff schedule of its
      invocations: between two consecutive invocations there is exactly
      one sleep, and the sleep before retry number [i] lasts
      [delay * backoff_factor ^ (i - 1)];
    - when all [max_retries + 1] attempts were made and the last one
      raised [e], the wrapper raises [e]. *)
Theorem retry_on_failure_policy {W R : Type} `{!Sleep W}
    (max_retries : Z) (delay backoff_factor : Qc) (exceptions : list ExcClass)
    (func : Callable W R) (w : W) :
  let ran :=
    retry_on_failure.wrapper max_retries delay backoff_factor exceptions func w in
  let events := ran.1.2 in
  Z.of_nat (retry_on_failure.invocations events) <= Z.max 0 (max_retries + 1)
  /\ retry_on_failure.unlogged events
     = backoff_schedule delay backoff_factor 0 (retry_on_failure.results events)
  /\ (forall (i : nat) (d : Qc),
         (1 <= i)%nat ->
         retry_on_failure.sleeps events !! (i - 1)%nat = Some d ->
         d = (delay * backoff_factor ^ (i - 1)%nat)%Qc)
  /\ (forall e : Exn,
         Z.of_nat (retry_on_failure.invocations events) = max_retries + 1 ->
         last (retry_on_failure.results events) = Some (Raised e) ->
         ran.2 = Raised e).
Proof.
  intros ran events.
  pose proof (loop_spec max_retries delay backoff_factor exceptions func
                (Z.to_nat (max_retries + 1)) 0 None w) as Hspec.
  destruct Hspec as (Hbound & Hshape & Hlast); [lia |].
  fold (retry_on_failure.wrapper max_retries delay backoff_factor exceptions func w)
    in Hbound, Hshape, Hlast.
  fold ran in Hbound, Hshape, Hlast. fold events in Hbound, Hshape, Hlast.
  clearbody events. clearbody ran.
  split; [lia | split; [exact Hshape | split]].
  - assert (forall (evs : list (retry_on_failure.Event R)),
               retry_on_failure.sleeps evs
               = retry_on_failure.sleeps (retry_on_failure.unlogged evs)) as Hsleeps.
    { induction evs as [|[r|s|l] evs IHevs]; simpl; congruence. }
    rewrite Hsleeps, Hshape. clear.
    generalize (retry_on_failure.results events) as rs.
    assert (forall (rs : list (Outcome R)) (k j : nat) (d : Qc),
               retry_on_failure.sleeps (backoff_schedule delay backoff_factor k rs)
                 !! j = Some d ->
               d = (delay * backoff_factor ^ (k + j)%nat)%Qc) as Hnth.
    { induction rs as [|r [|r' rs] IHrs]; intros k j d; simpl; [done | done |].
      destruct j as [|j]; simpl.
      - intros [= <-]. by rewrite Nat.add_0_r.
      - intros Hj. replace (k + S j)%nat with (S k + j)%nat by lia.
        by apply IHrs. }
    intros rs i d Hi Hd. apply (Hnth rs 0%nat (i - 1)%nat d Hd).
  - intros e Hall Hraised. apply Hlast; [lia | by left].
Qed.

(** The theorem at work on the repository's own tests: a function that
    succeeds at its third run under [max_retries=3, delay=0.1], and one
    that always fails under [max_retries=2, delay=0.1]. *)
Lemma retry_on_failure_policy_witness :
  let tenth := Q2Qc (1 # 10) in
  let eventually :=
    retry_on_failure.wrapper 3 tenth (Q2Qc 2) [Exception] (fails_until 3)
      (at_time 0 0) in
  let never :=
    retry_on_failure.wrapper 2 tenth (Q2Qc 2) [Exception] (always_fails Exception)
      (at_time 0 0) in
  (eventually.2 = Returned "success"
   /\ retry_on_failure.invocations eventually.1.2 = 3%nat
   /\ retry_on_failure.sleeps eventually.1.2 = [tenth; Q2Qc (2 # 10)])
  /\ (retry_on_failure.invocations never.1.2 = 3%nat
      /\ retry_on_failure.sleeps never.1.2 !! 1%nat = Some (tenth * Q2Qc 2 ^ 1)%Qc
      /\ never.2 = Raised (raise_ Exception "Test failure")).
Proof.
  intros tenth eventually never.
  pose proof (retry_on_failure_policy 2 tenth (Q2Qc 2) [Exception]
                (always_fails Exception) (at_time 0 0)) as (_ & _ & Hsleep & Hlast).
  split.
  - vm_compute. repeat split; reflexivity.
  - split; [vm_compute; reflexivity | split].
    + assert (retry_on_failure.sleeps never.1.2 !! (2 - 1)%nat
              = Some (Q2Qc (2 # 10))) as Hsecond by (vm_compute; reflexivity).
      transitivity (Some (Q2Qc (2 # 10))); [exact Hsecond |].
      exact (f_equal Some (Hsleep 2%nat (Q2Qc (2 # 10)) ltac:(lia) Hsecond)).
    + apply Hlast; vm_compute; reflexivity.
Defined.

(** ** The retry middleware *)



(** ** Ending a session *)

Section end_session.
Import UserSession.

Lemma update_row_found (key : Z) (write : t -> t) (table : list t) :
  (exists row, row ∈ table /\ pk row = key) ->
  update_row key write table
  = Some (map (fun row => if bool_decide (pk row = key) then write row else row)
            table).
Proof.
  intros (row & Hin & Hpk). unfold update_row.
  assert (existsb (fun row => bool_decide (pk row = key)) table = true) as ->; [| done].
  apply existsb_exists. exists row. split; [by apply list_elem_of_In |].
  by apply bool_decide_eq_true.
Qed.

(** [end_session] when the save goes through: the instance and its rows
    are inactive and stamped with the current time. *)
Lemma end_session_saved (self : t) (w : World) :
  faults w save_end = None ->
  (exists row, row ∈ user_sessions w /\ pk row = pk self) ->
  end_session (self, w)
  = ((set_ended false (Some (now w)) self,
      set_user_sessions (ended_in (pk self) (now w) (user_sessions w)) w),
     Returned tt).
Proof.
  intros Hfault Hrow.
  unfold end_session, save, reach, zoom, mbind, M_bind, bind, gets, modify. simpl.
  rewrite Hfault. simpl. rewrite (update_row_found _ _ _ Hrow). simpl.
  reflexivity.
Qed.

End end_session.

(** C4 (as amended).  Calling [end_session] on an already-ended session
    whose row exists, when the save goes through, raises nothing and
    leaves the session ended ([is_active] false) in the instance and in
    its row; [ended_at] becomes the time of this call, so the original
    value survives only if it is that very time. *)
Theorem end_session_again (self : UserSession.t) (w : UserSession.World)
    (original : Qc) :
  UserSession.is_active self = false ->
  UserSession.ended_at self = Some original ->
  UserSession.faults w UserSession.save_end = None ->
  (exists row, row ∈ UserSession.user_sessions w
               /\ UserSession.pk row = UserSession.pk self) ->
  let ending := UserSession.end_session (self, w) in
  ending.2 = Returned tt
  /\ UserSession.is_active ending.1.1 = false
  /\ UserSession.ended_at ending.1.1 = Some (UserSession.now w)
  /\ (UserSession.ended_at ending.1.1 = UserSession.ended_at self
      <-> original = UserSession.now w)
  /\ UserSession.user_sessions ending.1.2
     = ended_in (UserSession.pk self) (UserSession.now w)
         (UserSession.user_sessions w).
Proof.
  intros Hended Horiginal Hfault Hrow ending. subst ending.
  rewrite (end_session_saved self w Hfault Hrow). simpl.
  rewrite Horiginal.
  split; [done | split; [done | split; [done | split; [| done]]]].
  split; [by intros [= ->] | by intros ->].
Qed.

(** The theorem at work: a session ended at time 1 is ended again at
    time 2. *)
Lemma end_session_again_witness :
  let ended :=
    UserSession.set_ended false (Some 1%Qc)
      (session_row 1 7 "session_key_0" "127.0.0.1" "Test User Agent" 0) in
  let ending := UserSession.end_session (ended, world_at 2 [ended] no_faults) in
  ending.2 = Returned tt
  /\ UserSession.is_active ending.1.1 = false
  /\ UserSession.ended_at ending.1.1 = Some (Q2Qc (inject_Z 2))
  /\ UserSession.user_sessions ending.1.2
     = [UserSession.set_ended false (Some (Q2Qc (inject_Z 2))) ended].
Proof.
  intros ended ending.
  destruct (end_session_again ended (world_at 2 [ended] no_faults) 1%Qc)
    as (Hout & Hactive & Hstamp & _ & Hrows);
    [reflexivity | reflexivity | reflexivity | |].
  - exists ended. split; [apply list_elem_of_here | reflexivity].
  - exact (conj Hout (conj Hactive (conj Hstamp Hrows))).
Defined.

(** C4 as stated fails: ending at time 2 a session that was ended at
    time 1 raises nothing and leaves it inactive, but overwrites
    [ended_at], in the instance and in the table. *)
Lemma end_session_overwrites_ended_at :
  let ended :=
    UserSession.set_ended false (Some 1%Qc)
      (session_row 1 7 "session_key_0" "127.0.0.1" "Test User Agent" 0) in
  let ending := UserSession.end_session (ended, world_at 2 [ended] no_faults) in
  UserSession.is_active ended = false
  /\ UserSession.ended_at ended = Some 1%Qc
  /\ ending.2 = Returned tt
  /\ UserSession.is_active ending.1.1 = false
  /\ UserSession.ended_at ending.1.1 <> UserSession.ended_at ended
  /\ UserSession.ended_at <$> UserSession.user_sessions ending.1.2
     = [Some (Q2Qc (inject_Z 2))].
Proof.
  vm_compute. repeat split; try reflexivity. discriminate.
Qed.

(** ** Creating a session *)

Ltac run_effects :=
  unfold SessionManagementMiddleware.logger,
    SessionManagementMiddleware.on_world in *;
  unfold mbind, M_bind, mret, M_ret, bind, ret, raise, gets, modify,
    try_except, zoom, when_, UserSession.reach in *;
  simpl in *.

Section create_session.
Import UserSession SessionManagementMiddleware.

(** The row [objects.create] returns is the row it stores: it has the
    device class, user agent and address it was given, is active, and
    starts with its counters at zero. *)
Lemma objects_create_row_returned (ip : option string)
    (agent device browser os : string) (st st' : State) (row : UserSession.t) :
  objects_create_row ip agent device browser os st = (st', Returned row) ->
  device_type row = device
  /\ user_agent row = agent
  /\ Some (ip_address row) = ip
  /\ is_active row = true
  /\ ended_at row = None
  /\ page_views row = 0 /\ chat_interactions row = 0
  /\ user_sessions (world st') = user_sessions (world st) ++ [row]
  /\ request st' = request st /\ log st' = log st.
Proof.
  unfold objects_create_row, user_pk. run_effects.
  destruct (faults (world st) objects_create); [done |].
  destruct (user (request st)) as [|uid email]; [done |].
  destruct (session_key (request st)) as [key|]; [| done].
  destruct ip as [address|]; [| done].
  destruct (existsb _ _); [done |].
  intros [= <- <-]. simpl. done.
Qed.

End create_session.

(** C9 (as amended).  The device class is derived with the precedence
    mobile > tablet > desktop > unknown, and the session
    [_create_new_user_session] creates and stores carries the device class
    so derived from the request's user-agent string (the empty string when
    the header is missing). *)
Theorem device_type_of_new_session
    `{!SessionManagementMiddleware.Libraries}
    (st : SessionManagementMiddleware.State) :
  (forall agent : SessionManagementMiddleware.UserAgent,
      let device := SessionManagementMiddleware._get_device_type agent in
      (SessionManagementMiddleware.is_mobile agent = true -> device = "mobile")
      /\ (SessionManagementMiddleware.is_mobile agent = false ->
          SessionManagementMiddleware.is_tablet agent = true -> device = "tablet")
      /\ (SessionManagementMiddleware.is_mobile agent = false ->
          SessionManagementMiddleware.is_tablet agent = false ->
          SessionManagementMiddleware.is_pc agent = true -> device = "desktop")
      /\ (SessionManagementMiddleware.is_mobile agent = false ->
          SessionManagementMiddleware.is_tablet agent = false ->
          SessionManagementMiddleware.is_pc agent = false -> device = "unknown"))
  /\ (forall (st' : SessionManagementMiddleware.State) (created : UserSession.t),
         SessionManagementMiddleware._create_new_user_session st
         = (st', Returned (Some created)) ->
         UserSession.device_type created
         = SessionManagementMiddleware._get_device_type
             (SessionManagementMiddleware.user_agents_parse
                (default ""
                   (SessionManagementMiddleware.HTTP_USER_AGENT
                      (SessionManagementMiddleware.request st))))
         /\ created ∈ UserSession.user_sessions
                        (SessionManagementMiddleware.world st')).
Proof.
  split.
  - intros agent device. subst device.
    unfold SessionManagementMiddleware._get_device_type.
    repeat split; intros; repeat match goal with H : _ = _ |- _ => rewrite H end;
      done.
  - intros st' created.
    unfold SessionManagementMiddleware._create_new_user_session,
      SessionManagementMiddleware._get_client_ip,
      SessionManagementMiddleware.user_email.
    run_effects.
    destruct (UserSession.faults _ UserSession.client_ip); simpl; [done |].
    destruct (SessionManagementMiddleware.objects_create_row _ _ _ _ _ st)
      as [st1 [row|e]] eqn:Hcreate; simpl; [| done].
    apply objects_create_row_returned
      in Hcreate as (Hdevice & _ & _ & _ & _ & _ & _ & Htable & Hrequest & _).
    rewrite Hrequest.
    destruct (SessionManagementMiddleware.user _); simpl; [done |].
    intros [= <- <-]. simpl. split; [done |].
    rewrite Htable. apply elem_of_app. right. apply list_elem_of_here.
Qed.

(** The theorem at work: the session created at time 5 for a request from
    an iPad browser, which the sample classifier takes for a tablet and for
    a mobile, is stored with the device class "mobile". *)
Lemma device_type_of_new_session_witness :
  let st :=
    SessionManagementMiddleware.mkState
      (chatbot_request "session_key_0" ipad_user_agent "127.0.0.1")
      (world_at 5 [] no_faults) [] in
  let created :=
    UserSession.mk 1 7 "session_key_0" "127.0.0.1" ipad_user_agent
      "mobile" "Other" "Other" (Q2Qc (inject_Z 5)) (Q2Qc (inject_Z 5))
      None true 0 0 in
  let st' :=
    SessionManagementMiddleware.mkState
      (chatbot_request "session_key_0" ipad_user_agent "127.0.0.1")
      (world_at 5 [created] no_faults)
      [SessionManagementMiddleware.info_new_user_session "test@example.com"
         "session_key_0" "mobile"] in
  SessionManagementMiddleware._create_new_user_session st
  = (st', Returned (Some created))
  /\ SessionManagementMiddleware.is_tablet (sample_parse ipad_user_agent) = true
  /\ SessionManagementMiddleware._get_device_type (sample_parse ipad_user_agent)
     = "mobile"
  /\ UserSession.device_type created
     = SessionManagementMiddleware._get_device_type (sample_parse ipad_user_agent)
  /\ created ∈ UserSession.user_sessions (SessionManagementMiddleware.world st').
Proof.
  intros st created st'.
  assert (SessionManagementMiddleware._create_new_user_session st
          = (st', Returned (Some created))) as Hcreated
    by (vm_compute; reflexivity).
  destruct (device_type_of_new_session st) as [Hprecedence Hnew].
  destruct (Hprecedence (sample_parse ipad_user_agent)) as (Hmobile & _).
  destruct (Hnew st' created Hcreated) as [Hdevice Hstored].
  exact (conj Hcreated
           (conj eq_refl
              (conj (Hmobile eq_refl) (conj Hdevice Hstored)))).
Defined.

(** C9 as stated fails: a user agent classified both as a tablet and as a
    mobile gets the device class "mobile", not "tablet". *)
Lemma tablet_that_is_mobile_is_classed_mobile :
  let agent :=
    SessionManagementMiddleware.mkUserAgent true true false
      "Chrome Mobile iOS" "iOS" in
  SessionManagementMiddleware.is_tablet agent = true
  /\ SessionManagementMiddleware.is_mobile agent = true
  /\ SessionManagementMiddleware._get_device_type agent = "mobile"
  /\ SessionManagementMiddleware._get_device_type agent <> "tablet".
Proof.
  simpl. repeat split; try reflexivity. discriminate.
Qed.

(** ** The limit on concurrent sessions *)

Section concurrent_sessions.
Import UserSession SessionManagementMiddleware.

Lemma elem_of_active_of (uid : Z) (table : list UserSession.t) (row : UserSession.t) :
  row ∈ active_of uid table
  <-> row ∈ table /\ user_id row = uid /\ is_active row = true.
Proof.
  unfold active_of. rewrite !list_elem_of_In, filter_In.
  rewrite andb_true_iff, bool_decide_eq_true. tauto.
Qed.

(** [oldest] picks a row of the list whose [last_activity] no row of the
    list precedes; it finds one in any list that is not empty. *)
Lemma oldest_least (rows : list UserSession.t) (row : UserSession.t) :
  oldest rows = Some row ->
  row ∈ rows
  /\ forall other, other ∈ rows -> (last_activity row <= last_activity other)%Qc.
Proof.
  revert row. induction rows as [|head rest IH]; intros row; simpl; [done |].
  destruct (oldest rest) as [candidate|] eqn:Hrest.
  - destruct (IH candidate eq_refl) as [Hin Hleast].
    case_bool_decide as Hle; intros [= <-].
    + split; [apply list_elem_of_here |].
      intros other [->|Hother]%elem_of_cons; [apply Qcle_refl |].
      eapply Qcle_trans; [exact Hle | by apply Hleast].
    + split; [by apply list_elem_of_further |].
      intros other [->|Hother]%elem_of_cons; [| by apply Hleast].
      apply Qclt_le_weak. by apply Qcnot_le_lt.
  - intros [= <-]. split; [apply list_elem_of_here |].
    destruct rest as [|second rest];
      [| simpl in Hrest; destruct (oldest rest); [case_bool_decide |]; done].
    intros other [->|Hother]%elem_of_cons; [apply Qcle_refl |].
    by apply elem_of_nil in Hother.
Qed.

Lemma oldest_exists (rows : list UserSession.t) :
  (0 < length rows)%nat -> exists row, oldest rows = Some row.
Proof.
  destruct rows as [|head rest]; simpl; [lia |]. intros _.
  destruct (oldest rest) as [candidate|]; [| by eexists].
  case_bool_decide; by eexists.
Qed.

(** The check swallows whatever is raised inside it and answers [True]. *)
Lemma check_concurrent_sessions_allows (st : State) :
  (_check_concurrent_sessions st).2 = Returned true.
Proof.
  unfold _check_concurrent_sessions. run_effects.
  match goal with |- context [match ?body with _ => _ end] =>
    destruct body as [st1 [[|]|e]] eqn:Hbody end; simpl; [done | | done].
  exfalso. revert Hbody.
  repeat (first
    [ progress simpl
    | match goal with
      | |- context [user_pk st] => destruct (user_pk st) as [? [?|?]]
      | |- context [faults ?w ?c] => destruct (faults w c)
      | |- context [bool_decide ?P] => destruct (bool_decide P)
      | |- context [oldest ?rows] => destruct (oldest rows)
      | |- context [end_session ?x] => destruct (end_session x) as [[? ?] [[]|?]]
      | |- context [user_email ?x] => destruct (user_email x) as [? [?|?]]
      end ]);
    done.
Qed.

(** The check at or above the limit, when the three database calls go
    through: the oldest active session of the user is found and ended, and
    nothing else changes in the table. *)
Lemma check_concurrent_sessions_evicts (st : State) (uid : Z) (email : string)
    (evicted : UserSession.t) :
  user (request st) = CustomUser uid email ->
  faults (world st) filter_count = None ->
  faults (world st) order_by_first = None ->
  faults (world st) save_end = None ->
  default 5 (MAX_CONCURRENT_SESSIONS (world st))
  <= Z.of_nat (length (active_of uid (user_sessions (world st)))) ->
  oldest (active_of uid (user_sessions (world st))) = Some evicted ->
  _check_concurrent_sessions st
  = (mkState (request st)
       (set_user_sessions
          (ended_in (pk evicted) (now (world st)) (user_sessions (world st)))
          (world st))
       (log st ++ [info_ended_oldest_session email]),
     Returned true).
Proof.
  intros Huser Hcount Horder Hsave Hlimit Holdest.
  assert (exists row, row ∈ user_sessions (world st) /\ pk row = pk evicted) as Hrow.
  { exists evicted. split; [| done].
    apply oldest_least in Holdest as [Hin _].
    by apply elem_of_active_of in Hin as [Hin _]. }
  unfold _check_concurrent_sessions, user_pk, user_email. run_effects.
  rewrite Huser. simpl. rewrite Hcount. simpl.
  rewrite bool_decide_true by done. simpl.
  rewrite Horder. simpl. rewrite Holdest. simpl.
  rewrite (end_session_saved evicted (world st) Hsave Hrow). simpl.
  rewrite Huser. simpl. reflexivity.
Qed.

End concurrent_sessions.

(** C8.  The concurrent-session check always lets the request proceed: it
    returns [True] in every state, whatever fails inside it.  When the
    user has at least one active session, their number is at or above the
    limit, and the database calls of the check go through, it ends one
    session: an active session of the user that no other active session of
    the user precedes in [last_activity]; that session's row becomes
    inactive with [ended_at] set to the current time, and no other row of
    the table changes. *)
Theorem concurrent_sessions_evict_oldest (st : SessionManagementMiddleware.State) :
  let checked := SessionManagementMiddleware._check_concurrent_sessions st in
  let w := SessionManagementMiddleware.world st in
  checked.2 = Returned true
  /\ forall (uid : Z) (email : string),
       let active :=
         SessionManagementMiddleware.active_of uid (UserSession.user_sessions w) in
       SessionManagementMiddleware.user (SessionManagementMiddleware.request st)
       = SessionManagementMiddleware.CustomUser uid email ->
       UserSession.faults w UserSession.filter_count = None ->
       UserSession.faults w UserSession.order_by_first = None ->
       UserSession.faults w UserSession.save_end = None ->
       default 5 (UserSession.MAX_CONCURRENT_SESSIONS w) <= Z.of_nat (length active) ->
       (0 < length active)%nat ->
       exists evicted : UserSession.t,
         evicted ∈ UserSession.user_sessions w
         /\ UserSession.user_id evicted = uid
         /\ UserSession.is_active evicted = true
         /\ (forall other, other ∈ active ->
               (UserSession.last_activity evicted <= UserSession.last_activity other)%Qc)
         /\ UserSession.user_sessions (SessionManagementMiddleware.world checked.1)
            = map (fun row =>
                     if bool_decide (UserSession.pk row = UserSession.pk evicted)
                     then UserSession.set_ended false (Some (UserSession.now w)) row
                     else row)
                (UserSession.user_sessions w).
Proof.
  intros checked w. split; [apply check_concurrent_sessions_allows |].
  intros uid email active Huser Hcount Horder Hsave Hlimit Hsome.
  destruct (oldest_exists active Hsome) as [evicted Holdest].
  exists evicted.
  destruct (oldest_least active evicted Holdest) as [Hin Hleast].
  apply elem_of_active_of in Hin as (Hin & Huid & Hactive).
  split; [done | split; [done | split; [done | split; [done |]]]].
  subst checked.
  by rewrite (check_concurrent_sessions_evicts st uid email evicted).
Qed.

(** Scenario E: with six active sessions and the default limit of 5, the
    check made at time 100 returns [True] and ends the session last active
    at time 3, leaving five active. *)
Lemma concurrent_sessions_evict_oldest_witness :
  let st :=
    SessionManagementMiddleware.mkState
      (chatbot_request "session_key_5" "Test User Agent" "127.0.0.1")
      (world_at 100 six_sessions no_faults) [] in
  let checked := SessionManagementMiddleware._check_concurrent_sessions st in
  checked.2 = Returned true
  /\ UserSession.user_sessions (SessionManagementMiddleware.world checked.1)
     = ended_in 2 (Q2Qc (inject_Z 100)) six_sessions
  /\ length (SessionManagementMiddleware.active_of 7
               (UserSession.user_sessions
                  (SessionManagementMiddleware.world checked.1))) = 5%nat.
Proof.
  intros st checked.
  destruct (concurrent_sessions_evict_oldest st) as [Hallowed Hevicts].
  destruct (Hevicts 7 "test@example.com")
    as (evicted & Hin & _ & _ & Hleast & Htable);
    [reflexivity | reflexivity | reflexivity | reflexivity
    | vm_compute; discriminate | vm_compute; lia |].
  assert (UserSession.pk evicted = 2) as Hpk.
  { assert (session_row 2 7 "session_key_1" "127.0.0.1" "Test User Agent" 3
              ∈ SessionManagementMiddleware.active_of 7 six_sessions) as Hsecond
      by (vm_compute; apply list_elem_of_further, list_elem_of_here).
    specialize (Hleast _ Hsecond).
    simpl in Hin. unfold six_sessions in Hin.
    repeat (apply elem_of_cons in Hin as [-> | Hin]);
      try reflexivity; try (by apply elem_of_nil in Hin);
      exfalso; vm_compute in Hleast; by apply Hleast. }
  fold checked in Htable. rewrite Hpk in Htable.
  split; [exact Hallowed | split; [exact Htable |]].
  rewrite Htable. vm_compute. reflexivity.
Defined.

(** ** The security gate *)

Section security_gate.
Import UserSession SessionManagementMiddleware.

(** The consistency check on a resolved session, when the client address
    can be read: a changed address is logged, a changed user agent is
    logged and fails the check. *)
Lemma check_session_consistency_resolved (st : State) (uid : Z) (email : string)
    (s : UserSession.t) :
  user (request st) = CustomUser uid email ->
  user_session (request st) = Some (Some s) ->
  faults (world st) client_ip = None ->
  _check_session_consistency st
  = (logging
       ((if bool_decide (Some (ip_address s) ≠ client_address (request st))
         then [info_ip_address_changed email (ip_address s)
                 (client_address (request st))]
         else [])
        ++ (if bool_decide (user_agent s ≠ incoming_user_agent st)
            then [warning_user_agent_changed email] else []))
       st,
     Returned (negb (bool_decide (user_agent s ≠ incoming_user_agent st)))).
Proof.
  intros Huser Hsession Hfault.
  unfold _check_session_consistency, _get_client_ip, user_email, logging,
    incoming_user_agent.
  run_effects. rewrite Hsession. simpl. rewrite Hfault. simpl.
  destruct st as [r w l]. simpl in *.
  repeat first
    [ rewrite Hfault | rewrite Huser | progress simpl | case_bool_decide ];
    rewrite <- ?app_assoc, ?app_nil_r; reflexivity.
Qed.

(** When the client address cannot be read, the check on a resolved
    session fails, whatever the user agents are. *)
Lemma check_session_consistency_fault (st : State) (s : UserSession.t) (e : Exn) :
  user_session (request st) = Some (Some s) ->
  faults (world st) client_ip = Some e ->
  _check_session_consistency st
  = (logging [error_checking_session_consistency e] st, Returned false).
Proof.
  intros Hsession Hfault.
  unfold _check_session_consistency, _get_client_ip, logging.
  run_effects. rewrite Hsession. simpl. rewrite Hfault. simpl. reflexivity.
Qed.

(** Without a resolved session there is nothing to check. *)
Lemma check_session_consistency_unresolved (st : State) :
  (forall s, user_session (request st) <> Some (Some s)) ->
  _check_session_consistency st = (st, Returned true).
Proof.
  intros Hnone. unfold _check_session_consistency. run_effects.
  destruct (user_session (request st)) as [[s|]|]; [by destruct (Hnone s) | |];
    reflexivity.
Qed.

(** The consistency check raises nothing and writes to the log only. *)
Lemma check_session_consistency_frame (st : State) :
  exists (entries : list Log) (consistent : bool),
    _check_session_consistency st = (logging entries st, Returned consistent).
Proof.
  destruct (user_session (request st)) as [[s|]|] eqn:Hsession.
  2, 3: exists [], true; rewrite check_session_consistency_unresolved;
          [unfold logging; rewrite app_nil_r; by destruct st | congruence].
  destruct (faults (world st) client_ip) as [e|] eqn:Hfault.
  { eexists _, _. by apply (check_session_consistency_fault st s e). }
  destruct (user (request st)) as [|uid email] eqn:Huser.
  - unfold _check_session_consistency, _get_client_ip, user_email, logging.
    run_effects. rewrite Hsession. simpl. rewrite Hfault. simpl.
    destruct st as [r w l]. simpl in *.
    repeat first
      [ rewrite Hfault | rewrite Huser | progress simpl | case_bool_decide ];
      try (by eexists [_], _); by (exists [], true; rewrite app_nil_r).
  - eexists _, _. by eapply check_session_consistency_resolved.
Qed.

(** The request-rate check raises nothing, keeps the request, and answers
    [True] only when the counter of the client is above 100. *)
Lemma detect_suspicious_activity_result (st : State) :
  exists (st' : State) (suspicious : bool),
    _detect_suspicious_activity st = (st', Returned suspicious)
    /\ (suspicious = true -> request_rate_exceeded st).
Proof.
  unfold _detect_suspicious_activity, _get_client_ip, user_email,
    request_rate_exceeded, request_rate.
  run_effects.
  destruct (faults (world st) client_ip); simpl; [by eexists _, _ |].
  destruct (faults (world st) cache_get); simpl; [by eexists _, _ |].
  destruct (cache_get_or _ (world st)) as [n|] eqn:Hcached; simpl;
    [| by eexists _, _].
  case_bool_decide as Hrate; simpl.
  - destruct (user (request st)); simpl; [by eexists _, _ |].
    eexists _, _. split; [done |]. intros _. by exists n.
  - destruct (faults (world st) cache_set); simpl; by eexists _, _.
Qed.

(** Security validation raises nothing, and fails only when the
    consistency check fails or the request counter is above 100. *)
Lemma validate_session_security_result (st : State) :
  exists (st' : State) (secure : bool),
    _validate_session_security st = (st', Returned secure)
    /\ (secure = false ->
        is_authenticated (user (request st)) = true
        /\ ((_check_session_consistency st).2 = Returned false
            \/ request_rate_exceeded st)).
Proof.
  unfold _validate_session_security. run_effects.
  destruct (is_authenticated (user (request st))) eqn:Hauth; simpl;
    [| by eexists _, _].
  destruct (check_session_consistency_frame st) as (entries & consistent & ->).
  simpl. destruct consistent; simpl.
  - destruct (detect_suspicious_activity_result (logging entries st))
      as (st1 & suspicious & -> & Hrate).
    simpl. destruct suspicious; simpl.
    + destruct (user_email st1) as [st2 [email|e]]; simpl; eexists _, _;
        (split; [done |]); intros _; (split; [done |]); right; by apply Hrate.
    + eexists _, _. split; [done | done].
  - destruct (user_email _) as [st2 [email|e]]; simpl; eexists _, _;
      (split; [done |]); intros _; (split; [done |]); by left.
Qed.

(** Validation of a resolved session whose user agent changed. *)
Lemma validate_session_security_mismatch (st : State) (uid : Z) (email : string)
    (s : UserSession.t) :
  user (request st) = CustomUser uid email ->
  user_session (request st) = Some (Some s) ->
  faults (world st) client_ip = None ->
  user_agent s <> incoming_user_agent st ->
  _validate_session_security st
  = (logging
       ((if bool_decide (Some (ip_address s) ≠ client_address (request st))
         then [info_ip_address_changed email (ip_address s)
                 (client_address (request st))]
         else [])
        ++ [warning_user_agent_changed email;
            warning_consistency_check_failed email])
       st,
     Returned false).
Proof.
  intros Huser Hsession Hfault Hchanged.
  unfold _validate_session_security. run_effects. rewrite Huser. simpl.
  rewrite (check_session_consistency_resolved st uid email s) by done.
  rewrite (bool_decide_true (user_agent s ≠ incoming_user_agent st)) by done.
  simpl. unfold user_email. run_effects. rewrite Huser. simpl.
  unfold logging. simpl. by rewrite <- !app_assoc.
Qed.


(** The response to a violation, when the request carries a session whose
    row exists and the save goes through: the session is ended, in the
    request and in the table. *)
Lemma create_security_violation_response_ends (st : State) (uid : Z)
    (email : string) (s : UserSession.t) :
  user (request st) = CustomUser uid email ->
  user_session (request st) = Some (Some s) ->
  faults (world st) save_end = None ->
  (exists row, row ∈ user_sessions (world st) /\ pk row = pk s) ->
  _create_security_violation_response st
  = (mkState
       (set_user_session (Some (set_ended false (Some (now (world st))) s))
          (request st))
       (set_user_sessions
          (ended_in (pk s) (now (world st)) (user_sessions (world st)))
          (world st))
       (log st ++ [warning_security_violation email]),
     Returned security_violation_response).
Proof.
  intros Huser Hsession Hsave Hrow.
  unfold _create_security_violation_response, user_email. run_effects.
  rewrite Huser. simpl. rewrite Hsession. simpl.
  rewrite (end_session_saved s (world st) Hsave Hrow). simpl. reflexivity.
Qed.

(** Past a successful validation the request proceeds. *)
Lemma gates_after_validation (st st' : State) :
  _validate_session_security st = (st', Returned true) ->
  (gates st).2 = Returned None.
Proof.
  intros Hsecure. unfold gates. run_effects. rewrite Hsecure. simpl.
  pose proof (check_concurrent_sessions_allows st') as Hallowed.
  destruct (_check_concurrent_sessions st') as [st2 allowed].
  simpl in Hallowed. by subst allowed.
Qed.

End security_gate.

(** C7.  For every authenticated request with a resolved session, whose
    client address can be read:
    - if the stored user agent differs from the incoming one, the
      consistency check and the security validation fail, the change of
      user agent is logged, and, the row of the session being there and
      the save going through, the gates end the session and answer 403
      with code SECURITY_VIOLATION;
    - if the user agents match and the stored address differs from the
      incoming one, the consistency check passes and does nothing but log
      the change of address; unless the request counter of the client is
      above 100, the validation passes and the gates let the request
      proceed. *)
Theorem session_security_asymmetry (st : SessionManagementMiddleware.State)
    (uid : Z) (email : string) (s : UserSession.t) :
  let r := SessionManagementMiddleware.request st in
  let w := SessionManagementMiddleware.world st in
  SessionManagementMiddleware.user r
  = SessionManagementMiddleware.CustomUser uid email ->
  SessionManagementMiddleware.user_session r = Some (Some s) ->
  UserSession.faults w UserSession.client_ip = None ->
  (UserSession.user_agent s <> incoming_user_agent st ->
   (SessionManagementMiddleware._check_session_consistency st).2 = Returned false
   /\ (SessionManagementMiddleware._validate_session_security st).2 = Returned false
   /\ SessionManagementMiddleware.warning_user_agent_changed email
        ∈ SessionManagementMiddleware.log
            (SessionManagementMiddleware._check_session_consistency st).1
   /\ (UserSession.faults w UserSession.save_end = None ->
       (exists row, row ∈ UserSession.user_sessions w
                    /\ UserSession.pk row = UserSession.pk s) ->
       let gated := SessionManagementMiddleware.gates st in
       gated.2 = Returned (Some security_violation_response)
       /\ SessionManagementMiddleware.user_session
            (SessionManagementMiddleware.request gated.1)
          = Some (Some (UserSession.set_ended false (Some (UserSession.now w)) s))
       /\ UserSession.user_sessions (SessionManagementMiddleware.world gated.1)
          = ended_in (UserSession.pk s) (UserSession.now w)
              (UserSession.user_sessions w)))
  /\ (UserSession.user_agent s = incoming_user_agent st ->
      Some (UserSession.ip_address s)
      <> SessionManagementMiddleware.client_address r ->
      SessionManagementMiddleware._check_session_consistency st
      = (logging
           [SessionManagementMiddleware.info_ip_address_changed email
              (UserSession.ip_address s)
              (SessionManagementMiddleware.client_address r)]
           st,
         Returned true)
      /\ (~ request_rate_exceeded st ->
          (SessionManagementMiddleware._validate_session_security st).2
          = Returned true
          /\ (SessionManagementMiddleware.gates st).2 = Returned None)).
Proof.
  intros r w Huser Hsession Hfault. subst r w. split.
  - intros Hchanged.
    rewrite (check_session_consistency_resolved st uid email s) by done.
    rewrite (validate_session_security_mismatch st uid email s) by done.
    rewrite (bool_decide_true (UserSession.user_agent s ≠ incoming_user_agent st))
      by done.
    simpl. split; [done | split; [done | split]].
    + rewrite !elem_of_app. right. right. apply list_elem_of_here.
    + intros Hsave Hrow.
      unfold SessionManagementMiddleware.gates. run_effects.
      rewrite (validate_session_security_mismatch st uid email s) by done.
      simpl.
      rewrite (create_security_violation_response_ends _ uid email s) by done.
      simpl. done.
  - intros Hsame Hmoved.
    pose proof (check_session_consistency_resolved st uid email s Huser Hsession
                  Hfault) as Hcheck.
    rewrite (bool_decide_true _ Hmoved) in Hcheck.
    rewrite (bool_decide_false (UserSession.user_agent s ≠ _)) in Hcheck
      by (intros Hne; by apply Hne).
    simpl in Hcheck. split; [exact Hcheck |].
    intros Hrate.
    destruct (validate_session_security_result st)
      as (st' & secure & Hvalidate & Hwhy).
    destruct secure.
    + split; [by rewrite Hvalidate | by eapply gates_after_validation].
    + destruct (Hwhy eq_refl) as [_ [Hfailed | Hexceeded]]; [| done].
      rewrite Hcheck in Hfailed. done.
Qed.

(** Scenario B: stored fingerprint "UA-A" against incoming "UA-B" fails
    the validation, ends the session and answers 403; stored address
    "1.1.1.1" against incoming "2.2.2.2" with the same fingerprint passes,
    the change being logged. *)
Lemma session_security_asymmetry_witness :
  let changed_agent := arriving "UA-B" "1.1.1.1" no_faults in
  let changed_address := arriving "UA-A" "2.2.2.2" no_faults in
  ((SessionManagementMiddleware._validate_session_security changed_agent).2
   = Returned false
   /\ (SessionManagementMiddleware.gates changed_agent).2
      = Returned (Some security_violation_response)
   /\ UserSession.user_sessions
        (SessionManagementMiddleware.world
           (SessionManagementMiddleware.gates changed_agent).1)
      = [UserSession.set_ended false (Some (Q2Qc (inject_Z 9))) stored_session])
  /\ (SessionManagementMiddleware._check_session_consistency changed_address
      = (logging
           [SessionManagementMiddleware.info_ip_address_changed
              "test@example.com" "1.1.1.1" (Some "2.2.2.2")]
           changed_address,
         Returned true)
      /\ (SessionManagementMiddleware._validate_session_security changed_address).2
         = Returned true
      /\ (SessionManagementMiddleware.gates changed_address).2 = Returned None).
Proof.
  intros changed_agent changed_address.
  destruct (session_security_asymmetry changed_agent 7 "test@example.com"
              stored_session eq_refl eq_refl eq_refl) as [Hagent _].
  destruct (session_security_asymmetry changed_address 7 "test@example.com"
              stored_session eq_refl eq_refl eq_refl) as [_ Haddress].
  destruct Hagent as (_ & Hinvalid & _ & Hgated); [vm_compute; discriminate |].
  destruct Hgated as (Hresponse & _ & Htable);
    [reflexivity
    | exists stored_session; split; [apply list_elem_of_here | reflexivity] |].
  destruct Haddress as (Hcheck & Hpasses);
    [reflexivity | vm_compute; discriminate |].
  destruct Hpasses as (Hvalid & Hproceeds).
  { intros (n & Hcount & Hmany). vm_compute in Hcount.
    injection Hcount as <-. lia. }
  exact (conj (conj Hinvalid (conj Hresponse Htable))
              (conj Hcheck (conj Hvalid Hproceeds))).
Defined.

(** ** Failures inside the session layer *)

Ltac split_cases :=
  repeat first
    [ progress simpl in *
    | match goal with
      | |- context [match ?x with _ => _ end] =>
          lazymatch x with
          | context [match _ with _ => _ end] => fail
          | _ => destruct x eqn:?
          end
      end ].

Section session_failures.
Import UserSession SessionManagementMiddleware.
Context `{!Libraries}.


(** Updating the counters of the session raises nothing. *)
Lemma update_session_activity_returns (st : State) :
  exists st' : State, _update_session_activity st = (st', Returned tt).
Proof.
  unfold _update_session_activity, save. run_effects.
  split_cases; by eexists.
Qed.




End session_failures.




(** Beside the policy above: when the lookup of the session fails, the
    request proceeds with [request.user_session] set to [None], and
    [process_response] then raises on [request.user_session.session_key]. *)
Lemma failed_lookup_breaks_process_response :
  let st :=
    SessionManagementMiddleware.mkState
      (chatbot_request "session_key_0" "UA-A" "1.1.1.1")
      (world_at 9 [stored_session]
         (fault_at UserSession.filter_first
            (raise_ OperationalError "could not connect to server")))
      [] in
  let processed := SessionManagementMiddleware.process_request st in
  processed.2 = Returned None
  /\ SessionManagementMiddleware.user_session
       (SessionManagementMiddleware.request processed.1) = Some None
  /\ (SessionManagementMiddleware.process_response processed.1).2
     = Raised (raise_ AttributeError
                 "'NoneType' object has no attribute 'session_key'").
Proof. vm_compute. repeat split; reflexivity. Qed.

(** * Further properties *)

(** ** The circuit breaker, beyond its life cycle *)

Section breaker_invariants.
Context {W R : Type} `{!Clock W}.
Import CircuitBreaker.

Lemma breaker_invariant_call (self : t) (func : Callable W R) (w : W) :
  breaker_invariant self -> breaker_invariant (call self func w).1.1.1.
Proof.
  intros [Hcount Hopen]. unfold breaker_invariant, call, admission.
  destruct (state self) eqn:Hstate.
  - destruct (run func w) as [w1 [v|e]]; simpl;
      [split; [lia | done] |].
    destruct (isinstance e _); simpl; [| rewrite Hstate; split; [lia | done]].
    unfold _on_failure. case_bool_decide; simpl.
    + split; [lia |]. intros _. split; [by eexists | lia].
    + rewrite Hstate. split; [lia | done].
  - destruct Hopen as [[last Hlast] Hreached]; [done |]. rewrite Hlast.
    case_bool_decide; simpl; [| rewrite Hstate, Hlast; split; [lia |]; eauto].
    destruct (run func w) as [w1 [v|e]]; simpl; [split; [lia | done] |].
    destruct (isinstance e _); simpl.
    + unfold _on_failure; simpl. rewrite bool_decide_true by lia. simpl.
      split; [lia |]. intros _. split; [by eexists | lia].
    + rewrite Hlast. split; [lia |]. intros _. split; [by eexists | lia].
  - destruct Hopen as [[last Hlast] Hreached]; [done |].
    destruct (run func w) as [w1 [v|e]]; simpl; [split; [lia | done] |].
    destruct (isinstance e _); simpl.
    + unfold _on_failure; simpl. rewrite bool_decide_true by lia. simpl.
      split; [lia |]. intros _. split; [by eexists | lia].
    + rewrite Hstate, Hlast. split; [lia |]. intros _. split; [by eexists | lia].
Qed.

Lemma breaker_invariant_calls (steps : list (Callable W R * W)) :
  forall self : t, breaker_invariant self -> breaker_invariant (calls self steps).
Proof.
  induction steps as [|[func w] rest IH]; intros self Hinv; simpl; [done |].
  by apply IH, breaker_invariant_call.
Qed.

(** While monitored failures stay below the threshold, each is counted
    and the breaker stays closed. *)
Lemma closed_below_threshold (steps : list (Callable W R * W)) :
  forall self : t,
    state self = CLOSED ->
    Forall (fails_as_expected self) steps ->
    failure_count self + Z.of_nat (length steps) < failure_threshold self ->
    state (calls self steps) = CLOSED
    /\ failure_count (calls self steps)
       = failure_count self + Z.of_nat (length steps).
Proof.
  induction steps as [|[func w] rest IH]; intros self Hstate Hall Hbelow; simpl.
  { split; [done | lia]. }
  apply Forall_cons in Hall as [(e & Hrun & Hexp) Hrest]. simpl in Hrun, Hbelow.
  assert (call self func w
          = (mk (failure_threshold self) (recovery_timeout self)
               (expected_exception self) (failure_count self + 1)
               (Some (time_time (run func w).1)) CLOSED,
             (run func w).1, [], Raised e)) as Hcall.
  { unfold call, admission. rewrite Hstate.
    destruct (run func w) as [w1 result]. simpl in Hrun. subst result.
    rewrite Hexp. unfold _on_failure. rewrite bool_decide_false by lia.
    by rewrite Hstate. }
  rewrite Hcall. simpl.
  destruct (IH (mk (failure_threshold self) (recovery_timeout self)
                  (expected_exception self) (failure_count self + 1)
                  (Some (time_time (run func w).1)) CLOSED))
    as [Hclosed Hcounted]; [done | | simpl; lia |].
  - eapply Forall_impl; [exact Hrest |]. by intros step Hstep.
  - split; [done |]. rewrite Hcounted. simpl. lia.
Qed.

End breaker_invariants.

(** X1.  Whatever the arguments of [CircuitBreaker(...)] and whatever
    calls were made on the breaker since, its failure count is not
    negative and, unless it is CLOSED, the time of its last failure is set
    and its count has reached the threshold.  Hence a further call either
    raises the circuit-open error, leaving the world as it was, or runs
    the function exactly once: the subtraction on line 55 never meets
    [None]. *)
Theorem breaker_never_open_without_failure_time {W R : Type} `{!Clock W}
    (failure_threshold : Z) (recovery_timeout : Qc) (expected_exception : ExcClass)
    (steps : list (Callable W R * W)) (func : Callable W R) (w : W) :
  let self :=
    CircuitBreaker.calls
      (CircuitBreaker.__init__ failure_threshold recovery_timeout expected_exception)
      steps in
  breaker_invariant self
  /\ (CircuitBreaker.call self func w
      = (self, w, [], Raised (CircuitBreaker.CircuitOpenError (__name__ func)))
      \/ ((CircuitBreaker.call self func w).1.1.2 = (run func w).1
          /\ (CircuitBreaker.call self func w).2 = (run func w).2)).
Proof.
  intros self.
  assert (breaker_invariant self) as Hinv.
  { apply breaker_invariant_calls. split; simpl; [lia | done]. }
  split; [exact Hinv |].
  destruct Hinv as [_ Hopen].
  unfold CircuitBreaker.call, CircuitBreaker.admission.
  destruct (CircuitBreaker.state self) eqn:Hstate.
  2: { destruct Hopen as [[last Hlast] _]; [done |]. rewrite Hlast.
       case_bool_decide; [| by left]. right.
       destruct (run func w) as [w1 [v|e]]; simpl; [done |].
       destruct (isinstance e _); [| done].
       by destruct (CircuitBreaker._on_failure _ _). }
  all: right; destruct (run func w) as [w1 [v|e]]; simpl; [done |];
    (destruct (isinstance e _); [| done]);
    by destruct (CircuitBreaker._on_failure _ _).
Qed.

(** X2.  A closed breaker does not open early: while the failures counted
    so far plus the monitored failures that follow in a row stay below
    [failure_threshold], the breaker is still CLOSED and has counted each
    of them. *)
Theorem breaker_stays_closed_below_threshold {W R : Type} `{!Clock W}
    (self : CircuitBreaker.t) (steps : list (Callable W R * W)) :
  CircuitBreaker.state self = CircuitBreaker.CLOSED ->
  Forall (fails_as_expected self) steps ->
  CircuitBreaker.failure_count self + Z.of_nat (length steps)
  < CircuitBreaker.failure_threshold self ->
  CircuitBreaker.state (CircuitBreaker.calls self steps) = CircuitBreaker.CLOSED
  /\ CircuitBreaker.failure_count (CircuitBreaker.calls self steps)
     = CircuitBreaker.failure_count self + Z.of_nat (length steps).
Proof. intros. by apply closed_below_threshold. Qed.

Lemma breaker_stays_closed_below_threshold_witness :
  let self := CircuitBreaker.__init__ 3 (Q2Qc 60) Exception in
  let steps :=
    [(always_fails Timeout, at_time 0 0); (always_fails ValueError, at_time 1 1)] in
  CircuitBreaker.state (CircuitBreaker.calls self steps) = CircuitBreaker.CLOSED
  /\ CircuitBreaker.failure_count (CircuitBreaker.calls self steps) = 0 + Z.of_nat 2.
Proof.
  intros self steps.
  apply (breaker_stays_closed_below_threshold self steps);
    [reflexivity | | simpl; lia].
  repeat constructor; eexists; split; reflexivity.
Defined.

(** X3.  A failed trial reopens the breaker: when a breaker that is OPEN
    with its threshold reached admits a call after [recovery_timeout] and
    the function fails with a monitored exception, the breaker is OPEN
    again with one more failure counted and the time of the last failure
    read after the function ran; the exception reaches the caller and the
    opening is logged. *)
Theorem breaker_failed_trial_reopens {W R : Type} `{!Clock W}
    (self : CircuitBreaker.t) (func : Callable W R) (w : W) (last : Qc) (e : Exn) :
  CircuitBreaker.state self = CircuitBreaker.OPEN ->
  CircuitBreaker.last_failure_time self = Some last ->
  CircuitBreaker.failure_threshold self <= CircuitBreaker.failure_count self ->
  (CircuitBreaker.recovery_timeout self < time_time w - last)%Qc ->
  (run func w).2 = Raised e ->
  isinstance e (CircuitBreaker.expected_exception self) = true ->
  CircuitBreaker.call self func w
  = (CircuitBreaker.mk (CircuitBreaker.failure_threshold self)
       (CircuitBreaker.recovery_timeout self)
       (CircuitBreaker.expected_exception self)
       (CircuitBreaker.failure_count self + 1)
       (Some (time_time (run func w).1)) CircuitBreaker.OPEN,
     (run func w).1,
     [CircuitBreaker.warning_opened (CircuitBreaker.failure_count self + 1)],
     Raised e).
Proof.
  intros Hstate Hlast Hreached Helapsed Hrun Hexp.
  unfold CircuitBreaker.call, CircuitBreaker.admission.
  rewrite Hstate, Hlast, bool_decide_true by done.
  destruct (run func w) as [w1 result]. simpl in Hrun. subst result. simpl.
  rewrite Hexp. unfold CircuitBreaker._on_failure. simpl.
  by rewrite bool_decide_true by lia.
Qed.

Lemma breaker_failed_trial_reopens_witness :
  let opened :=
    CircuitBreaker.calls (CircuitBreaker.__init__ 3 (Q2Qc 60) Exception)
      [(always_fails Timeout, at_time 0 0); (always_fails Timeout, at_time 1 1);
       (always_fails Timeout, at_time 2 2)] in
  let trial := CircuitBreaker.call opened (always_fails Timeout) (at_time 63 3) in
  CircuitBreaker.state trial.1.1.1 = CircuitBreaker.OPEN
  /\ CircuitBreaker.failure_count trial.1.1.1 = 4
  /\ CircuitBreaker.last_failure_time trial.1.1.1 = Some (Q2Qc (inject_Z 63)).
Proof.
  intros opened trial. subst trial.
  rewrite (breaker_failed_trial_reopens opened (always_fails Timeout)
             (at_time 63 3) (Q2Qc (inject_Z 2)) (raise_ Timeout "Test failure"));
    [repeat split; reflexivity | reflexivity | reflexivity | vm_compute; discriminate
    | vm_compute; reflexivity | reflexivity | reflexivity].
Defined.

(** ** The retry decorator, beyond its bounds *)

Section retry_results.
Context {W R : Type} `{!Sleep W}.
Variables (max_retries : Z) (delay backoff_factor : Qc).
Variables (exceptions : list ExcClass) (func : Callable W R).
Import retry_on_failure.

Local Abbreviation loop := (loop max_retries delay backoff_factor exceptions func).


Lemma sleeps_unlogged (events : list (Event R)) :
  sleeps events = sleeps (unlogged events).
Proof. induction events as [|[r|s|l] events IH]; simpl; congruence. Qed.

Lemma sleeps_backoff_schedule (rs : list (Outcome R)) :
  forall k : nat,
    sleeps (backoff_schedule delay backoff_factor k rs)
    = map (fun j => (delay * backoff_factor ^ j)%Qc) (seq k (length rs - 1)).
Proof.
  induction rs as [|r [|r' rs] IH]; intros k; [done | done |].
  change (sleeps (backoff_schedule delay backoff_factor k (r :: r' :: rs)))
    with ((delay * backoff_factor ^ k)%Qc
            :: sleeps (backoff_schedule delay backoff_factor (S k) (r' :: rs))).
  rewrite IH. simpl. by rewrite Nat.sub_0_r.
Qed.

Lemma total_scaled (q : Qc) (indices : list nat) :
  total (map (fun j => (delay * q ^ j)%Qc) indices)
  = (delay * total (map (Qcpower q) indices))%Qc.
Proof.
  induction indices as [|j indices IH]; simpl.
  - unfold total. simpl. ring.
  - unfold total in *. simpl. rewrite IH. ring.
Qed.

End retry_results.


(** X5.  A run of [k] invocations sleeps [k - 1] times, for
    [delay * backoff_factor ^ 0], ..., [delay * backoff_factor ^ (k - 2)]
    in this order; the total time slept is [delay] times the geometric
    sum of the first [k - 1] powers of [backoff_factor]. *)
Theorem retry_on_failure_total_sleep {W R : Type} `{!Sleep W}
    (max_retries : Z) (delay backoff_factor : Qc) (exceptions : list ExcClass)
    (func : Callable W R) (w : W) :
  let events :=
    (retry_on_failure.wrapper max_retries delay backoff_factor exceptions func w).1.2 in
  let retries := (retry_on_failure.invocations events - 1)%nat in
  retry_on_failure.sleeps events
  = map (fun j => (delay * backoff_factor ^ j)%Qc) (seq 0 retries)
  /\ total (retry_on_failure.sleeps events)
     = (delay * geometric_sum backoff_factor 0 retries)%Qc.
Proof.
  intros events retries.
  destruct (loop_spec max_retries delay backoff_factor exceptions func
              (Z.to_nat (max_retries + 1)) 0 None w) as (_ & Hshape & _); [lia |].
  assert (retry_on_failure.sleeps events
          = map (fun j => (delay * backoff_factor ^ j)%Qc) (seq 0 retries)) as Hsleeps.
  { rewrite sleeps_unlogged. subst events retries.
    unfold retry_on_failure.wrapper. rewrite Hshape.
    apply sleeps_backoff_schedule. }
  split; [exact Hsleeps |].
  rewrite Hsleeps. apply total_scaled.
Qed.

(** ** The gates of the edge-case middleware *)



Section edge_case_gates.
Context {W : Type} `{!Clock W, !Uuid W, !Services W}.
Import EdgeCaseHandlingMiddleware.

Lemma validate_request_data_status (request : Request) (response : JsonResponse) :
  (_validate_request_data request).2 = Some response ->
  status_code response = 413 \/ status_code response = 400.
Proof.
  unfold _validate_request_data.
  repeat (first
    [ progress simpl
    | match goal with
      | |- context [bool_decide ?P] => destruct (bool_decide P)
      | |- context [CONTENT_LENGTH request] =>
          destruct (CONTENT_LENGTH request) as [[|? ?]|]
      | |- context [int ?s] => destruct (int s)
      | |- context [Str.startswith ?s ?p] => destruct (Str.startswith s p)
      end ]);
    intros [= <-]; simpl; auto.
Qed.

End edge_case_gates.

(** X7.  [process_request] always stamps the request with the id it
    draws and the time read after the draw, and keeps its method, path and
    headers.  It lets the request proceed only with the retry context set
    ([retry_count = 0], [max_retries] from the middleware's
    configuration); when it answers instead, the status is 503, 413 or
    400 and the retry context is left as it was.  A failing database probe
    is answered before the cache is probed. *)
Theorem edge_case_process_request_outcomes {W : Type}
    `{!Clock W, !Uuid W, !Services W}
    (self : EdgeCaseHandlingMiddleware.t)
    (request : EdgeCaseHandlingMiddleware.Request) (w : W) :
  let processed := EdgeCaseHandlingMiddleware.process_request self request w in
  let request' := processed.1.1.1 in
  (EdgeCaseHandlingMiddleware.request_id request' = Some (uuid4 w).1
   /\ EdgeCaseHandlingMiddleware.start_time request' = Some (time_time (uuid4 w).2)
   /\ EdgeCaseHandlingMiddleware.method request'
      = EdgeCaseHandlingMiddleware.method request
   /\ EdgeCaseHandlingMiddleware.path request'
      = EdgeCaseHandlingMiddleware.path request
   /\ EdgeCaseHandlingMiddleware.CONTENT_LENGTH request'
      = EdgeCaseHandlingMiddleware.CONTENT_LENGTH request
   /\ EdgeCaseHandlingMiddleware.CONTENT_TYPE request'
      = EdgeCaseHandlingMiddleware.CONTENT_TYPE request)
  /\ match processed.2 with
     | None =>
         EdgeCaseHandlingMiddleware.retry_count request' = Some 0
         /\ EdgeCaseHandlingMiddleware.max_retries request'
            = Some (EdgeCaseHandlingMiddleware.retry_config_max_retries self)
     | Some response =>
         EdgeCaseHandlingMiddleware.retry_count request'
         = EdgeCaseHandlingMiddleware.retry_count request
         /\ EdgeCaseHandlingMiddleware.max_retries request'
            = EdgeCaseHandlingMiddleware.max_retries request
         /\ (status_code response = 503 \/ status_code response = 413
             \/ status_code response = 400)
     end
  /\ match (connection_select_1 (uuid4 w).2).2 with
     | Raised _ =>
         processed.1.1.2 = (connection_select_1 (uuid4 w).2).1
         /\ exists response, processed.2 = Some response
                             /\ status_code response = 503
     | Returned _ => True
     end.
Proof.
  intros processed request'. subst processed request'.
  unfold EdgeCaseHandlingMiddleware.process_request,
    EdgeCaseHandlingMiddleware._check_system_health.
  destruct (uuid4 w) as [id w1]. simpl.
  destruct (connection_select_1 w1) as [w2 [[]|e]]; simpl.
  2: { repeat split; try done; [by left | by eexists]. }
  destruct (cache_get_health_check w2) as [w3 [[]|e]]; simpl.
  2: { repeat split; try done. by left. }
  pose proof (validate_request_data_status
                (EdgeCaseHandlingMiddleware.mkRequest
                   (EdgeCaseHandlingMiddleware.method request)
                   (EdgeCaseHandlingMiddleware.path request)
                   (EdgeCaseHandlingMiddleware.CONTENT_LENGTH request)
                   (EdgeCaseHandlingMiddleware.CONTENT_TYPE request)
                   (Some id) (Some (time_time w1))
                   (EdgeCaseHandlingMiddleware.retry_count request)
                   (EdgeCaseHandlingMiddleware.max_retries request))) as Hstatus.
  destruct (EdgeCaseHandlingMiddleware._validate_request_data _)
    as [logs [response|]]; simpl in *.
  - repeat split; try done. right. by apply Hstatus.
  - repeat split; done.
Qed.

(** ** Service names and the registry of breakers *)

Lemma lower_app (a b : string) :
  Str.lower (a +:+ b) = Str.lower a +:+ Str.lower b.
Proof. induction a as [|c a IH]; simpl; [done | by rewrite IH]. Qed.

Lemma startswith_app (p s : string) : Str.startswith (p +:+ s) p = true.
Proof.
  induction p as [|c p IH]; simpl; [by destruct s |].
  by rewrite bool_decide_true, IH.
Qed.

Lemma contains_app (a p c : string) : Str.contains (a +:+ p +:+ c) p = true.
Proof.
  induction a as [|x a IH]; simpl.
  - destruct p; simpl; [by destruct c |].
    rewrite bool_decide_true by done. simpl.
    by rewrite startswith_app.
  - rewrite IH. apply orb_true_r.
Qed.

Lemma contains_lower_word (before word after name : string) :
  Str.lower word = name ->
  Str.contains (Str.lower (before +:+ word +:+ after)) name = true.
Proof. intros <-. rewrite !lower_app. apply contains_app. Qed.

(** X8.  The service name is read from the path without regard to case
    and wherever the word stands; "openai" wins over "email", which wins
    over "sms".  So a path where some spelling of "openai" occurs names
    openai whatever else it holds, and a path with a spelling of "email"
    or "sms" always names a service. *)
Theorem service_name_ignores_case (request : EdgeCaseHandlingMiddleware.Request)
    (before word after : string) :
  EdgeCaseHandlingMiddleware.path request = before +:+ word +:+ after ->
  (Str.lower word = "openai" ->
   EdgeCaseHandlingMiddleware._get_service_name_from_request request
   = Some "openai")
  /\ (Str.lower word = "email" ->
      EdgeCaseHandlingMiddleware._get_service_name_from_request request
      = Some "openai"
      \/ EdgeCaseHandlingMiddleware._get_service_name_from_request request
         = Some "email")
  /\ (Str.lower word = "sms" ->
      EdgeCaseHandlingMiddleware._get_service_name_from_request request
      <> None).
Proof.
  intros Hpath.
  unfold EdgeCaseHandlingMiddleware._get_service_name_from_request.
  rewrite Hpath. split; [| split]; intros Hword.
  - by rewrite (contains_lower_word _ _ _ _ Hword).
  - rewrite (contains_lower_word _ _ _ _ Hword).
    destruct (Str.contains _ "openai"); auto.
  - rewrite (contains_lower_word _ _ _ _ Hword).
    by repeat destruct (Str.contains _ _).
Qed.

Lemma service_name_ignores_case_witness :
  EdgeCaseHandlingMiddleware._get_service_name_from_request
    (get_request "/api/v1/Email/OpenAI/send/")
  = Some "openai".
Proof.
  apply (service_name_ignores_case (get_request "/api/v1/Email/OpenAI/send/")
           "/api/v1/Email/" "OpenAI" "/send/"); reflexivity.
Defined.

(** X9.  [_get_circuit_breaker] is get-or-create: the breaker it returns
    is the one registered under the name afterwards, a second call
    returns the same breaker and changes nothing, no other name is
    touched, a breaker that was registered is returned as it is, and a
    new one is closed with threshold 5 and timeout 60, counting every
    exception. *)
Theorem get_circuit_breaker_registry (self : EdgeCaseHandlingMiddleware.t)
    (service_name : string) :
  let found := EdgeCaseHandlingMiddleware._get_circuit_breaker self service_name in
  EdgeCaseHandlingMiddleware.circuit_breakers found.1 !! service_name
  = Some found.2
  /\ EdgeCaseHandlingMiddleware._get_circuit_breaker found.1 service_name = found
  /\ (forall other : string,
         other <> service_name ->
         EdgeCaseHandlingMiddleware.circuit_breakers found.1 !! other
         = EdgeCaseHandlingMiddleware.circuit_breakers self !! other)
  /\ EdgeCaseHandlingMiddleware.retry_config_max_retries found.1
     = EdgeCaseHandlingMiddleware.retry_config_max_retries self
  /\ match EdgeCaseHandlingMiddleware.circuit_breakers self !! service_name with
     | Some breaker => found = (self, breaker)
     | None =>
         found.2 = CircuitBreaker.mk 5 (Q2Qc 60) Exception 0 None
                     CircuitBreaker.CLOSED
     end.
Proof.
  unfold EdgeCaseHandlingMiddleware._get_circuit_breaker.
  destruct (EdgeCaseHandlingMiddleware.circuit_breakers self !! service_name)
    as [breaker|] eqn:Hfound; simpl.
  - rewrite Hfound. repeat split; done.
  - rewrite lookup_insert_eq. repeat split; try done.
    intros other Hother. by rewrite lookup_insert_ne.
Qed.

Lemma get_circuit_breaker_registry_witness :
  EdgeCaseHandlingMiddleware.circuit_breakers
    (EdgeCaseHandlingMiddleware._get_circuit_breaker
       EdgeCaseHandlingMiddleware.__init__ "openai").1 !! "email"
  = None.
Proof.
  destruct (get_circuit_breaker_registry EdgeCaseHandlingMiddleware.__init__
              "openai") as (_ & _ & Hother & _).
  rewrite (Hother "email"); [reflexivity | discriminate].
Defined.

(** ** Exceptions and responses of the edge-case middleware *)

(** X10.  [process_exception] leaves an exception to the next handler
    exactly when it is a Redis error; every other exception is answered,
    with one of the statuses 400, 403, 404, 500, 502 and 503.  The
    registry of breakers changes only for an exception of the requests
    library, and beyond the draw of the error id the world is touched only
    for an operational database error (the reconnection) and a Redis
    error (the reset of the pool). *)
Theorem process_exception_answers {W : Type} `{!Clock W, !Uuid W, !Services W}
    (self : EdgeCaseHandlingMiddleware.t)
    (request : EdgeCaseHandlingMiddleware.Request) (e : Exn) (w : W) :
  let handled := EdgeCaseHandlingMiddleware.process_exception self request e w in
  (handled.2 = None <-> isinstance e RedisError = true)
  /\ (forall response : JsonResponse,
         handled.2 = Some response ->
         status_code response ∈ [400; 403; 404; 500; 502; 503])
  /\ (isinstance e RequestException = false -> handled.1.1.1 = self)
  /\ (isinstance e OperationalError = false ->
      isinstance e RedisError = false ->
      handled.1.1.2 = (uuid4 w).2).
Proof.
  intros handled. subst handled.
  unfold EdgeCaseHandlingMiddleware.process_exception,
    EdgeCaseHandlingMiddleware._handle_database_error,
    EdgeCaseHandlingMiddleware._handle_cache_error,
    EdgeCaseHandlingMiddleware._handle_generic_error,
    EdgeCaseHandlingMiddleware._handle_external_api_error,
    EdgeCaseHandlingMiddleware._handle_validation_error,
    EdgeCaseHandlingMiddleware._handle_permission_error,
    EdgeCaseHandlingMiddleware._handle_not_found_error.
  destruct (uuid4 w) as [error_id w1].
  destruct e as [c msg code].
  destruct c; vm_compute isinstance; simpl;
    repeat match goal with
    | |- context [connection_reconnect ?w] =>
        destruct (connection_reconnect w) as [? [[]|?]]; simpl
    | |- context [cache_reset_pool ?w] =>
        destruct (cache_reset_pool w) as [? [[]|?]]; simpl
    | |- context [settings_DEBUG ?w] => destruct (settings_DEBUG w); simpl
    | |- context [EdgeCaseHandlingMiddleware._get_service_name_from_request ?r] =>
        destruct (EdgeCaseHandlingMiddleware._get_service_name_from_request r);
        simpl
    | |- context [EdgeCaseHandlingMiddleware._get_circuit_breaker ?s ?n] =>
        destruct (EdgeCaseHandlingMiddleware._get_circuit_breaker s n); simpl
    | |- context [bool_decide ?P] => destruct (bool_decide P); simpl
    end;
    (split; [split; intros; congruence |]);
    (split; [intros response [= <-]; simpl; set_solver |]);
    split; intros; congruence.
Qed.

Lemma process_exception_answers_witness :
  let handled :=
    EdgeCaseHandlingMiddleware.process_exception EdgeCaseHandlingMiddleware.__init__
      (get_request "/api/v1/chatbot/conversations/")
      (raise_ ValueError "bad value") healthy_server in
  (exists response, handled.2 = Some response /\ status_code response = 500)
  /\ handled.1.1.1 = EdgeCaseHandlingMiddleware.__init__
  /\ handled.1.1.2 = (uuid4 healthy_server).2.
Proof.
  intros handled.
  destruct (process_exception_answers EdgeCaseHandlingMiddleware.__init__
              (get_request "/api/v1/chatbot/conversations/")
              (raise_ ValueError "bad value") healthy_server)
    as (_ & _ & Hregistry & Hworld).
  split; [by eexists |].
  split; [apply Hregistry | apply Hworld]; reflexivity.
Defined.

(** X11.  With [DEBUG] off, the answer to an exception other than a
    validation error depends on the exception through its class only: two
    exceptions of one class, whatever their texts and attributes, get the
    same response and leave the same registry and world behind, so nothing
    of the exception's text reaches the client. *)
Theorem production_answers_hide_the_exception {W : Type}
    `{!Clock W, !Uuid W, !Services W}
    (self : EdgeCaseHandlingMiddleware.t)
    (request : EdgeCaseHandlingMiddleware.Request) (e1 e2 : Exn) (w : W) :
  exc_class e1 = exc_class e2 ->
  isinstance e1 ValidationError = false ->
  settings_DEBUG (uuid4 w).2 = false ->
  settings_DEBUG (connection_reconnect (uuid4 w).2).1 = false ->
  let handled1 := EdgeCaseHandlingMiddleware.process_exception self request e1 w in
  let handled2 := EdgeCaseHandlingMiddleware.process_exception self request e2 w in
  handled1.2 = handled2.2
  /\ handled1.1.1.1 = handled2.1.1.1
  /\ handled1.1.1.2 = handled2.1.1.2.
Proof.
  destruct e1 as [c msg1 code1], e2 as [c2 msg2 code2]. simpl.
  intros <- Hvalidation Hdebug Hdebug'.
  unfold EdgeCaseHandlingMiddleware.process_exception,
    EdgeCaseHandlingMiddleware._handle_database_error,
    EdgeCaseHandlingMiddleware._handle_cache_error,
    EdgeCaseHandlingMiddleware._handle_generic_error,
    EdgeCaseHandlingMiddleware._handle_external_api_error,
    EdgeCaseHandlingMiddleware._handle_validation_error,
    EdgeCaseHandlingMiddleware._handle_permission_error,
    EdgeCaseHandlingMiddleware._handle_not_found_error.
  destruct (uuid4 w) as [error_id w1]. simpl in Hdebug, Hdebug'.
  destruct c; try discriminate Hvalidation; vm_compute isinstance; simpl;
    rewrite ?Hdebug;
    repeat match goal with
    | |- context [connection_reconnect ?w] =>
        destruct (connection_reconnect w) as [? [[]|?]]; simpl in *;
        rewrite ?Hdebug'
    | |- context [cache_reset_pool ?w] =>
        destruct (cache_reset_pool w) as [? [[]|?]]; simpl
    | |- context [EdgeCaseHandlingMiddleware._get_service_name_from_request ?r] =>
        destruct (EdgeCaseHandlingMiddleware._get_service_name_from_request r);
        simpl
    | |- context [EdgeCaseHandlingMiddleware._get_circuit_breaker ?s ?n] =>
        destruct (EdgeCaseHandlingMiddleware._get_circuit_breaker s n); simpl
    | |- context [bool_decide ?P] => destruct (bool_decide P); simpl
    end;
    done.
Qed.

Lemma production_answers_hide_the_exception_witness :
  (EdgeCaseHandlingMiddleware.process_exception EdgeCaseHandlingMiddleware.__init__
     (get_request "/api/v1/chatbot/conversations/")
     (raise_ OperationalError "could not connect to server at 10.0.0.5")
     healthy_server).2
  = (EdgeCaseHandlingMiddleware.process_exception EdgeCaseHandlingMiddleware.__init__
       (get_request "/api/v1/chatbot/conversations/")
       (mkExn OperationalError "too many connections for role elate" (Some 500))
       healthy_server).2.
Proof.
  exact (proj1 (production_answers_hide_the_exception
                  EdgeCaseHandlingMiddleware.__init__
                  (get_request "/api/v1/chatbot/conversations/")
                  (raise_ OperationalError "could not connect to server at 10.0.0.5")
                  (mkExn OperationalError "too many connections for role elate"
                     (Some 500))
                  healthy_server eq_refl eq_refl eq_refl eq_refl)).
Defined.




(** ** The retry middleware over the life of a request *)

Section retry_budget.
Context {W : Type} `{!Sleep W}.
Import RetryMiddleware.




End retry_budget.



(** ** Graceful degradation *)

(** X13.  The degradation mode is decided by the two probes alone:
    "database_unavailable" when the database probe fails, and then the
    cache is not probed; "cache_unavailable" when only the cache probe
    fails; no mode otherwise.  The path of the request plays no part, and
    the AI and email modes never arise.  [process_response] after
    [process_request] leaves the response untouched when there is no mode,
    and otherwise sets [X-Degradation-Mode] to the mode and
    [X-Degradation-Reason] to the reason of that mode, never to the
    default reason. *)
Theorem degradation_follows_the_probes {W : Type} `{!Services W}
    (request : GracefulDegradationMiddleware.Request) (w : W)
    (response : HttpResponse) :
  let checked := GracefulDegradationMiddleware._check_degradation_mode request w in
  let request' := (GracefulDegradationMiddleware.process_request request w).1.1 in
  let response' := GracefulDegradationMiddleware.process_response request' response in
  checked
  = match (connection_select_1 w).2 with
    | Raised _ => ((connection_select_1 w).1, Some "database_unavailable")
    | Returned _ =>
        let w1 := (connection_select_1 w).1 in
        match (cache_get_health_check w1).2 with
        | Raised _ => ((cache_get_health_check w1).1, Some "cache_unavailable")
        | Returned _ => ((cache_get_health_check w1).1, None)
        end
    end
  /\ GracefulDegradationMiddleware.degradation_mode request' = Some checked.2
  /\ match checked.2 with
     | None => response' = response
     | Some mode =>
         response_status response' = response_status response
         /\ response_headers response' !! "X-Degradation-Mode" = Some (HText mode)
         /\ response_headers response' !! "X-Degradation-Reason"
            = Some (HText (GracefulDegradationMiddleware._get_degradation_reason mode))
         /\ GracefulDegradationMiddleware._get_degradation_reason mode
            <> "Service degradation detected"
     end.
Proof.
  intros checked request' response'. subst checked request' response'.
  unfold GracefulDegradationMiddleware.process_request,
    GracefulDegradationMiddleware.process_response,
    GracefulDegradationMiddleware._check_degradation_mode,
    GracefulDegradationMiddleware._check_database_availability,
    GracefulDegradationMiddleware._check_cache_availability,
    GracefulDegradationMiddleware._check_openai_availability,
    GracefulDegradationMiddleware._check_email_service_availability.
  destruct (connection_select_1 w) as [w1 [[]|e]]; simpl.
  2: { repeat split;
         [ by rewrite lookup_insert_ne, lookup_insert_eq
         | by rewrite lookup_insert_eq
         | vm_compute; discriminate ]. }
  rewrite !andb_false_r.
  destruct (cache_get_health_check w1) as [w2 [[]|e]]; simpl.
  - done.
  - repeat split;
      [ by rewrite lookup_insert_ne, lookup_insert_eq
      | by rewrite lookup_insert_eq
      | vm_compute; discriminate ].
Qed.

(** ** Requests the session middleware lets through *)

(** X15.  A request whose path starts with one of the five skipped
    prefixes is let through with nothing read or written: the request, the
    table, the cache and the log are as before, and since no start time is
    noted, [process_response] then adds no header and counts no page
    view. *)
Theorem skipped_paths_are_left_alone `{!SessionManagementMiddleware.Libraries}
    (st : SessionManagementMiddleware.State) (prefix rest : string) :
  prefix ∈ SessionManagementMiddleware.skip_paths ->
  SessionManagementMiddleware.path (SessionManagementMiddleware.request st)
  = prefix +:+ rest ->
  SessionManagementMiddleware.process_request st = (st, Returned None)
  /\ (SessionManagementMiddleware.session_start_time
        (SessionManagementMiddleware.request st) = None ->
      SessionManagementMiddleware.process_response
        (SessionManagementMiddleware.process_request st).1
      = (st, Returned [])).
Proof.
  intros Hprefix Hpath.
  assert (SessionManagementMiddleware._should_skip_session_management
            (SessionManagementMiddleware.request st) = true) as Hskip.
  { unfold SessionManagementMiddleware._should_skip_session_management.
    apply existsb_exists. exists prefix.
    split; [by apply list_elem_of_In |].
    rewrite Hpath. apply startswith_app. }
  assert (SessionManagementMiddleware.process_request st = (st, Returned None))
    as Hskipped.
  { unfold SessionManagementMiddleware.process_request. run_effects.
    by rewrite Hskip. }
  split; [exact Hskipped |].
  intros Hstart. rewrite Hskipped. simpl.
  unfold SessionManagementMiddleware.process_response. run_effects.
  by rewrite Hstart.
Qed.

Lemma skipped_paths_are_left_alone_witness :
  let st :=
    first_seen "/static/css/site.css"
      (SessionManagementMiddleware.CustomUser 7 "test@example.com") []
      (fun _ => Some (raise_ OperationalError "database is down")) in
  SessionManagementMiddleware.process_request st
  = (st, Returned None).
Proof.
  intros st.
  apply (skipped_paths_are_left_alone st
           "/static/" "css/site.css");
    [vm_compute; apply list_elem_of_here | reflexivity].
Defined.

(** X16.  A request of an anonymous user on a path that is not skipped is
    always let through, whatever fails on the way: [process_request]
    returns [None], notes the start time, and neither reads a session into
    the request nor changes the table of sessions. *)
Theorem anonymous_requests_proceed `{!SessionManagementMiddleware.Libraries}
    (st : SessionManagementMiddleware.State) :
  SessionManagementMiddleware.user (SessionManagementMiddleware.request st)
  = SessionManagementMiddleware.AnonymousUser ->
  SessionManagementMiddleware._should_skip_session_management
    (SessionManagementMiddleware.request st) = false ->
  exists st' : SessionManagementMiddleware.State,
    SessionManagementMiddleware.process_request st = (st', Returned None)
    /\ UserSession.user_sessions (SessionManagementMiddleware.world st')
       = UserSession.user_sessions (SessionManagementMiddleware.world st)
    /\ SessionManagementMiddleware.user_session
         (SessionManagementMiddleware.request st')
       = SessionManagementMiddleware.user_session
           (SessionManagementMiddleware.request st)
    /\ SessionManagementMiddleware.session_start_time
         (SessionManagementMiddleware.request st')
       = Some (UserSession.now (SessionManagementMiddleware.world st)).
Proof.
  destruct st as [[path user key agent forwarded remote started session] w l].
  simpl. intros -> Hskip.
  unfold SessionManagementMiddleware.process_request,
    SessionManagementMiddleware.resolve_session,
    SessionManagementMiddleware.gates,
    SessionManagementMiddleware._handle_anonymous_session,
    SessionManagementMiddleware._validate_session_security,
    SessionManagementMiddleware._check_concurrent_sessions,
    SessionManagementMiddleware._get_client_ip,
    SessionManagementMiddleware.user_pk.
  run_effects. rewrite Hskip. simpl.
  split_cases; eexists; (split; [reflexivity |]); simpl; done.
Qed.

Lemma anonymous_requests_proceed_witness :
  exists st' : SessionManagementMiddleware.State,
    SessionManagementMiddleware.process_request
      (first_seen "/api/v1/chatbot/conversations/"
         SessionManagementMiddleware.AnonymousUser six_sessions
         (fault_at UserSession.cache_set (raise_ RedisConnectionError "refused")))
    = (st', Returned None)
    /\ UserSession.user_sessions (SessionManagementMiddleware.world st')
       = six_sessions.
Proof.
  destruct (anonymous_requests_proceed
              (first_seen "/api/v1/chatbot/conversations/"
                 SessionManagementMiddleware.AnonymousUser six_sessions
                 (fault_at UserSession.cache_set
                    (raise_ RedisConnectionError "refused"))))
    as (st' & Hreturned & Htable & _); [reflexivity | reflexivity |].
  exists st'. split; [exact Hreturned | exact Htable].
Defined.

(** ** The request counter *)

Lemma Qclt_plus_pos (q d : Qc) : (0 < d)%Qc -> (q < q + d)%Qc.
Proof.
  intros Hd. apply Qclt_minus_iff.
  by replace (q + d + - q)%Qc with d by ring.
Qed.

Section request_counter.
Import UserSession SessionManagementMiddleware.

(** One run of the check on an authenticated request when the calls go
    through: the counter is compared with 100 before it is incremented,
    and it is incremented, with a new minute to live, only when the
    request is not flagged. *)
Lemma detect_suspicious_activity_counts (st : State) (uid : Z) (email : string)
    (count : Z) :
  rate_check_unhindered st ->
  user (request st) = CustomUser uid email ->
  request_rate st = CInt count ->
  exists st' : State,
    _detect_suspicious_activity st = (st', Returned (bool_decide (100 < count)))
    /\ request st' = request st
    /\ faults (world st') = faults (world st)
    /\ now (world st') = now (world st)
    /\ user_sessions (world st') = user_sessions (world st)
    /\ request_rate st'
       = CInt (if bool_decide (100 < count) then count else count + 1).
Proof.
  destruct st as [r w l]. unfold rate_check_unhindered, request_rate. simpl.
  intros (Hip & Hget & Hset) Huser Hcached.
  unfold _detect_suspicious_activity, _get_client_ip, user_email.
  run_effects. rewrite Hip. simpl. rewrite Hget. simpl.
  rewrite Hcached. simpl.
  case_bool_decide as Hrate; simpl.
  - rewrite Huser. simpl. eexists. split; [reflexivity |]. simpl.
    by rewrite Hcached.
  - rewrite Hset. simpl. eexists. split; [reflexivity |]. simpl.
    repeat split.
    unfold cache_get_or. simpl. rewrite lookup_insert_eq.
    rewrite bool_decide_true; [done |].
    by apply Qclt_plus_pos.
Qed.

Lemma detections_count (n : nat) :
  forall (st : State) (uid : Z) (email : string) (count : Z),
    rate_check_unhindered st ->
    user (request st) = CustomUser uid email ->
    request_rate st = CInt count ->
    (detections n st).2
    = map (fun i : nat => Returned (bool_decide (100 < count + Z.of_nat i)))
        (seq 0 n)
    /\ user_sessions (world (detections n st).1) = user_sessions (world st)
    /\ request (detections n st).1 = request st.
Proof.
  induction n as [|n IH]; intros st uid email count Hcalls Huser Hcached;
    simpl; [done |].
  destruct (detect_suspicious_activity_counts st uid email count Hcalls Huser
              Hcached)
    as (st1 & -> & Hrequest & Hfaults & Hnow & Htable & Hcounter).
  assert (rate_check_unhindered st1) as Hcalls1.
  { unfold rate_check_unhindered in *. by rewrite Hfaults. }
  assert (user (request st1) = CustomUser uid email) as Huser1
    by by rewrite Hrequest.
  destruct (IH st1 uid email _ Hcalls1 Huser1 Hcounter)
    as (Hanswers & Htable' & Hrequest').
  destruct (detections n st1) as [st2 answers]. simpl in *.
  split; [| split; congruence].
  rewrite Z.add_0_r. f_equal.
  rewrite Hanswers, <- seq_shift, map_map.
  apply map_ext. intros i. f_equal.
  case_bool_decide as Hrate; apply bool_decide_ext; lia.
Qed.

End request_counter.

(** X17.  The request counter lets 101 requests through, not 100: when
    the calls to the cache go through and the counter of the client
    stands at [count], the [i]-th of the runs of the check made at one
    reading of the clock (from 0) flags the request exactly when
    [100 < count + i], so from an absent or expired counter runs 0 to 100
    pass and every later one is flagged.  A flagged run does not increment
    the counter, and no run touches the table of sessions. *)
Theorem request_counter_threshold (st : SessionManagementMiddleware.State)
    (uid : Z) (email : string) (count : Z) (n : nat) :
  rate_check_unhindered st ->
  SessionManagementMiddleware.user (SessionManagementMiddleware.request st)
  = SessionManagementMiddleware.CustomUser uid email ->
  request_rate st = UserSession.CInt count ->
  (detections n st).2
  = map (fun i : nat => Returned (bool_decide (100 < count + Z.of_nat i)))
      (seq 0 n)
  /\ UserSession.user_sessions
       (SessionManagementMiddleware.world (detections n st).1)
     = UserSession.user_sessions (SessionManagementMiddleware.world st)
  /\ (100 < count ->
      request_rate (SessionManagementMiddleware._detect_suspicious_activity st).1
      = UserSession.CInt count).
Proof.
  intros Hcalls Huser Hcached.
  destruct (detections_count n st uid email count Hcalls Huser Hcached)
    as (Hanswers & Htable & _).
  split; [exact Hanswers | split; [exact Htable |]].
  intros Hrate.
  destruct (detect_suspicious_activity_counts st uid email count Hcalls Huser
              Hcached)
    as (st1 & -> & _ & _ & _ & _ & Hcounter).
  simpl. by rewrite bool_decide_true in Hcounter by done.
Qed.

(** From an empty cache, the first 101 runs pass and the next two are
    flagged. *)
Lemma request_counter_threshold_witness :
  (detections 103
     (first_seen "/api/v1/chatbot/conversations/"
        (SessionManagementMiddleware.CustomUser 7 "test@example.com") []
        no_faults)).2
  = replicate 101 (Returned false) ++ [Returned true; Returned true].
Proof.
  destruct (request_counter_threshold
              (first_seen "/api/v1/chatbot/conversations/"
                 (SessionManagementMiddleware.CustomUser 7 "test@example.com") []
                 no_faults)
              7 "test@example.com" 0 103)
    as (Hanswers & _);
    [by repeat split | reflexivity | reflexivity |].
  etransitivity; [exact Hanswers |]. vm_compute. reflexivity.
Defined.

(** ** Looking a session up and creating it *)

Section get_or_create.
Import UserSession SessionManagementMiddleware.
Context `{!Libraries}.



Lemma find_active_in (uid : Z) (key : option string) (table : list t) (found : t) :
  find_active uid key table = Some found ->
  found ∈ table /\ user_id found = uid /\ is_active found = true
  /\ Some (UserSession.session_key found) = key.
Proof.
  unfold find_active, active_of. intros Hfound.
  apply find_some in Hfound as [Hin Hkey].
  apply filter_In in Hin as [Hin Hactive].
  apply andb_true_iff in Hactive as [Huser Hactive].
  apply bool_decide_eq_true in Huser, Hkey.
  by rewrite <- list_elem_of_In in Hin.
Qed.










End get_or_create.



Section stale_key.
Import UserSession SessionManagementMiddleware.
Context `{!Libraries}.

Lemma unique_by {A B : Type} (f : A -> B) (table : list A) (row other : A) :
  NoDup (map f table) ->
  row ∈ table -> other ∈ table -> f row = f other -> row = other.
Proof.
  induction table as [|head table IH]; simpl.
  - intros _ Hin. by apply elem_of_nil in Hin.
  - intros [Hhead Hrest]%NoDup_cons [-> | Hrow]%elem_of_cons
      [-> | Hother]%elem_of_cons Hkey; try done.
    + destruct Hhead. rewrite Hkey. apply list_elem_of_fmap. by exists other.
    + destruct Hhead. rewrite <- Hkey. apply list_elem_of_fmap. by exists row.
    + by apply IH.
Qed.

Lemma unique_key_row (table : list t) (row other : t) :
  NoDup (map UserSession.session_key table) ->
  row ∈ table -> other ∈ table ->
  UserSession.session_key row = UserSession.session_key other ->
  row = other.
Proof. apply unique_by. Qed.

End stale_key.

(** X19.  A session key that stays in the table on a row that is ended, or
    that belongs to another user, is never given a session again: with
    session keys unique in the table and every call going through,
    [_get_or_create_user_session] finds no active session of the user,
    fails to create one on the unique constraint, logs that, and
    returns [None], leaving the request and the table as they were. *)
Theorem ended_session_key_is_refused `{!SessionManagementMiddleware.Libraries}
    (st : SessionManagementMiddleware.State) (uid : Z) (key : string)
    (row : UserSession.t) :
  lookup_unhindered st ->
  request_of uid key st ->
  NoDup (map UserSession.session_key
           (UserSession.user_sessions (SessionManagementMiddleware.world st))) ->
  row ∈ UserSession.user_sessions (SessionManagementMiddleware.world st) ->
  UserSession.session_key row = key ->
  UserSession.is_active row = false \/ UserSession.user_id row <> uid ->
  exists e : Exn,
    exc_class e = IntegrityError
    /\ SessionManagementMiddleware._get_or_create_user_session st
       = (logging
            [SessionManagementMiddleware.error_creating_new_user_session e] st,
          Returned None).
Proof.
  destruct st as [r w l]. unfold lookup_unhindered, request_of, logging. simpl.
  intros (Hfilter & _ & Hcreate & Hip) ((email & Huser) & Hkey & [ip Haddress])
    Hunique Hin Hrow Hstale.
  assert (SessionManagementMiddleware.find_active uid (Some key)
            (UserSession.user_sessions w) = None) as Hnone.
  { destruct (SessionManagementMiddleware.find_active uid (Some key)
                (UserSession.user_sessions w)) as [found|] eqn:Hfound; [| done].
    apply find_active_in in Hfound as (Hfound & Huid & Hactive & [= Hsame]).
    assert (row = found) as ->
      by (apply (unique_key_row _ _ _ Hunique Hin Hfound); congruence).
    destruct Hstale; congruence. }
  assert (existsb (fun other => bool_decide (UserSession.session_key other = key))
            (UserSession.user_sessions w) = true) as Hused.
  { apply existsb_exists. exists row.
    split; [by apply list_elem_of_In | by apply bool_decide_eq_true]. }
  unfold SessionManagementMiddleware._get_or_create_user_session,
    SessionManagementMiddleware._create_new_user_session,
    SessionManagementMiddleware.objects_create_row,
    SessionManagementMiddleware._get_client_ip,
    SessionManagementMiddleware.user_email,
    SessionManagementMiddleware.user_pk.
  run_effects. rewrite Huser. simpl. rewrite Hfilter. simpl.
  rewrite Hkey, Hnone. simpl. rewrite Hip. simpl. rewrite Hcreate. simpl.
  rewrite Huser, Hkey, Haddress. simpl. rewrite Hused. simpl.
  eexists. split; [| reflexivity]. reflexivity.
Qed.

(** Scenario B continued: once the stored session is ended, the next
    request under its key is given no session. *)
Lemma ended_session_key_is_refused_witness :
  let ended := UserSession.set_ended false (Some 0%Qc) stored_session in
  let st :=
    first_seen "/api/v1/chatbot/conversations/"
      (SessionManagementMiddleware.CustomUser 7 "test@example.com") [ended]
      no_faults in
  (SessionManagementMiddleware._get_or_create_user_session st).2 = Returned None
  /\ UserSession.user_sessions
       (SessionManagementMiddleware.world
          (SessionManagementMiddleware._get_or_create_user_session st).1)
     = [ended].
Proof.
  intros ended st.
  destruct (ended_session_key_is_refused st 7 "session_key_0" ended)
    as (e & _ & ->).
  - by repeat split.
  - split; [by exists "test@example.com" | split; [reflexivity | by eexists]].
  - apply NoDup_singleton.
  - apply list_elem_of_here.
  - reflexivity.
  - by left.
  - split; reflexivity.
Defined.

(** ** What a save writes *)

Section saves.
Import UserSession.

Lemma Forall2_same {A : Type} (R : A -> A -> Prop) (l : list A) :
  (forall x, R x x) -> Forall2 R l l.
Proof. intros Hrefl. induction l; constructor; auto. Qed.

Lemma Forall2_chain {A : Type} (R : A -> A -> Prop) (l1 l2 l3 : list A) :
  (forall x y z, R x y -> R y z -> R x z) ->
  Forall2 R l1 l2 -> Forall2 R l2 l3 -> Forall2 R l1 l3.
Proof.
  intros Htrans Hfirst. revert l3.
  induction Hfirst as [|x y l1 l2 Hxy Hrest IH]; intros l3 Hsecond;
    inversion Hsecond; subst; constructor; eauto.
Qed.

Lemma Forall2_map_right {A : Type} (R : A -> A -> Prop) (f : A -> A) (l : list A) :
  (forall x, R x (f x)) -> Forall2 R l (map f l).
Proof. intros Hf. induction l; simpl; constructor; auto. Qed.

(** A save leaves every row related to what it was, when the written
    columns do. *)
Lemma save_related (R : t -> t -> Prop) (c : Call) (key : Z) (write : t -> t)
    (w : World) :
  (forall row, R row row) ->
  (forall row, R row (write row)) ->
  Forall2 R (user_sessions w) (user_sessions (save c key write w).1)
  /\ now (save c key write w).1 = now w
  /\ cache (save c key write w).1 = cache w
  /\ faults (save c key write w).1 = faults w.
Proof.
  intros Hrefl Hwrite. unfold save, reach, update_row.
  unfold mbind, M_bind, bind, gets, modify, raise. simpl.
  destruct (faults w c); simpl; [by split; [apply Forall2_same |] |].
  destruct (existsb _ _); simpl; [| by split; [apply Forall2_same |]].
  split; [| done]. apply Forall2_map_right. intros row.
  by case_bool_decide.
Qed.

(** A save that goes through writes the rows of the key. *)
Lemma save_written (c : Call) (key : Z) (write : t -> t) (w : World) :
  faults w c = None ->
  (exists row, row ∈ user_sessions w /\ pk row = key) ->
  save c key write w
  = (set_user_sessions
       (map (fun row => if bool_decide (pk row = key) then write row else row)
          (user_sessions w)) w,
     Returned tt).
Proof.
  intros Hfault Hrow. unfold save, reach.
  unfold mbind, M_bind, bind, gets, modify, raise. simpl.
  rewrite Hfault. simpl. by rewrite (update_row_found _ _ _ Hrow).
Qed.

End saves.

(** X20.  The response hook of the session middleware writes the two
    counters and nothing else: whatever the request carries and whatever
    fails, after [process_response] every row of the table is the row it
    was but for [page_views] and [chat_interactions], so a session that
    was ended while the request was in flight stays ended.  When the
    request carries a session, the save goes through and the row is
    there, the hook returns the two session headers, and the row gets the
    counters of the request's copy of the session plus one page view, and
    plus one chat interaction when the path contains /api/v1/chatbot/. *)
Theorem process_response_writes_counters_only
    (st : SessionManagementMiddleware.State) :
  let ran := SessionManagementMiddleware.process_response st in
  Forall2 same_but_counters
    (UserSession.user_sessions (SessionManagementMiddleware.world st))
    (UserSession.user_sessions (SessionManagementMiddleware.world ran.1))
  /\ (forall (instance : UserSession.t) (started : Qc),
         SessionManagementMiddleware.user_session
           (SessionManagementMiddleware.request st) = Some (Some instance) ->
         SessionManagementMiddleware.session_start_time
           (SessionManagementMiddleware.request st) = Some started ->
         SessionManagementMiddleware.is_authenticated
           (SessionManagementMiddleware.user
              (SessionManagementMiddleware.request st)) = true ->
         UserSession.faults (SessionManagementMiddleware.world st)
           UserSession.save_counters = None ->
         (exists row,
             row ∈ UserSession.user_sessions (SessionManagementMiddleware.world st)
             /\ UserSession.pk row = UserSession.pk instance) ->
         let path :=
           SessionManagementMiddleware.path
             (SessionManagementMiddleware.request st) in
         ran.2
         = Returned
             [SessionManagementMiddleware.X_Session_Duration
                (UserSession.now (SessionManagementMiddleware.world st)
                 - started)%Qc;
              SessionManagementMiddleware.X_Session_ID
                (UserSession.session_key instance)]
         /\ UserSession.user_sessions (SessionManagementMiddleware.world ran.1)
            = map (fun row =>
                     if bool_decide (UserSession.pk row = UserSession.pk instance)
                     then UserSession.set_counters
                            (UserSession.page_views (counted_response path instance))
                            (UserSession.chat_interactions
                               (counted_response path instance))
                            row
                     else row)
                (UserSession.user_sessions (SessionManagementMiddleware.world st))
         /\ SessionManagementMiddleware.user_session
              (SessionManagementMiddleware.request ran.1)
            = Some (Some (counted_response path instance))).
Proof.
  intros ran. subst ran. split.
  - unfold SessionManagementMiddleware.process_response,
      SessionManagementMiddleware._update_session_activity.
    run_effects.
    destruct (SessionManagementMiddleware.session_start_time _); simpl;
      [| by apply Forall2_same].
    destruct (_ && _); simpl.
    + destruct (SessionManagementMiddleware.user_session _) as [[instance|]|];
        simpl; try by apply Forall2_same.
      match goal with
      | |- context [UserSession.save ?c ?k ?f ?w] =>
          pose proof (save_related same_but_counters c k f w
                        (fun _ => eq_refl) (fun _ => eq_refl)) as [Hsaved _];
          destruct (UserSession.save c k f w) as [w1 [[]|e]]
      end; simpl in *; exact Hsaved.
    + destruct (SessionManagementMiddleware.user_session _) as [[instance|]|];
        simpl; by apply Forall2_same.
  - destruct st as [r w l]. simpl.
    intros instance started Hsession Hstart Hauth Hfault Hrow.
    unfold SessionManagementMiddleware.process_response,
      SessionManagementMiddleware._update_session_activity.
    run_effects. rewrite Hstart, Hauth, Hsession. simpl.
    rewrite ?Hsession. simpl.
    rewrite (save_written _ _ _ _ Hfault Hrow). simpl.
    unfold counted_response.
    destruct (Str.contains _ "/api/v1/chatbot/"); simpl;
      rewrite ?Z.add_0_r; repeat split; by destruct instance.
Qed.

(** Scenario B: the response to a chatbot request of the stored session
    counts one page view and one chat interaction on its row. *)
Lemma process_response_writes_counters_only_witness :
  UserSession.page_views
  <$> UserSession.user_sessions
        (SessionManagementMiddleware.world
           (SessionManagementMiddleware.process_response
              (arriving "UA-A" "1.1.1.1" no_faults)).1)
  = [1].
Proof.
  destruct (process_response_writes_counters_only
              (arriving "UA-A" "1.1.1.1" no_faults)) as [_ Hcounted].
  destruct (Hcounted stored_session 0%Qc) as (_ & Htable & _);
    [reflexivity.. | |].
  - exists stored_session. split; [apply list_elem_of_here | reflexivity].
  - rewrite Htable. reflexivity.
Defined.

(** X21.  [update_activity] stamps the instance with the current time and
    writes that one column: every row of the table is afterwards the row it
    was but for [last_activity], whether the save goes through or not, so
    the method never reactivates an ended session.  When the save goes
    through, the rows of the instance's key carry the new time. *)
Theorem update_activity_writes_one_column (self : UserSession.t)
    (w : UserSession.World) :
  let ran := UserSession.update_activity (self, w) in
  ran.1.1 = UserSession.set_last_activity (UserSession.now w) self
  /\ Forall2 same_but_last_activity (UserSession.user_sessions w)
       (UserSession.user_sessions ran.1.2)
  /\ (UserSession.faults w UserSession.save_last_activity = None ->
      (exists row, row ∈ UserSession.user_sessions w
                   /\ UserSession.pk row = UserSession.pk self) ->
      ran.2 = Returned tt
      /\ UserSession.user_sessions ran.1.2
         = map (fun row =>
                  if bool_decide (UserSession.pk row = UserSession.pk self)
                  then UserSession.set_last_activity (UserSession.now w) row
                  else row)
             (UserSession.user_sessions w)).
Proof.
  intros ran. subst ran. unfold UserSession.update_activity.
  unfold mbind, M_bind, bind, gets, modify, zoom. simpl.
  match goal with
  | |- context [UserSession.save ?c ?k ?f ?w] =>
      pose proof (save_related same_but_last_activity c k f w
                    (fun _ => eq_refl) (fun _ => eq_refl)) as [Hsaved _];
      pose proof (save_written c k f w) as Hwritten;
      destruct (UserSession.save c k f w) as [w1 [[]|e]] eqn:Hsave
  end; simpl in *.
  - split; [done | split; [exact Hsaved |]].
    intros Hfault Hrow. specialize (Hwritten Hfault Hrow).
    by injection Hwritten as ->.
  - split; [done | split; [exact Hsaved |]].
    intros Hfault Hrow. by specialize (Hwritten Hfault Hrow).
Qed.

(** On a copy of the stored session read before the session was ended,
    [update_activity] stamps the ended row and leaves it ended. *)
Lemma update_activity_writes_one_column_witness :
  let ended := UserSession.set_ended false (Some 0%Qc) stored_session in
  (UserSession.update_activity
     (stored_session, world_at 9 [ended] no_faults)).1.2
  = world_at 9 [UserSession.set_last_activity (Q2Qc 9) ended] no_faults.
Proof.
  intros ended.
  destruct (update_activity_writes_one_column stored_session
              (world_at 9 [ended] no_faults)) as (_ & _ & Hwritten).
  destruct Hwritten as [_ Htable]; [reflexivity | |].
  - exists ended. split; [apply list_elem_of_here | reflexivity].
  - destruct (UserSession.update_activity _) as [[self' w'] out] eqn:Hran.
    simpl in *.
    assert (w' = UserSession.set_user_sessions (UserSession.user_sessions w')
                   (world_at 9 [ended] no_faults)) as ->.
    { vm_compute in Hran. by injection Hran as <- <- <-. }
    rewrite Htable. reflexivity.
Defined.

(** X22.  Once [end_session] has run on an instance, its duration is the
    time from its start to that moment and no longer follows the clock,
    whether or not the save went through. *)
Theorem duration_stops_at_end_session (self : UserSession.t)
    (w later : UserSession.World) :
  UserSession.get_duration (UserSession.end_session (self, w)).1.1 later
  = (UserSession.now w - UserSession.started_at self)%Qc.
Proof.
  unfold UserSession.end_session, UserSession.get_duration.
  unfold mbind, M_bind, bind, gets, modify, zoom. simpl.
  by destruct (UserSession.save _ _ _ w) as [w1 [[]|e]].
Qed.

(** ** The cleanup of sessions *)

Ltac run_cleanup :=
  unfold SessionCleanupMiddleware.logger, SessionCleanupMiddleware.ask in *;
  unfold mbind, M_bind, mret, M_ret, bind, ret, raise, gets, modify,
    try_except, zoom, when_, UserSession.reach in *;
  simpl in *.

Section cleanup.
Import UserSession SessionCleanupMiddleware.

Lemma set_world_same (st : State) (table : list UserSession.t) :
  table = user_sessions (world st) ->
  set_world (set_user_sessions table (world st)) st = st.
Proof. intros ->. by destruct st as [[]]. Qed.

(** Ending the fetched rows one after the other, when every save goes
    through: the rows of their keys are ended, and all of them are
    counted. *)
Lemma end_each_ends (rows : list UserSession.t) :
  forall (count : Z) (st : State),
    faults (world st) save_end = None ->
    (forall r, r ∈ rows ->
               exists row, row ∈ user_sessions (world st) /\ pk row = pk r) ->
    end_each rows count st
    = (set_world
         (set_user_sessions
            (ended_where (fun row => bool_decide (pk row ∈ map pk rows))
               (now (world st)) (user_sessions (world st)))
            (world st)) st,
       Returned (count + Z.of_nat (length rows))).
Proof.
  induction rows as [|session rest IH]; intros count st Hfault Hrows.
  - simpl. unfold ret. rewrite set_world_same, Z.add_0_r; [done |].
    unfold ended_where.
    transitivity (map id (user_sessions (world st))); [| apply map_id].
    apply map_ext. intros row.
    first [ done | rewrite bool_decide_false; [done | apply not_elem_of_nil] ].
  - simpl. unfold mbind, M_bind, bind, zoom.
    rewrite (end_session_saved session (world st) Hfault)
      by (apply Hrows, list_elem_of_here).
    simpl. rewrite IH; simpl.
    + f_equal; [| f_equal; lia].
      destruct st as [w rows' i a t q l]. unfold set_world, set_user_sessions.
      simpl. f_equal. f_equal. unfold ended_where, ended_in.
      rewrite map_map. apply map_ext. intros row.
      destruct (bool_decide (pk row = pk session)) eqn:Hpk; simpl.
      * apply bool_decide_eq_true in Hpk.
        rewrite (bool_decide_true (pk row ∈ pk session :: map pk rest))
          by (rewrite Hpk; apply list_elem_of_here).
        by destruct (bool_decide (pk row ∈ map pk rest)).
      * apply bool_decide_eq_false in Hpk.
        rewrite (bool_decide_ext (pk row ∈ pk session :: map pk rest)
                   (pk row ∈ map pk rest)); [done |].
        rewrite elem_of_cons. split; [by intros [Hsame | Hrest] | by right].
    + exact Hfault.
    + intros r Hr. destruct (Hrows r) as (row & Hin & Hpk);
        [by apply list_elem_of_further |].
      eexists. split; [apply list_elem_of_fmap; by exists row |].
      by destruct (bool_decide (pk row = pk session)).
Qed.

(** With unique primary keys, ending the rows a filter selects ends
    exactly the rows that satisfy it. *)
Lemma end_each_filter (p : UserSession.t -> bool) (count : Z) (st : State) :
  faults (world st) save_end = None ->
  NoDup (map pk (user_sessions (world st))) ->
  end_each (List.filter p (user_sessions (world st))) count st
  = (set_world
       (set_user_sessions
          (ended_where p (now (world st)) (user_sessions (world st)))
          (world st)) st,
     Returned (count
               + Z.of_nat (length (List.filter p (user_sessions (world st)))))).
Proof.
  intros Hfault Hunique. rewrite end_each_ends; [| done |].
  - do 3 f_equal. unfold ended_where. apply map_ext_in. intros row Hin.
    apply list_elem_of_In in Hin.
    destruct (p row) eqn:Hp.
    + rewrite bool_decide_true; [done |].
      apply list_elem_of_fmap. exists row. split; [done |].
      apply list_elem_of_In, filter_In. by rewrite <- list_elem_of_In.
    + rewrite bool_decide_false; [done |].
      intros (other & Hpk & Hother)%list_elem_of_fmap.
      apply list_elem_of_In, filter_In in Hother as [Hother Hp'].
      apply list_elem_of_In in Hother.
      assert (row = other) as -> by by apply (unique_by pk _ _ _ Hunique).
      congruence.
  - intros r Hr. exists r. split; [| done].
    apply list_elem_of_In, filter_In in Hr as [Hr _].
    by apply list_elem_of_In.
Qed.

(** After a pass that ends what a filter of active rows selects, the
    filter selects nothing. *)
Lemma filter_ended_where (p : UserSession.t -> bool) (timestamp : Qc)
    (table : list UserSession.t) :
  (forall row, p row = true -> is_active row = true) ->
  (forall row, is_active row = false -> p row = false) ->
  List.filter p (ended_where p timestamp table) = [].
Proof.
  intros Hactive Hended. unfold ended_where.
  induction table as [|row table IH]; simpl; [done |].
  destruct (p row) eqn:Hp; simpl.
  - by rewrite (Hended (set_ended false (Some timestamp) row)).
  - by rewrite Hp.
Qed.

Lemma ended_where_pk (p : UserSession.t -> bool) (timestamp : Qc)
    (table : list UserSession.t) :
  map pk (ended_where p timestamp table) = map pk table.
Proof.
  unfold ended_where. rewrite map_map. apply map_ext. intros row.
  by destruct (p row).
Qed.

Lemma ended_where_nothing (p : UserSession.t -> bool) (timestamp : Qc)
    (table : list UserSession.t) :
  List.filter p table = [] -> ended_where p timestamp table = table.
Proof.
  intros Hnone. unfold ended_where.
  transitivity (map id table); [| apply map_id].
  apply map_ext_in. intros row Hin.
  destruct (p row) eqn:Hp; [| done].
  assert (In row (List.filter p table)) as Hfiltered by by apply filter_In.
  by rewrite Hnone in Hfiltered.
Qed.

End cleanup.

Section cleanup_passes.
Import UserSession SessionCleanupMiddleware.

Lemma cleanup_inactive_run (st : State) :
  cleanup_unhindered st ->
  NoDup (map pk (user_sessions (world st))) ->
  _cleanup_inactive_sessions st
  = (mkState
       (set_user_sessions
          (ended_where (inactive_since (inactivity_cutoff st)) (now (world st))
             (user_sessions (world st)))
          (world st))
       (sessions st) (SESSION_CLEANUP_INTERVAL st) (SESSION_COOKIE_AGE st)
       (SESSION_INACTIVITY_TIMEOUT st) (query_faults st)
       (log st
        ++ reported info_ended_inactive
             (length (List.filter (inactive_since (inactivity_cutoff st))
                        (user_sessions (world st))))),
     Returned tt).
Proof.
  intros (Hsave & Hquery & _) Hunique.
  unfold _cleanup_inactive_sessions. run_cleanup. rewrite Hquery. simpl.
  fold (inactivity_cutoff st).
  rewrite (end_each_filter _ 0 st Hsave Hunique). simpl.
  unfold reported. destruct st as [w rows i a t q l]. simpl.
  rewrite !Z.add_0_l.
  case_bool_decide; unfold ret; simpl; [done | by rewrite app_nil_r].
Qed.

Lemma orphaned_among_keys (st : State) (row : UserSession.t) :
  orphaned_among (django_session_keys st) row
  = is_active row && negb (has_django_session st row).
Proof.
  unfold orphaned_among, django_session_keys, has_django_session.
  f_equal. f_equal. apply eq_true_iff_eq.
  rewrite bool_decide_eq_true, elem_of_list_to_set, list_elem_of_fmap,
    existsb_exists.
  split.
  - intros (s & Hkey & Hin). exists s.
    split; [by apply list_elem_of_In | by apply bool_decide_eq_true].
  - intros (s & Hin & Hkey). exists s. apply bool_decide_eq_true in Hkey.
    split; [done | by apply list_elem_of_In].
Qed.

Lemma cleanup_orphaned_run (st : State) :
  cleanup_unhindered st ->
  NoDup (map pk (user_sessions (world st))) ->
  _cleanup_orphaned_sessions st
  = (mkState
       (set_user_sessions
          (ended_where (orphaned_among (django_session_keys st)) (now (world st))
             (user_sessions (world st)))
          (world st))
       (sessions st) (SESSION_CLEANUP_INTERVAL st) (SESSION_COOKIE_AGE st)
       (SESSION_INACTIVITY_TIMEOUT st) (query_faults st)
       (log st
        ++ reported info_ended_orphaned
             (length (List.filter (orphaned_among (django_session_keys st))
                        (user_sessions (world st))))),
     Returned tt).
Proof.
  intros (Hsave & _ & Hkeys & Hquery) Hunique.
  unfold _cleanup_orphaned_sessions. run_cleanup. rewrite Hkeys. simpl.
  rewrite Hquery. simpl. fold (django_session_keys st).
  rewrite (end_each_filter _ 0 st Hsave Hunique). simpl.
  unfold reported. destruct st as [w rows i a t q l]. simpl.
  rewrite !Z.add_0_l.
  case_bool_decide; unfold ret; simpl; [done | by rewrite app_nil_r].
Qed.

End cleanup_passes.

(** X23.  When its query and its saves go through and primary keys are
    unique, the pass over inactive sessions ends exactly the active rows
    whose last activity is earlier than [SESSION_INACTIVITY_TIMEOUT]
    seconds (3600 by default) before now: each gets [is_active = False]
    and [ended_at = now], every other row and the Django sessions are as
    before, and the number ended is logged when it is not zero.  A second
    pass at the same time finds nothing and changes nothing. *)
Theorem inactive_sessions_are_ended (st : SessionCleanupMiddleware.State) :
  cleanup_unhindered st ->
  NoDup (map UserSession.pk
           (UserSession.user_sessions (SessionCleanupMiddleware.world st))) ->
  let inactive :=
    SessionCleanupMiddleware.inactive_since (inactivity_cutoff st) in
  let ran := SessionCleanupMiddleware._cleanup_inactive_sessions st in
  ran.2 = Returned tt
  /\ UserSession.user_sessions (SessionCleanupMiddleware.world ran.1)
     = ended_where inactive
         (UserSession.now (SessionCleanupMiddleware.world st))
         (UserSession.user_sessions (SessionCleanupMiddleware.world st))
  /\ SessionCleanupMiddleware.sessions ran.1 = SessionCleanupMiddleware.sessions st
  /\ SessionCleanupMiddleware.log ran.1
     = SessionCleanupMiddleware.log st
       ++ reported SessionCleanupMiddleware.info_ended_inactive
            (length (List.filter inactive
                       (UserSession.user_sessions
                          (SessionCleanupMiddleware.world st))))
  /\ SessionCleanupMiddleware._cleanup_inactive_sessions ran.1
     = (ran.1, Returned tt).
Proof.
  intros Hcalls Hunique inactive ran. subst ran.
  rewrite (cleanup_inactive_run st Hcalls Hunique). simpl.
  repeat split.
  set (st' := SessionCleanupMiddleware.mkState _ _ _ _ _ _ _).
  assert (cleanup_unhindered st') as Hcalls' by exact Hcalls.
  assert (NoDup (map UserSession.pk
                   (UserSession.user_sessions
                      (SessionCleanupMiddleware.world st')))) as Hunique'
    by (unfold st'; simpl; by rewrite ended_where_pk).
  rewrite (cleanup_inactive_run st' Hcalls' Hunique').
  assert (inactivity_cutoff st' = inactivity_cutoff st) as -> by done.
  assert (List.filter inactive
            (UserSession.user_sessions (SessionCleanupMiddleware.world st'))
          = []) as Hnone.
  { unfold st'. simpl. apply filter_ended_where; intros row;
      unfold inactive, SessionCleanupMiddleware.inactive_since.
    - by intros [? _]%andb_true_iff.
    - by intros ->. }
  fold inactive. rewrite Hnone, (ended_where_nothing _ _ _ Hnone).
  unfold reported, st'. simpl. rewrite app_nil_r.
  by destruct (SessionCleanupMiddleware.world st).
Qed.

(** At time 7200, of two active sessions last seen at 10 and at 7000, the
    pass ends the first and keeps the second. *)
Lemma inactive_sessions_are_ended_witness :
  UserSession.is_active
  <$> UserSession.user_sessions
        (SessionCleanupMiddleware.world
           (SessionCleanupMiddleware._cleanup_inactive_sessions
              (cleanup_at 7200
                 [session_row 1 7 "session_key_0" "127.0.0.1" "UA-A" 10;
                  session_row 2 7 "session_key_1" "127.0.0.1" "UA-A" 7000]
                 [])).1)
  = [false; true].
Proof.
  destruct (inactive_sessions_are_ended
              (cleanup_at 7200
                 [session_row 1 7 "session_key_0" "127.0.0.1" "UA-A" 10;
                  session_row 2 7 "session_key_1" "127.0.0.1" "UA-A" 7000]
                 []))
    as (_ & Htable & _).
  - by repeat split.
  - simpl. apply NoDup_cons. split; [| apply NoDup_singleton].
    intros Hin. apply list_elem_of_singleton in Hin. discriminate.
  - rewrite Htable. vm_compute. reflexivity.
Defined.

(** X24.  When its queries and its saves go through and primary keys are
    unique, the pass over orphaned sessions ends exactly the active rows
    whose session key is the key of no Django session, and leaves every
    other row and the Django sessions as they were; a second pass changes
    nothing. *)
Theorem orphaned_sessions_are_ended (st : SessionCleanupMiddleware.State) :
  cleanup_unhindered st ->
  NoDup (map UserSession.pk
           (UserSession.user_sessions (SessionCleanupMiddleware.world st))) ->
  let orphaned :=
    fun row => UserSession.is_active row && negb (has_django_session st row) in
  let ran := SessionCleanupMiddleware._cleanup_orphaned_sessions st in
  ran.2 = Returned tt
  /\ UserSession.user_sessions (SessionCleanupMiddleware.world ran.1)
     = ended_where orphaned
         (UserSession.now (SessionCleanupMiddleware.world st))
         (UserSession.user_sessions (SessionCleanupMiddleware.world st))
  /\ SessionCleanupMiddleware.sessions ran.1 = SessionCleanupMiddleware.sessions st
  /\ SessionCleanupMiddleware.log ran.1
     = SessionCleanupMiddleware.log st
       ++ reported SessionCleanupMiddleware.info_ended_orphaned
            (length (List.filter orphaned
                       (UserSession.user_sessions
                          (SessionCleanupMiddleware.world st))))
  /\ SessionCleanupMiddleware._cleanup_orphaned_sessions ran.1
     = (ran.1, Returned tt).
Proof.
  intros Hcalls Hunique orphaned ran. subst ran.
  assert (forall row,
             SessionCleanupMiddleware.orphaned_among (django_session_keys st) row
             = orphaned row) as Horphaned
    by (intros row; apply orphaned_among_keys).
  rewrite (cleanup_orphaned_run st Hcalls Hunique). simpl.
  assert (ended_where
            (SessionCleanupMiddleware.orphaned_among (django_session_keys st))
            (UserSession.now (SessionCleanupMiddleware.world st))
            (UserSession.user_sessions (SessionCleanupMiddleware.world st))
          = ended_where orphaned
              (UserSession.now (SessionCleanupMiddleware.world st))
              (UserSession.user_sessions (SessionCleanupMiddleware.world st)))
    as Hended.
  { unfold ended_where. apply map_ext. intros row. by rewrite Horphaned. }
  assert (forall table,
             List.filter
               (SessionCleanupMiddleware.orphaned_among (django_session_keys st))
               table
             = List.filter orphaned table) as Hfilter.
  { intros table. induction table as [|row table IH]; simpl; [done |].
    by rewrite Horphaned, IH. }
  rewrite Hended, Hfilter.
  repeat split.
  set (st' := SessionCleanupMiddleware.mkState _ _ _ _ _ _ _).
  assert (cleanup_unhindered st') as Hcalls' by exact Hcalls.
  assert (NoDup (map UserSession.pk
                   (UserSession.user_sessions
                      (SessionCleanupMiddleware.world st')))) as Hunique'
    by (unfold st'; simpl; by rewrite ended_where_pk).
  rewrite (cleanup_orphaned_run st' Hcalls' Hunique').
  assert (django_session_keys st' = django_session_keys st) as -> by done.
  rewrite Hfilter.
  assert (List.filter orphaned
            (UserSession.user_sessions (SessionCleanupMiddleware.world st'))
          = []) as Hnone.
  { unfold st'. simpl. apply filter_ended_where; intros row; unfold orphaned.
    - by intros [? _]%andb_true_iff.
    - by intros ->. }
  rewrite Hnone.
  assert (ended_where
            (SessionCleanupMiddleware.orphaned_among (django_session_keys st))
            (UserSession.now (SessionCleanupMiddleware.world st'))
            (UserSession.user_sessions (SessionCleanupMiddleware.world st'))
          = UserSession.user_sessions (SessionCleanupMiddleware.world st'))
    as ->.
  { apply ended_where_nothing. by rewrite Hfilter. }
  unfold reported, st'. simpl. rewrite app_nil_r.
  by destruct (SessionCleanupMiddleware.world st).
Qed.

(** Of two active sessions, the one whose Django session is gone is
    ended. *)
Lemma orphaned_sessions_are_ended_witness :
  UserSession.is_active
  <$> UserSession.user_sessions
        (SessionCleanupMiddleware.world
           (SessionCleanupMiddleware._cleanup_orphaned_sessions
              (cleanup_at 20
                 [session_row 1 7 "session_key_0" "127.0.0.1" "UA-A" 10;
                  session_row 2 7 "session_key_1" "127.0.0.1" "UA-A" 10]
                 [SessionCleanupMiddleware.mkSession "session_key_1"
                    (Q2Qc 100)])).1)
  = [false; true].
Proof.
  destruct (orphaned_sessions_are_ended
              (cleanup_at 20
                 [session_row 1 7 "session_key_0" "127.0.0.1" "UA-A" 10;
                  session_row 2 7 "session_key_1" "127.0.0.1" "UA-A" 10]
                 [SessionCleanupMiddleware.mkSession "session_key_1"
                    (Q2Qc 100)]))
    as (_ & Htable & _).
  - by repeat split.
  - simpl. apply NoDup_cons. split; [| apply NoDup_singleton].
    intros Hin. apply list_elem_of_singleton in Hin. discriminate.
  - rewrite Htable. vm_compute. reflexivity.
Defined.

Section cleanup_frames.
Import UserSession SessionCleanupMiddleware.

Lemma cleanup_frame_same (st st' : State) :
  world st' = world st -> sessions st' = sessions st ->
  SESSION_CLEANUP_INTERVAL st' = SESSION_CLEANUP_INTERVAL st ->
  SESSION_COOKIE_AGE st' = SESSION_COOKIE_AGE st ->
  SESSION_INACTIVITY_TIMEOUT st' = SESSION_INACTIVITY_TIMEOUT st ->
  query_faults st' = query_faults st ->
  cleanup_frame st st'.
Proof.
  intros Hworld Hsessions ? ? ? ?. unfold cleanup_frame.
  rewrite Hworld, Hsessions. repeat split; try done.
  by apply Forall2_same.
Qed.

Lemma cleanup_frame_trans (st1 st2 st3 : State) :
  cleanup_frame st1 st2 -> cleanup_frame st2 st3 -> cleanup_frame st1 st3.
Proof.
  unfold cleanup_frame.
  intros ((? & ? & ? & ?) & (? & ? & ?) & Hrows & Hsessions)
    ((? & ? & ? & ?) & (? & ? & ?) & Hrows' & Hsessions').
  repeat split; try congruence.
  - eapply Forall2_chain; [| exact Hrows | exact Hrows'].
    unfold same_but_ending. congruence.
  - by transitivity (sessions st2).
Qed.

Lemma end_session_world (self : UserSession.t) (w : World) :
  (end_session (self, w)).1.2
  = (save save_end (pk self) (set_ended false (Some (now w))) w).1
  /\ (end_session (self, w)).2
     = (save save_end (pk self) (set_ended false (Some (now w))) w).2.
Proof.
  unfold end_session. unfold mbind, M_bind, bind, gets, modify, zoom. simpl.
  by destruct (save _ _ _ w) as [w1 [[]|e]].
Qed.

Lemma end_each_frame (rows : list UserSession.t) :
  forall (count : Z) (st : State),
    cleanup_frame st (end_each rows count st).1
    /\ log (end_each rows count st).1 = log st.
Proof.
  induction rows as [|session rest IH]; intros count st; simpl.
  - split; [by apply cleanup_frame_same | done].
  - unfold mbind, M_bind, bind, zoom.
    destruct (end_session_world session (world st)) as [Hworld Hout].
    pose proof (save_related same_but_ending save_end (pk session)
                  (set_ended false (Some (now (world st)))) (world st)
                  (fun _ => eq_refl) (fun _ => eq_refl))
      as (Hrows & Hnow & Hcache & Hfaults).
    rewrite <- Hworld in Hrows, Hnow, Hcache, Hfaults.
    destruct (end_session (session, world st)) as [[self' w1] out]. simpl in *.
    assert (cleanup_frame st (set_world w1 st)) as Hstep.
    { destruct st as [w rows' i a t q l]. unfold cleanup_frame. simpl in *.
      repeat split; done. }
    destruct out as [[]|e]; simpl; [| done].
    destruct (IH (count + 1) (set_world w1 st)) as [Hrest Hlog].
    split; [by eapply cleanup_frame_trans | by rewrite Hlog].
Qed.

Lemma cleanup_expired_returns (st : State) :
  exists entries : list Log,
    (_cleanup_expired_sessions st).2 = Returned tt
    /\ log (_cleanup_expired_sessions st).1 = log st ++ entries
    /\ cleanup_frame st (_cleanup_expired_sessions st).1.
Proof.
  unfold _cleanup_expired_sessions. run_cleanup.
  destruct (query_faults st count_expired); simpl;
    [eexists [_]; split; [done | split; [done | by apply cleanup_frame_same]] |].
  destruct (query_faults st delete_expired); simpl;
    [eexists [_]; split; [done | split; [done | by apply cleanup_frame_same]] |].
  assert (forall l, cleanup_frame st
            (mkState (world st)
               (List.filter (fun row => negb (expired_before
                                                (seconds_ago
                                                   (default 1209600
                                                      (SESSION_COOKIE_AGE st)) st)
                                                row)) (sessions st))
               (SESSION_CLEANUP_INTERVAL st) (SESSION_COOKIE_AGE st)
               (SESSION_INACTIVITY_TIMEOUT st) (query_faults st) l)) as Hframe.
  { intros l. unfold cleanup_frame. simpl. repeat split; try done.
    - by apply Forall2_same.
    - intros row Hin. apply list_elem_of_In, filter_In in Hin as [Hin _].
      by apply list_elem_of_In. }
  case_bool_decide; unfold ret; simpl.
  - eexists [_]. split; [done | split; [done | apply Hframe]].
  - exists []. rewrite app_nil_r. split; [done | split; [done | apply Hframe]].
Qed.

Lemma cleanup_inactive_returns (st : State) :
  exists entries : list Log,
    (_cleanup_inactive_sessions st).2 = Returned tt
    /\ log (_cleanup_inactive_sessions st).1 = log st ++ entries
    /\ cleanup_frame st (_cleanup_inactive_sessions st).1.
Proof.
  unfold _cleanup_inactive_sessions. run_cleanup.
  destruct (query_faults st iterate_inactive); simpl;
    [eexists [_]; split; [done | split; [done | by apply cleanup_frame_same]] |].
  match goal with
  | |- context [end_each ?rows 0 st] =>
      destruct (end_each_frame rows 0 st) as [Hframe Hlog];
      destruct (end_each rows 0 st) as [st1 [count|e]]
  end; simpl in *.
  - case_bool_decide; unfold ret; simpl.
    + eexists [_]. rewrite Hlog. split; [done | split; [done |]].
      eapply cleanup_frame_trans; [exact Hframe |].
      by apply cleanup_frame_same.
    + exists []. rewrite app_nil_r. done.
  - eexists [_]. rewrite Hlog. split; [done | split; [done |]].
    eapply cleanup_frame_trans; [exact Hframe |].
    by apply cleanup_frame_same.
Qed.

Lemma cleanup_orphaned_returns (st : State) :
  exists entries : list Log,
    (_cleanup_orphaned_sessions st).2 = Returned tt
    /\ log (_cleanup_orphaned_sessions st).1 = log st ++ entries
    /\ cleanup_frame st (_cleanup_orphaned_sessions st).1.
Proof.
  unfold _cleanup_orphaned_sessions. run_cleanup.
  destruct (query_faults st values_list_keys); simpl;
    [eexists [_]; split; [done | split; [done | by apply cleanup_frame_same]] |].
  destruct (query_faults st iterate_orphaned); simpl;
    [eexists [_]; split; [done | split; [done | by apply cleanup_frame_same]] |].
  match goal with
  | |- context [end_each ?rows 0 st] =>
      destruct (end_each_frame rows 0 st) as [Hframe Hlog];
      destruct (end_each rows 0 st) as [st1 [count|e]]
  end; simpl in *.
  - case_bool_decide; unfold ret; simpl.
    + eexists [_]. rewrite Hlog. split; [done | split; [done |]].
      eapply cleanup_frame_trans; [exact Hframe |].
      by apply cleanup_frame_same.
    + exists []. rewrite app_nil_r. done.
  - eexists [_]. rewrite Hlog. split; [done | split; [done |]].
    eapply cleanup_frame_trans; [exact Hframe |].
    by apply cleanup_frame_same.
Qed.

Lemma run_session_cleanup_returns (st : State) :
  exists entries : list Log,
    (_run_session_cleanup st).2 = Returned tt
    /\ log (_run_session_cleanup st).1
       = log st ++ entries ++ [info_cleanup_completed]
    /\ cleanup_frame st (_run_session_cleanup st).1.
Proof.
  unfold _run_session_cleanup.
  unfold mbind, M_bind, bind, try_except.
  destruct (cleanup_expired_returns st) as (entries1 & Hout1 & Hlog1 & Hframe1).
  destruct (_cleanup_expired_sessions st) as [st1 out1]. simpl in *. subst out1.
  destruct (cleanup_inactive_returns st1) as (entries2 & Hout2 & Hlog2 & Hframe2).
  destruct (_cleanup_inactive_sessions st1) as [st2 out2]. simpl in *. subst out2.
  destruct (cleanup_orphaned_returns st2) as (entries3 & Hout3 & Hlog3 & Hframe3).
  destruct (_cleanup_orphaned_sessions st2) as [st3 out3]. simpl in *. subst out3.
  unfold logger, modify. simpl.
  exists (entries1 ++ entries2 ++ entries3).
  split; [done |]. split.
  - rewrite Hlog3, Hlog2, Hlog1. by rewrite <- !app_assoc.
  - eapply cleanup_frame_trans; [exact Hframe1 |].
    eapply cleanup_frame_trans; [exact Hframe2 |].
    eapply cleanup_frame_trans; [exact Hframe3 |].
    by apply cleanup_frame_same.
Qed.

End cleanup_frames.

(** X25.  The pass over Django sessions always returns and leaves the
    user sessions alone.  It deletes a session not when it has expired but
    when it expired more than [SESSION_COOKIE_AGE] seconds (two weeks by
    default) ago: every session whose expiry date is not earlier than now
    minus that age survives the pass, and when the two queries go through
    the sessions left are exactly those. *)
Theorem expired_sessions_are_deleted_late (st : SessionCleanupMiddleware.State) :
  let ran := SessionCleanupMiddleware._cleanup_expired_sessions st in
  ran.2 = Returned tt
  /\ SessionCleanupMiddleware.world ran.1 = SessionCleanupMiddleware.world st
  /\ (forall row : SessionCleanupMiddleware.Session,
         row ∈ SessionCleanupMiddleware.sessions st ->
         (expiry_cutoff st <= SessionCleanupMiddleware.expire_date row)%Qc ->
         row ∈ SessionCleanupMiddleware.sessions ran.1)
  /\ (SessionCleanupMiddleware.query_faults st
        SessionCleanupMiddleware.count_expired = None ->
      SessionCleanupMiddleware.query_faults st
        SessionCleanupMiddleware.delete_expired = None ->
      SessionCleanupMiddleware.sessions ran.1
      = List.filter
          (fun row =>
             bool_decide
               (expiry_cutoff st <= SessionCleanupMiddleware.expire_date row)%Qc)
          (SessionCleanupMiddleware.sessions st)).
Proof.
  intros ran. subst ran.
  assert (forall row,
             negb (SessionCleanupMiddleware.expired_before (expiry_cutoff st) row)
             = bool_decide
                 (expiry_cutoff st <= SessionCleanupMiddleware.expire_date row)%Qc)
    as Hkept.
  { intros row. unfold SessionCleanupMiddleware.expired_before.
    apply eq_true_iff_eq.
    rewrite negb_true_iff, bool_decide_eq_false, bool_decide_eq_true.
    split; [apply Qcnot_lt_le | apply Qcle_not_lt]. }
  unfold SessionCleanupMiddleware._cleanup_expired_sessions. run_cleanup.
  fold (expiry_cutoff st).
  destruct (SessionCleanupMiddleware.query_faults st
              SessionCleanupMiddleware.count_expired); simpl; [done |].
  destruct (SessionCleanupMiddleware.query_faults st
              SessionCleanupMiddleware.delete_expired); simpl; [done |].
  assert (forall row,
             row ∈ SessionCleanupMiddleware.sessions st ->
             (expiry_cutoff st <= SessionCleanupMiddleware.expire_date row)%Qc ->
             row ∈ List.filter
                     (fun row =>
                        negb (SessionCleanupMiddleware.expired_before
                                (expiry_cutoff st) row))
                     (SessionCleanupMiddleware.sessions st)) as Hsurvives.
  { intros row Hin Hlate. apply list_elem_of_In, filter_In.
    split; [by apply list_elem_of_In |].
    rewrite Hkept. by apply bool_decide_eq_true. }
  assert (forall rows,
             List.filter
               (fun row =>
                  negb (SessionCleanupMiddleware.expired_before
                          (expiry_cutoff st) row))
               rows
             = List.filter
                 (fun row =>
                    bool_decide
                      (expiry_cutoff st
                       <= SessionCleanupMiddleware.expire_date row)%Qc)
                 rows) as Hfilter.
  { intros rows. induction rows as [|row rows IH]; simpl; [done |].
    by rewrite Hkept, IH. }
  case_bool_decide; unfold ret; simpl; repeat split; done.
Qed.

(** At time 2000000 under the default age, a session that expired at
    1000000 is still there after the pass, and one that expired at 100 is
    deleted. *)
Lemma expired_sessions_are_deleted_late_witness :
  SessionCleanupMiddleware.sessions
    (SessionCleanupMiddleware._cleanup_expired_sessions
       (cleanup_at 2000000 []
          [SessionCleanupMiddleware.mkSession "session_key_0" (Q2Qc 100);
           SessionCleanupMiddleware.mkSession "session_key_1"
             (Q2Qc 1000000)])).1
  = [SessionCleanupMiddleware.mkSession "session_key_1" (Q2Qc 1000000)].
Proof.
  destruct (expired_sessions_are_deleted_late
              (cleanup_at 2000000 []
                 [SessionCleanupMiddleware.mkSession "session_key_0" (Q2Qc 100);
                  SessionCleanupMiddleware.mkSession "session_key_1"
                    (Q2Qc 1000000)]))
    as (_ & _ & _ & Hleft).
  rewrite Hleft; [| reflexivity | reflexivity]. vm_compute. reflexivity.
Defined.

(** X26.  [_run_session_cleanup] never raises and always ends by logging
    that the cleanup completed, whatever failed in its three passes: each
    pass catches its own exceptions, so the handler of the whole run is
    never taken.  The run leaves the settings, the clock and the cache as
    they were, changes nothing of a user session but [is_active] and
    [ended_at], and adds no Django session. *)
Theorem cleanup_always_reports_completion (st : SessionCleanupMiddleware.State) :
  exists entries : list SessionCleanupMiddleware.Log,
    (SessionCleanupMiddleware._run_session_cleanup st).2 = Returned tt
    /\ SessionCleanupMiddleware.log
         (SessionCleanupMiddleware._run_session_cleanup st).1
       = SessionCleanupMiddleware.log st ++ entries
         ++ [SessionCleanupMiddleware.info_cleanup_completed]
    /\ cleanup_frame st (SessionCleanupMiddleware._run_session_cleanup st).1.
Proof. apply run_session_cleanup_returns. Qed.

(** X27.  When the two cache calls go through, the cleanup middleware
    lets the request pass and keeps count: below the interval
    ([SESSION_CLEANUP_INTERVAL], 100 by default) the counter goes up by one
    and nothing else is touched, neither a session nor the log; at the
    interval or above, the cleanup runs, logs its completion, and the
    counter restarts at 0.  The cleanup therefore runs on the request that
    finds the counter at the interval, the 101st after a restart. *)
Theorem cleanup_runs_at_the_interval (st : SessionCleanupMiddleware.State)
    (counter : Z) :
  UserSession.faults (SessionCleanupMiddleware.world st) UserSession.cache_get
  = None ->
  UserSession.faults (SessionCleanupMiddleware.world st) UserSession.cache_set
  = None ->
  cleanup_counter st = UserSession.CInt counter ->
  let interval :=
    default 100 (SessionCleanupMiddleware.SESSION_CLEANUP_INTERVAL st) in
  let ran := SessionCleanupMiddleware.process_request st in
  ran.2 = Returned tt
  /\ cleanup_counter ran.1
     = UserSession.CInt (if bool_decide (interval <= counter) then 0
                         else counter + 1)
  /\ (counter < interval ->
      UserSession.user_sessions (SessionCleanupMiddleware.world ran.1)
      = UserSession.user_sessions (SessionCleanupMiddleware.world st)
      /\ SessionCleanupMiddleware.sessions ran.1
         = SessionCleanupMiddleware.sessions st
      /\ SessionCleanupMiddleware.log ran.1 = SessionCleanupMiddleware.log st)
  /\ (interval <= counter ->
      exists entries : list SessionCleanupMiddleware.Log,
        SessionCleanupMiddleware.log ran.1
        = SessionCleanupMiddleware.log st ++ entries
          ++ [SessionCleanupMiddleware.info_cleanup_completed]).
Proof.
  intros Hget Hset Hcounter interval ran. subst ran interval.
  unfold cleanup_counter in *.
  unfold SessionCleanupMiddleware.process_request,
    SessionCleanupMiddleware.set_counter.
  run_cleanup. rewrite Hget. simpl. rewrite Hcounter. simpl.
  case_bool_decide as Hdue; simpl.
  - destruct (run_session_cleanup_returns st)
      as (entries & Hout & Hlog & _ & (Hnow & Hcache & Hfaults) & _).
    destruct (SessionCleanupMiddleware._run_session_cleanup st) as [st1 out].
    simpl in *. subst out. rewrite Hfaults, Hset. simpl.
    split; [done |]. split.
    + unfold SessionManagementMiddleware.cache_get_or. simpl.
      rewrite lookup_insert_eq, bool_decide_true; [done |].
      by apply Qclt_plus_pos.
    + split; [lia |]. intros _. by exists entries.
  - rewrite Hset. simpl. split; [done |]. split.
    + unfold SessionManagementMiddleware.cache_get_or. simpl.
      rewrite lookup_insert_eq, bool_decide_true; [done |].
      by apply Qclt_plus_pos.
    + split; [done | lia].
Qed.

(** A first request counts 1 and cleans nothing; one that finds the
    counter at 100 restarts it. *)
Lemma cleanup_runs_at_the_interval_witness :
  cleanup_counter
    (SessionCleanupMiddleware.process_request (cleanup_at 20 six_sessions [])).1
  = UserSession.CInt 1
  /\ UserSession.user_sessions
       (SessionCleanupMiddleware.world
          (SessionCleanupMiddleware.process_request
             (cleanup_at 20 six_sessions [])).1)
     = six_sessions.
Proof.
  destruct (cleanup_runs_at_the_interval (cleanup_at 20 six_sessions []) 0)
    as (_ & Hcounter & Hbelow & _); [reflexivity.. |].
  split; [exact Hcounter |].
  destruct Hbelow as (Htable & _); [simpl; lia | exact Htable].
Defined.

(** X28.  The cleanup middleware reads and writes its counter outside any
    [try]: when the cache read fails the exception leaves
    [process_request] at once, with nothing done, and when the cache write
    fails it leaves after the counter was read, and after the whole
    cleanup has run if it was due. *)
Theorem cleanup_middleware_raises_on_cache_failure
    (st : SessionCleanupMiddleware.State) (e : Exn) :
  (UserSession.faults (SessionCleanupMiddleware.world st) UserSession.cache_get
   = Some e ->
   SessionCleanupMiddleware.process_request st = (st, Raised e))
  /\ (forall counter : Z,
         UserSession.faults (SessionCleanupMiddleware.world st)
           UserSession.cache_get = None ->
         UserSession.faults (SessionCleanupMiddleware.world st)
           UserSession.cache_set = Some e ->
         cleanup_counter st = UserSession.CInt counter ->
         SessionCleanupMiddleware.process_request st
         = (if bool_decide
                 (default 100
                    (SessionCleanupMiddleware.SESSION_CLEANUP_INTERVAL st)
                  <= counter)
            then (SessionCleanupMiddleware._run_session_cleanup st).1
            else st,
            Raised e)).
Proof.
  unfold cleanup_counter. split.
  - intros Hget. unfold SessionCleanupMiddleware.process_request.
    run_cleanup. by rewrite Hget.
  - intros counter Hget Hset Hcounter.
    unfold SessionCleanupMiddleware.process_request,
      SessionCleanupMiddleware.set_counter.
    run_cleanup. rewrite Hget. simpl. rewrite Hcounter. simpl.
    case_bool_decide as Hdue; simpl.
    + destruct (run_session_cleanup_returns st)
        as (entries & Hout & Hlog & _ & (Hnow & Hcache & Hfaults) & _).
      destruct (SessionCleanupMiddleware._run_session_cleanup st) as [st1 out].
      simpl in *. subst out. by rewrite Hfaults, Hset.
    + by rewrite Hset.
Qed.

Lemma cleanup_middleware_raises_on_cache_failure_witness :
  let st :=
    SessionCleanupMiddleware.mkState
      (world_at 20 six_sessions
         (fault_at UserSession.cache_get
            (raise_ RedisConnectionError "Connection refused")))
      [] None None None (fun _ => None) [] in
  SessionCleanupMiddleware.process_request st
  = (st, Raised (raise_ RedisConnectionError "Connection refused")).
Proof.
  intros st.
  apply (cleanup_middleware_raises_on_cache_failure st
           (raise_ RedisConnectionError "Connection refused")).
  reflexivity.
Defined.

(** ** The session attribute of a request *)

Section session_attribute.
Import UserSession SessionManagementMiddleware.

(** Resolving the session of an authenticated request notes the start
    time and always sets [request.user_session], to a session or to
    [None]. *)
Lemma resolve_session_request `{!Libraries} (st : State) :
  is_authenticated (user (request st)) = true ->
  exists st' : State,
    resolve_session st = (st', Returned tt)
    /\ session_start_time (request st') = Some (now (world st))
    /\ is_Some (user_session (request st'))
    /\ user (request st') = user (request st).
Proof.
  destruct st as [[path user key agent forwarded remote started session] w l].
  simpl. intros Hauth.
  destruct user as [|uid email]; [done |].
  unfold resolve_session, _handle_authenticated_session,
    _get_or_create_user_session, _create_new_user_session,
    _update_user_activity, objects_create_row, _get_client_ip, user_email,
    user_pk, save.
  run_effects.
  split_cases; eexists; (split; [reflexivity |]); simpl; repeat split; eauto.
Qed.

(** The gates keep the start time and the user, and keep the session
    attribute set: [None] stays [None] and a session stays a session. *)
Lemma gates_request (st : State) (x : option UserSession.t) :
  user_session (request st) = Some x ->
  session_start_time (request (gates st).1) = session_start_time (request st)
  /\ user (request (gates st).1) = user (request st)
  /\ exists y : option UserSession.t,
       user_session (request (gates st).1) = Some y
       /\ (is_Some y <-> is_Some x).
Proof.
  destruct st as [[path user key agent forwarded remote started session] w l].
  simpl. intros ->.
  unfold gates, _validate_session_security, _check_session_consistency,
    _detect_suspicious_activity, _check_concurrent_sessions,
    _create_security_violation_response, end_session, _get_client_ip,
    user_email, user_pk, save.
  run_effects.
  split_cases; (split; [done |]); (split; [done |]); eexists;
    (split; [reflexivity |]); split; intros [? [=]]; eauto.
Qed.

(** What [process_response] returns is decided by the session
    attribute. *)
Lemma process_response_outcome (st : State) (started : Qc) :
  session_start_time (request st) = Some started ->
  (forall s : UserSession.t,
      user_session (request st) = Some (Some s) ->
      (process_response st).2
      = Returned [X_Session_Duration (now (world st) - started)%Qc;
                  X_Session_ID (UserSession.session_key s)])
  /\ (user_session (request st) = Some None ->
      exists e : Exn,
        (process_response st).2 = Raised e /\ exc_class e = AttributeError).
Proof.
  intros Hstart. unfold process_response. run_effects. rewrite Hstart. simpl.
  split.
  - intros s Hsession. rewrite Hsession. simpl.
    destruct (is_authenticated _ && _); simpl; [| done].
    destruct (update_session_activity_returns st) as [st' ->]. done.
  - intros Hsession. rewrite Hsession. simpl.
    destruct (is_authenticated _ && _); simpl; [| by eexists].
    destruct (update_session_activity_returns st) as [st' ->]. by eexists.
Qed.

End session_attribute.

(** X29.  On an authenticated request whose path is not skipped,
    [process_request] always leaves [request.user_session] set, whatever
    failed and whether it returned, answered or raised: to a session, and
    then [process_response] returns the duration and the session id; or to
    [None], when the session could be neither found nor created, and then
    [process_response] raises AttributeError instead of returning the
    response. *)
Theorem session_attribute_decides_the_response
    `{!SessionManagementMiddleware.Libraries}
    (st : SessionManagementMiddleware.State) :
  SessionManagementMiddleware.is_authenticated
    (SessionManagementMiddleware.user (SessionManagementMiddleware.request st))
  = true ->
  SessionManagementMiddleware._should_skip_session_management
    (SessionManagementMiddleware.request st) = false ->
  let st' := (SessionManagementMiddleware.process_request st).1 in
  let started := UserSession.now (SessionManagementMiddleware.world st) in
  SessionManagementMiddleware.session_start_time
    (SessionManagementMiddleware.request st') = Some started
  /\ ((exists s : UserSession.t,
          SessionManagementMiddleware.user_session
            (SessionManagementMiddleware.request st') = Some (Some s)
          /\ (SessionManagementMiddleware.process_response st').2
             = Returned
                 [SessionManagementMiddleware.X_Session_Duration
                    (UserSession.now (SessionManagementMiddleware.world st')
                     - started)%Qc;
                  SessionManagementMiddleware.X_Session_ID
                    (UserSession.session_key s)])
      \/ (SessionManagementMiddleware.user_session
            (SessionManagementMiddleware.request st') = Some None
          /\ exists e : Exn,
               (SessionManagementMiddleware.process_response st').2 = Raised e
               /\ exc_class e = AttributeError)).
Proof.
  intros Hauth Hskip st' started. subst st' started.
  destruct (resolve_session_request st Hauth)
    as (st1 & Hresolved & Hstart & [x Hsession] & Huser).
  assert ((SessionManagementMiddleware.process_request st).1
          = (SessionManagementMiddleware.gates st1).1) as ->.
  { unfold SessionManagementMiddleware.process_request.
    unfold mbind, M_bind, bind, gets. rewrite Hskip, Hresolved. simpl.
    by destruct (SessionManagementMiddleware.gates st1) as [st2 [response|e]]. }
  destruct (gates_request st1 x Hsession) as (Hstart' & _ & y & Hsession' & Hsame).
  rewrite Hstart in Hstart'. split; [exact Hstart' |].
  destruct (process_response_outcome _ _ Hstart') as [Hreturns Hraises].
  destruct y as [s|].
  - left. exists s. split; [exact Hsession' | by apply Hreturns].
  - right. split; [exact Hsession' | by apply Hraises].
Qed.

(** With the database down at the lookup, the request of the stored
    session is let through with the attribute [None], and the response
    hook raises. *)
Lemma session_attribute_decides_the_response_witness :
  let st :=
    SessionManagementMiddleware.mkState
      (chatbot_request "session_key_0" "UA-A" "1.1.1.1")
      (world_at 9 [stored_session]
         (fault_at UserSession.filter_first
            (raise_ OperationalError "could not connect to server")))
      [] in
  let st' := (SessionManagementMiddleware.process_request st).1 in
  SessionManagementMiddleware.session_start_time
    (SessionManagementMiddleware.request st') = Some (Q2Qc 9)
  /\ exists e : Exn,
       (SessionManagementMiddleware.process_response st').2 = Raised e
       /\ exc_class e = AttributeError.
Proof.
  intros st st'.
  destruct (session_attribute_decides_the_response st)
    as [Hstart [(s & Hsession & _) | [_ Hraises]]];
    [reflexivity | reflexivity | | ].
  - exfalso. vm_compute in Hsession. discriminate Hsession.
  - split; [exact Hstart | exact Hraises].
Defined.

(** X30.  A security violation on a request whose session attribute is
    [None] is not answered 403: when the lookup of the session had failed
    and the request counter of the client is above 100, the gates raise
    AttributeError on [request.user_session.end_session()], after logging
    the violation and without touching the table. *)
Theorem violation_without_session_raises
    (st : SessionManagementMiddleware.State) (uid : Z) (email : string)
    (count : Z) :
  SessionManagementMiddleware.user_session (SessionManagementMiddleware.request st)
  = Some None ->
  SessionManagementMiddleware.user (SessionManagementMiddleware.request st)
  = SessionManagementMiddleware.CustomUser uid email ->
  rate_check_unhindered st ->
  request_rate st = UserSession.CInt count ->
  100 < count ->
  exists e : Exn,
    SessionManagementMiddleware.gates st
    = (logging
         [SessionManagementMiddleware.warning_high_request_rate email;
          SessionManagementMiddleware.warning_suspicious_activity email;
          SessionManagementMiddleware.warning_security_violation email]
         st,
       Raised e)
    /\ exc_class e = AttributeError.
Proof.
  destruct st as [[path user key agent forwarded remote started session] w l].
  unfold rate_check_unhindered, request_rate, logging. simpl.
  intros -> -> (Hip & Hget & _) Hcached Hrate.
  unfold SessionManagementMiddleware.gates,
    SessionManagementMiddleware._validate_session_security,
    SessionManagementMiddleware._check_session_consistency,
    SessionManagementMiddleware._detect_suspicious_activity,
    SessionManagementMiddleware._create_security_violation_response,
    SessionManagementMiddleware._get_client_ip,
    SessionManagementMiddleware.user_email.
  run_effects. rewrite Hip. simpl. rewrite Hget. simpl. rewrite Hcached. simpl.
  rewrite bool_decide_true by done. simpl.
  eexists. split; [rewrite <- ?app_assoc; reflexivity | reflexivity].
Qed.

(** The database is down at the lookup and the client has made 101
    requests within the minute: the request is answered by an
    AttributeError. *)
Lemma violation_without_session_raises_witness :
  let key := "request_rate:1.1.1.1:7" in
  let st :=
    SessionManagementMiddleware.mkState
      (SessionManagementMiddleware.set_user_session None
         (chatbot_request "session_key_0" "UA-A" "1.1.1.1"))
      (UserSession.set_cache {[ key := (UserSession.CInt 101, Q2Qc 60) ]}
         (world_at 9 [stored_session] no_faults))
      [] in
  exists e : Exn,
    (SessionManagementMiddleware.gates st).2 = Raised e
    /\ exc_class e = AttributeError.
Proof.
  intros key st.
  destruct (violation_without_session_raises st 7 "test@example.com" 101)
    as (e & Hgates & Hclass);
    [reflexivity | reflexivity | by repeat split | vm_compute; reflexivity | lia |].
  exists e. by rewrite Hgates.
Defined.
